(** * Submission processor: validation, credential lifecycle, stage tools
      and the LangGraph pipeline of [adopt/tools.py] and
      [adopt/agent_backup.py], embedded as Rocq functions.

    Python objects are modelled as follows.
    - [str] is [string]; a character is a code point below 256.
    - A [dict] is a [gmap] from [string] keys.
    - A raised exception is the [Raise] case of [res]; a [try]/[except
      Exception] block is [try_except].
    - Collaborators that live outside the repository (the
      [email_validator] parser, the Google client libraries, the tool
      objects held by the agent) are parameters. *)

From Stdlib Require Import ZArith Lia Ascii String.
From stdpp Require Import base strings gmap list pretty.

Open Scope string_scope.
Open Scope Z_scope.

(* ===================================================================== *)
(** * Part I. The embedding *)
(* ===================================================================== *)

(** ** Python values that occur in the program *)

Inductive pyval :=
| PNone
| PBool (b : bool)
| PStr (s : string)
| PBytes (b : string)
| PStrDict (d : gmap string string).

Definition truthy (v : pyval) : bool :=
  match v with
  | PNone => false
  | PBool b => b
  | PStr s => negb (bool_decide (s = ""))
  | PBytes s => negb (bool_decide (s = ""))
  | PStrDict d => negb (bool_decide (d = ∅))
  end.

(** [str(v)] as used by the f-strings of the tools. Only [None] and
    strings are ever formatted; the other cases follow Python's [repr]
    loosely. *)
Definition py_str (v : pyval) : string :=
  match v with
  | PNone => "None"
  | PBool true => "True"
  | PBool false => "False"
  | PStr s => s
  | PBytes s => "b'" +:+ s +:+ "'"
  | PStrDict _ => "{...}"
  end.

(** ** Exceptions *)

Inductive error_kind :=
| FieldRequired
| MinLength
| FieldCannotBeEmpty
| InvalidEmailFormat.

Definition error_msg (k : error_kind) : string :=
  match k with
  | FieldRequired => "field required"
  | MinLength => "ensure this value has at least 1 characters"
  | FieldCannotBeEmpty => "Field cannot be empty"
  | InvalidEmailFormat => "Invalid email format"
  end.

Definition error_type (k : error_kind) : string :=
  match k with
  | FieldRequired => "value_error.missing"
  | MinLength => "value_error.any_str.min_length; limit_value=1"
  | FieldCannotBeEmpty => "value_error"
  | InvalidEmailFormat => "value_error"
  end.

Record error_item := ErrorItem { loc : string; kind : error_kind }.

Inductive exn :=
| KeyError (key : string)
| TypeError (msg : string)
| ValueError (msg : string)
| ValidationError (errs : list error_item)
| GraphRecursionError
| ExternalError (msg : string).

Definition render_item (e : error_item) : string :=
  loc e +:+ "
  " +:+ error_msg (kind e) +:+ " (type=" +:+ error_type (kind e) +:+ ")".

Definition str_exn (e : exn) : string :=
  match e with
  | KeyError k => "'" +:+ k +:+ "'"
  | TypeError m => m
  | ValueError m => m
  | ValidationError errs =>
      pretty (length errs) +:+
      (if bool_decide (length errs = 1%nat)
       then " validation error" else " validation errors") +:+
      " for UserSubmission" +:+
      foldr (fun e acc => "
" +:+ render_item e +:+ acc) "" errs
  | GraphRecursionError => "Recursion limit of 25 reached"
  | ExternalError m => m
  end.

Inductive res (A : Type) :=
| Return (a : A)
| Raise (e : exn).
Arguments Return {A} a.
Arguments Raise {A} e.

Definition res_bind {A B} (m : res A) (k : A -> res B) : res B :=
  match m with
  | Return a => k a
  | Raise e => Raise e
  end.

(** [d[k]]: a missing key raises [KeyError]. *)
Definition getitem {V} (d : gmap string V) (k : string) : res V :=
  match d !! k with
  | Some v => Return v
  | None => Raise (KeyError k)
  end.

(** [d.get(k)] and [d.get(k, default)]. *)
Definition dict_get (d : gmap string pyval) (k : string) : pyval :=
  default PNone (d !! k).

Definition dict_get_default (d : gmap string pyval) (k : string) (dflt : pyval)
  : pyval :=
  default dflt (d !! k).

(** ** [str.strip()] *)

Definition is_space (c : ascii) : bool :=
  bool_decide (N_of_ascii c ∈ [9; 10; 11; 12; 13; 28; 29; 30; 31; 32; 133; 160]%N).

Fixpoint lstrip (s : string) : string :=
  match s with
  | EmptyString => EmptyString
  | String c s' => if is_space c then lstrip s' else s
  end.

Fixpoint rstrip (s : string) : string :=
  match s with
  | EmptyString => EmptyString
  | String c s' =>
      match rstrip s' with
      | EmptyString => if is_space c then EmptyString else String c EmptyString
      | r => String c r
      end
  end.

Definition strip (s : string) : string := rstrip (lstrip s).

(** ** [UserSubmission] (tools.py) *)

Module UserSubmission.

Record t := Build
  { name : string; email : string; address : string;
    recipient_email : string }.

(** The [email_validator] package is not part of the repository:
    [email_validator.validate_email(v)] is a parameter [ev] that
    answers [Some normalized] or [None] for [EmailNotValidError]. The
    answer is taken as a function of the value alone: what the library
    does to reach it (with its defaults it also looks the domain up in
    the DNS) is not modelled, so nothing here speaks about the I/O of
    the library or about two calls that are answered differently. *)
Definition email_parser := string -> option string.

(** [@validator('name', 'address')] *)
Definition validate_required_fields (v : string) : res string :=
  if bool_decide (v = "") || bool_decide (strip v = "")
  then Raise (ValueError "Field cannot be empty")
  else Return (strip v).

(** [@validator('email', 'recipient_email')] *)
Definition validate_email (ev : email_parser) (v : string) : res string :=
  match ev v with
  | Some normalized => Return normalized
  | None => Raise (ValueError "Invalid email format")
  end.

(** Validation of one field by pydantic: a value that is absent is an
    error; the declared constraint ([min_length=1]) runs before the
    class validator, and the first failure ends the field. *)
Definition constrained_field (raw : option string) : error_kind + string :=
  match raw with
  | None => inl FieldRequired
  | Some v =>
      if bool_decide (String.length v < 1)%nat then inl MinLength
      else match validate_required_fields v with
           | Return v' => inr v'
           | Raise _ => inl FieldCannotBeEmpty
           end
  end.

Definition email_field (ev : email_parser) (raw : option string)
  : error_kind + string :=
  match raw with
  | None => inl FieldRequired
  | Some v =>
      match validate_email ev v with
      | Return v' => inr v'
      | Raise _ => inl InvalidEmailFormat
      end
  end.

Definition field_errors (l : string) (r : error_kind + string)
  : list error_item :=
  match r with
  | inl k => [ErrorItem l k]
  | inr _ => []
  end.

(** The constructor call on the keyword arguments [data]: every field
    is validated, in declaration order, the errors of all fields are
    collected, and one [ValidationError] carries them. Keys that are
    not fields are ignored. *)
Definition new (ev : email_parser) (data : gmap string string) : res t :=
  let n := constrained_field (data !! "name") in
  let e := email_field ev (data !! "email") in
  let a := constrained_field (data !! "address") in
  let r := email_field ev (data !! "recipient_email") in
  match n, e, a, r with
  | inr n', inr e', inr a', inr r' => Return (Build n' e' a' r')
  | _, _, _, _ =>
      Raise (ValidationError
               (field_errors "name" n ++ field_errors "email" e ++
                field_errors "address" a ++
                field_errors "recipient_email" r))
  end.

(** [submission.dict()] *)
Definition dict (s : t) : gmap string string :=
  {[ "name" := name s; "email" := email s; "address" := address s;
     "recipient_email" := recipient_email s ]}.

End UserSubmission.

(** The raw input record of the validator. *)
Definition raw_record (name email address recipient_email : string)
  : gmap string string :=
  {[ "name" := name; "email" := email; "address" := address;
     "recipient_email" := recipient_email ]}.

Definition EmptyField_style (k : error_kind) : Prop :=
  k = MinLength \/ k = FieldCannotBeEmpty.

(** A toy parser used to evaluate the model on concrete inputs: accepts
    [local@domain] with non-empty parts and a dot in the domain, and
    returns the address unchanged. *)
Fixpoint split_at (s : string) : option (string * string) :=
  match s with
  | EmptyString => None
  | String c s' =>
      if bool_decide (c = "@"%char) then Some ("", s')
      else match split_at s' with
           | Some (l, d) => Some (String c l, d)
           | None => None
           end
  end.

Fixpoint has_char (c : ascii) (s : string) : bool :=
  match s with
  | EmptyString => false
  | String c' s' => bool_decide (c = c') || has_char c s'
  end.

Definition simple_parser : UserSubmission.email_parser := fun s =>
  match split_at s with
  | Some (l, d) =>
      if negb (bool_decide (l = "")) && has_char "." d
         && negb (has_char "@" d) && negb (has_char " " s)
      then Some s else None
  | None => None
  end.

(** ** A state-and-exception monad

    Python code mutates objects and may raise at any call; a method is a
    function from the store to an outcome and the store it leaves
    behind. What was written before an exception stays written. *)

Definition M (S A : Type) : Type := S -> res A * S.

Definition ret {S A} (a : A) : M S A := fun s => (Return a, s).

Definition raise {S A} (e : exn) : M S A := fun s => (Raise e, s).

Definition bind {S A B} (m : M S A) (k : A -> M S B) : M S B :=
  fun s =>
    match m s with
    | (Return a, s') => k a s'
    | (Raise e, s') => (Raise e, s')
    end.

Definition lift {S A} (r : res A) : M S A := fun s => (r, s).

Definition get {S} : M S S := fun s => (Return s, s).

Definition modify {S} (f : S -> S) : M S unit := fun s => (Return tt, f s).

(** [try: body except Exception as e: handler(e)] *)
Definition try_except {S A} (body : M S A) (handler : exn -> M S A) : M S A :=
  fun s =>
    match body s with
    | (Return a, s') => (Return a, s')
    | (Raise e, s') => handler e s'
    end.

Notation "x <- m ;; k" := (bind m (fun x => k))
  (at level 100, m at next level, right associativity).
Notation "m ;;; k" := (bind m (fun _ => k))
  (at level 100, right associativity).

(** ** [GoogleAPIManager] (tools.py) *)

Inductive event :=
| Print (msg : string)
| PathExists (path : string)
| FileRead (path : string)
| FileWrite (path content : string)
| RefreshExchange
| LocalServerFlow (port : Z)
| ConsoleFlow
| BuildService (service_name version : string)
| ApiRequest (method : string).

Definition is_network (e : event) : bool :=
  match e with
  | RefreshExchange | LocalServerFlow _ | ConsoleFlow | ApiRequest _ => true
  | _ => false
  end.

Definition is_file_write (e : event) : bool :=
  match e with
  | FileWrite _ _ => true
  | _ => false
  end.

Definition is_refresh (e : event) : bool :=
  match e with
  | RefreshExchange => true
  | _ => false
  end.

Definition count (p : event -> bool) (l : list event) : nat :=
  length (filter (fun e => p e = true) l).

Inductive service := Service (service_name version : string).

(** The dictionary of a failed stage: [{'success': False, 'error': str(e)}]. *)
Definition failed (e : exn) : gmap string pyval :=
  {[ "success" := PBool false; "error" := PStr (str_exn e) ]}.

Section Google.

(** [google.oauth2.credentials.Credentials] is a library class; the
    program only uses the members below. *)
Variable Credentials : Type.

Record GoogleAPIManager := MkManager
  { client_id : string;
    client_secret : string;
    token_path : string;
    _creds : option Credentials }.

(** The store of tools.py: the manager object shared by the tools, the
    clock, the file system and the trace of what was done. *)
Record heap := MkHeap
  { api_manager : GoogleAPIManager;
    now : Z;
    files : gmap string string;
    events : list event }.

(** What the Google libraries and services answer. Every answer may
    depend on the whole store, so on the time and on all that happened
    before. *)
Record google := MkGoogle
  { valid : Credentials -> Z -> bool;
    expired : Credentials -> Z -> bool;
    refresh_token : Credentials -> option string;
    to_json : Credentials -> string;
    from_authorized_user_info : string -> res Credentials;
    refresh : heap -> Credentials -> res Credentials;
    run_local_server : heap -> res Credentials;
    run_console : heap -> res Credentials;
    build : heap -> string -> string -> Credentials -> res service;
    isoformat_now : heap -> string;
    documents_create : heap -> service -> string -> res (gmap string pyval);
    documents_batchUpdate : heap -> service -> pyval -> string -> res unit;
    files_update : heap -> service -> pyval -> string -> string -> res unit;
    files_export_media : heap -> service -> pyval -> string -> res pyval;
    mime_message : pyval -> string -> string -> pyval -> string -> res string;
    messages_send : heap -> service -> string -> res (gmap string pyval) }.

Variable G : google.

(** The store with one more event in its trace. *)
Definition push (e : event) (h : heap) : heap :=
  MkHeap (api_manager h) (now h) (files h) (events h ++ [e]).

Definition emit (e : event) : M heap unit := modify (push e).

(** [print(msg)]; the pictographs that open the messages of tools.py
    are left out of the texts. *)
Definition print (msg : string) : M heap unit := emit (Print msg).

(** An answer of the outside world, recorded in the trace. *)
Definition ask {A} (e : event) (oracle : heap -> res A) : M heap A :=
  h <- get ;; emit e ;;; lift (oracle h).

Definition set_creds (c : option Credentials) : M heap unit :=
  modify (fun h =>
    let m := api_manager h in
    MkHeap (MkManager (client_id m) (client_secret m) (token_path m) c)
           (now h) (files h) (events h)).

(** [with open(path, 'w') as token: token.write(content)]. The write
    is taken to succeed: an [OSError] of [open] or [write], and the
    truncated file it would leave, are not modelled. *)
Definition write_file (path content : string) : M heap unit :=
  emit (FileWrite path content) ;;;
  modify (fun h => MkHeap (api_manager h) (now h)
                          (<[path := content]> (files h)) (events h)).

(** [Credentials.from_authorized_user_file(path, SCOPES)] *)
Definition from_authorized_user_file (path : string) : M heap Credentials :=
  h <- get ;;
  emit (FileRead path) ;;;
  content <- lift (getitem (files h) path) ;;
  lift (from_authorized_user_info G content).

(** The interactive branch: local server first, console as fallback;
    a failure of the fallback is reported and re-raised. *)
Definition oauth_flow : M heap Credentials :=
  print "Starting OAuth flow..." ;;;
  print "A browser window will open for authorization" ;;;
  print "If browser doesn't open, copy the URL that appears" ;;;
  try_except
    (print "Starting local server on port 8080..." ;;;
     creds <- try_except
                (ask (LocalServerFlow 8080) (run_local_server G))
                (fun local_server_error =>
                   print ("Local server failed: " +:+ str_exn local_server_error) ;;;
                   print "Trying console-based OAuth flow..." ;;;
                   ask ConsoleFlow (run_console G)) ;;
     print "OAuth flow completed successfully!" ;;;
     ret creds)
    (fun e =>
       print ("OAuth flow failed: " +:+ str_exn e) ;;;
       print "Make sure port 8080 is available and redirect URI is configured correctly" ;;;
       raise e).

Definition str_truthy (o : option string) : bool :=
  match o with
  | Some s => negb (bool_decide (s = ""))
  | None => false
  end.

(** Lines 76-110: refresh an expired credential that has a refresh
    token, otherwise run the interactive flow. *)
Definition refresh_or_authorize (creds : option Credentials)
  : M heap Credentials :=
  h <- get ;;
  match creds with
  | Some c =>
      if expired G c (now h) && str_truthy (refresh_token G c)
      then print "Refreshing expired token..." ;;;
           c' <- ask RefreshExchange (fun h' => refresh G h' c) ;;
           print "Token refreshed successfully" ;;;
           ret c'
      else oauth_flow
  | None => oauth_flow
  end.

(** Lines 64-119 of [get_credentials]: what runs when the cache holds
    no valid credential. *)
Definition load_credentials : M heap Credentials :=
  h <- get ;;
  let path := token_path (api_manager h) in
  print ("Checking for existing token at: " +:+ path) ;;;
  emit (PathExists path) ;;;
  creds <- (if bool_decide (is_Some (files h !! path))
            then print "Found existing token file, loading..." ;;;
                 c <- from_authorized_user_file path ;;
                 ret (Some c)
            else print "No existing token file found" ;;;
                 ret None) ;;
  h1 <- get ;;
  creds <- (match creds with
            | Some c =>
                if valid G c (now h1) then ret c
                else c' <- refresh_or_authorize creds ;;
                     print "Saving credentials to token file..." ;;;
                     write_file path (to_json G c') ;;;
                     print "Credentials saved successfully" ;;;
                     ret c'
            | None =>
                c' <- refresh_or_authorize creds ;;
                print "Saving credentials to token file..." ;;;
                write_file path (to_json G c') ;;;
                print "Credentials saved successfully" ;;;
                ret c'
            end) ;;
  set_creds (Some creds) ;;;
  ret creds.

(** [GoogleAPIManager.get_credentials] *)
Definition get_credentials : M heap Credentials :=
  h <- get ;;
  match _creds (api_manager h) with
  | Some c => if valid G c (now h) then ret c else load_credentials
  | None => load_credentials
  end.

(** [GoogleAPIManager.get_service] *)
Definition get_service (service_name version : string) : M heap service :=
  creds <- get_credentials ;;
  ask (BuildService service_name version)
      (fun h => build G h service_name version creds).

(** ** The three stage tools (tools.py) *)

(** The parser behind [UserSubmission]. *)
Variable ev : UserSubmission.email_parser.

(** Unpacking a value as keyword arguments needs a mapping. *)
Definition kwargs (v : pyval) : res (gmap string string) :=
  match v with
  | PStrDict d => Return d
  | _ => Raise (TypeError "argument after ** must be a mapping")
  end.

Definition failure (e : exn) : M heap (gmap string pyval) :=
  ret (failed e).

(** Lines 144-197 of [CreateGoogleDocTool._run]: all that follows the
    construction of [submission]. *)
Definition create_and_fill (drive_folder_id : option string)
    (name email address : string) : M heap (gmap string pyval) :=
  h <- get ;;
  let timestamp := isoformat_now G h in
  let doc_title := "Submission - " +:+ name +:+ " - " +:+ timestamp in
  docs_service <- get_service "docs" "v1" ;;
  doc <- ask (ApiRequest "docs.documents.create")
             (fun h => documents_create G h docs_service doc_title) ;;
  let doc_id := dict_get doc "documentId" in
  let content := "Name: " +:+ name +:+ "

Email: " +:+ email +:+ "

Address: " +:+ address in
  ask (ApiRequest "docs.documents.batchUpdate")
      (fun h => documents_batchUpdate G h docs_service doc_id content) ;;;
  match drive_folder_id with
  | Some folder =>
      if bool_decide (folder = "") then ret tt else
      drive_service <- get_service "drive" "v3" ;;
      ask (ApiRequest "drive.files.update")
          (fun h => files_update G h drive_service doc_id folder "root")
  | None => ret tt
  end ;;;
  ret {[ "success" := PBool true;
         "document_id" := doc_id;
         "document_url" :=
           PStr ("https://docs.google.com/document/d/" +:+ py_str doc_id);
         "title" := PStr doc_title ]}.

(** [CreateGoogleDocTool._run] *)
Definition CreateGoogleDocTool_run (drive_folder_id : option string)
    (submission_data : pyval) : M heap (gmap string pyval) :=
  try_except
    (data <- lift (kwargs submission_data) ;;
     submission <- lift (UserSubmission.new ev data) ;;
     create_and_fill drive_folder_id
       (UserSubmission.name submission) (UserSubmission.email submission)
       (UserSubmission.address submission))
    failure.

(** The reference Document Creator of the specification: it trusts
    the submission it is given and performs no validation of its
    own. *)
Definition CreateGoogleDocTool_run_unvalidated
    (drive_folder_id : option string) (submission_data : pyval)
  : M heap (gmap string pyval) :=
  try_except
    (data <- lift (kwargs submission_data) ;;
     name <- lift (getitem data "name") ;;
     email <- lift (getitem data "email") ;;
     address <- lift (getitem data "address") ;;
     create_and_fill drive_folder_id name email address)
    failure.

Definition export_mime_type : string :=
  "application/vnd.openxmlformats-officedocument.wordprocessingml.document".

(** [ExportDocxTool._run] *)
Definition ExportDocxTool_run (document_id : pyval)
  : M heap (gmap string pyval) :=
  try_except
    (drive_service <- get_service "drive" "v3" ;;
     docx_content <-
       ask (ApiRequest "drive.files.export_media")
           (fun h => files_export_media G h drive_service document_id
                       export_mime_type) ;;
     ret {[ "success" := PBool true;
            "docx_content" := docx_content;
            "mime_type" := PStr export_mime_type ]})
    failure.

(** [SendEmailTool._run] *)
Definition SendEmailTool_run
    (docx_content document_title document_url submission_name
       recipient_email : pyval) : M heap (gmap string pyval) :=
  try_except
    (gmail_service <- get_service "gmail" "v1" ;;
     let subject := "New Submission: " +:+ py_str submission_name in
     let body_text :=
       "New submission received from " +:+ py_str submission_name +:+ ":

Document: " +:+ py_str document_title +:+ "
View online: " +:+ py_str document_url +:+ "

Please find the submission details in the attached DOCX file.
" in
     raw_message <-
       lift (mime_message G recipient_email subject body_text docx_content
               (py_str document_title +:+ ".docx")) ;;
     send_message <-
       ask (ApiRequest "gmail.users.messages.send")
           (fun h => messages_send G h gmail_service raw_message) ;;
     message_id <- lift (getitem send_message "id") ;;
     ret {[ "success" := PBool true;
            "message_id" := message_id;
            "recipient" := recipient_email ]})
    failure.

End Google.

Arguments MkManager {Credentials}.
Arguments valid {Credentials}.
Arguments expired {Credentials}.
Arguments refresh_token {Credentials}.
Arguments to_json {Credentials}.
Arguments from_authorized_user_info {Credentials}.
Arguments refresh {Credentials}.
Arguments run_local_server {Credentials}.
Arguments run_console {Credentials}.
Arguments build {Credentials}.
Arguments isoformat_now {Credentials}.
Arguments documents_create {Credentials}.
Arguments documents_batchUpdate {Credentials}.
Arguments files_update {Credentials}.
Arguments files_export_media {Credentials}.
Arguments mime_message {Credentials}.
Arguments messages_send {Credentials}.
Arguments get_credentials {Credentials}.
Arguments load_credentials {Credentials}.
Arguments refresh_or_authorize {Credentials}.
Arguments oauth_flow {Credentials}.
Arguments from_authorized_user_file {Credentials}.
Arguments get_service {Credentials}.
Arguments emit {Credentials}.
Arguments push {Credentials}.
Arguments print {Credentials}.
Arguments ask {Credentials A}.
Arguments set_creds {Credentials}.
Arguments write_file {Credentials}.
Arguments failure {Credentials}.
Arguments create_and_fill {Credentials}.
Arguments CreateGoogleDocTool_run {Credentials}.
Arguments CreateGoogleDocTool_run_unvalidated {Credentials}.
Arguments ExportDocxTool_run {Credentials}.
Arguments SendEmailTool_run {Credentials}.
Arguments MkHeap {Credentials}.
Arguments api_manager {Credentials}.
Arguments now {Credentials}.
Arguments files {Credentials}.
Arguments events {Credentials}.
Arguments _creds {Credentials}.
Arguments token_path {Credentials}.
Arguments client_id {Credentials}.
Arguments client_secret {Credentials}.

(** ** The pipeline (agent_backup.py)

    The calls of [logger] are left out, but not the dictionary lookups
    inside their messages, which can raise. *)

(** [AgentState], the state dictionary of the graph. Every key is set
    by [process_submission]; [user_input] holds strings. *)
Record AgentState := MkState
  { user_input : gmap string string;
    validation_result : gmap string pyval;
    doc_creation_result : gmap string pyval;
    docx_export_result : gmap string pyval;
    email_result : gmap string pyval;
    error_message : string;
    retry_count : Z;
    success : bool;
    final_message : string }.

(** Assignments [state[key] = value]. *)
Definition with_validation_result (d : gmap string pyval) (s : AgentState) :=
  MkState (user_input s) d (doc_creation_result s) (docx_export_result s)
    (email_result s) (error_message s) (retry_count s) (success s)
    (final_message s).

Definition with_doc_creation_result (d : gmap string pyval) (s : AgentState) :=
  MkState (user_input s) (validation_result s) d (docx_export_result s)
    (email_result s) (error_message s) (retry_count s) (success s)
    (final_message s).

Definition with_docx_export_result (d : gmap string pyval) (s : AgentState) :=
  MkState (user_input s) (validation_result s) (doc_creation_result s) d
    (email_result s) (error_message s) (retry_count s) (success s)
    (final_message s).

Definition with_email_result (d : gmap string pyval) (s : AgentState) :=
  MkState (user_input s) (validation_result s) (doc_creation_result s)
    (docx_export_result s) d (error_message s) (retry_count s) (success s)
    (final_message s).

Definition with_error_message (m : string) (s : AgentState) :=
  MkState (user_input s) (validation_result s) (doc_creation_result s)
    (docx_export_result s) (email_result s) m (retry_count s) (success s)
    (final_message s).

Definition with_retry_count (n : Z) (s : AgentState) :=
  MkState (user_input s) (validation_result s) (doc_creation_result s)
    (docx_export_result s) (email_result s) (error_message s) n (success s)
    (final_message s).

Definition with_success (b : bool) (s : AgentState) :=
  MkState (user_input s) (validation_result s) (doc_creation_result s)
    (docx_export_result s) (email_result s) (error_message s) (retry_count s)
    b (final_message s).

Definition with_final_message (m : string) (s : AgentState) :=
  MkState (user_input s) (validation_result s) (doc_creation_result s)
    (docx_export_result s) (email_result s) (error_message s) (retry_count s)
    (success s) m.

Inductive node :=
| validate_input | create_document | export_docx | send_email
| handle_error | finalize.

Inductive tool := doc_tool | export_tool | email_tool.

Inductive step := Ran (n : node) | Called (t : tool).

Inductive route := continue | error.

Inductive target := To (n : node) | END.

Record report := MkReport
  { report_success : bool;
    report_message : string;
    report_document_id : pyval;
    report_document_url : pyval;
    report_email_message_id : pyval }.

(** A state in which no stage has run yet, for any input dictionary. *)
Definition fresh_state (input : gmap string string) : AgentState :=
  {| user_input := input;
     validation_result := ∅;
     doc_creation_result := ∅;
     docx_export_result := ∅;
     email_result := ∅;
     error_message := "";
     retry_count := 0;
     success := false;
     final_message := "" |}.

(** [d.get("success", False)], as a truth value. *)
Definition stage_ok (d : gmap string pyval) : bool :=
  truthy (dict_get_default d "success" (PBool false)).

Definition all_ok (s : AgentState) : bool :=
  stage_ok (validation_result s) && stage_ok (doc_creation_result s)
  && stage_ok (docx_export_result s) && stage_ok (email_result s).

Section Agent.

(** The store of the tools; the agent never looks inside. *)
Variable W : Type.

(** The agent object: the three tools it holds, as the agent calls
    them ([self.doc_tool._run(validated_data)],
    [self.export_tool._run(document_id)] and [self.email_tool._run]
    with the keywords [docx_content], [document_title],
    [document_url], [submission_name]), and the address parser behind
    [UserSubmission]. *)
Record SubmissionAgent := MkAgent
  { parser : UserSubmission.email_parser;
    doc_tool_run : pyval -> M W (gmap string pyval);
    export_tool_run : pyval -> M W (gmap string pyval);
    email_tool_run : pyval -> pyval -> pyval -> pyval -> M W (gmap string pyval) }.

(** One run of the graph: the state dictionary, the store of the
    tools and the record of the nodes run and tools called so far. *)
Record run := MkRun
  { state : AgentState;
    world : W;
    history : list step }.

Variable self : SubmissionAgent.

Definition read : M run AgentState := fun r => (Return (state r), r).

Definition set_state (s : AgentState) (r : run) : run :=
  MkRun s (world r) (history r).

Definition update (f : AgentState -> AgentState) : M run unit :=
  modify (fun r => set_state (f (state r)) r).

Definition log_step (s : step) (r : run) : run :=
  MkRun (state r) (world r) (history r ++ [s]).

Definition record (s : step) : M run unit := modify (log_step s).

(** A call of one of the tools. *)
Definition in_world {A} (m : M W A) : M run A :=
  fun r => let (a, w) := m (world r) in (a, MkRun (state r) w (history r)).

Definition call {A} (t : tool) (m : M W A) : M run A :=
  record (Called t) ;;; in_world m.

Definition set_validation_result (d : gmap string pyval) : M run unit :=
  update (with_validation_result d).

Definition set_doc_creation_result (d : gmap string pyval) : M run unit :=
  update (with_doc_creation_result d).

Definition set_docx_export_result (d : gmap string pyval) : M run unit :=
  update (with_docx_export_result d).

Definition set_email_result (d : gmap string pyval) : M run unit :=
  update (with_email_result d).

Definition set_error_message (m : string) : M run unit :=
  update (with_error_message m).

Definition set_retry_count (n : Z) : M run unit :=
  update (with_retry_count n).

Definition set_success (b : bool) : M run unit :=
  update (with_success b).

Definition set_final_message (m : string) : M run unit :=
  update (with_final_message m).

(** [result.get('error', 'Unknown error')] inside an f-string *)
Definition error_of (result : gmap string pyval) : string :=
  py_str (dict_get_default result "error" (PStr "Unknown error")).

(** [v[k]] on a value of the state. *)
Definition subscript (v : pyval) (k : string) : res pyval :=
  match v with
  | PStrDict d => res_bind (getitem d k) (fun s => Return (PStr s))
  | PNone => Raise (TypeError "'NoneType' object is not subscriptable")
  | PBool _ => Raise (TypeError "'bool' object is not subscriptable")
  | PStr _ => Raise (TypeError "string indices must be integers")
  | PBytes _ => Raise (TypeError "byte indices must be integers or slices, not str")
  end.

(** [_validate_input] *)
Definition _validate_input : M run unit :=
  try_except
    (s <- read ;;
     submission <- lift (UserSubmission.new (parser self) (user_input s)) ;;
     set_validation_result
       {[ "success" := PBool true;
          "validated_data" := PStrDict (UserSubmission.dict submission) ]})
    (fun e =>
       set_validation_result (failed e) ;;;
       set_error_message ("Input validation failed: " +:+ str_exn e)).

(** [_create_document] *)
Definition _create_document : M run unit :=
  try_except
    (s <- read ;;
     validated_data <- lift (getitem (validation_result s) "validated_data") ;;
     result <- call doc_tool (doc_tool_run self validated_data) ;;
     set_doc_creation_result result ;;;
     ok <- lift (getitem result "success") ;;
     if truthy ok
     then (* the log line formats result['document_id'] *)
          lift (getitem result "document_id") ;;; ret tt
     else set_error_message ("Document creation failed: " +:+ error_of result))
    (fun e =>
       set_doc_creation_result (failed e) ;;;
       set_error_message ("Document creation failed: " +:+ str_exn e)).

(** [_export_docx] *)
Definition _export_docx : M run unit :=
  try_except
    (s <- read ;;
     document_id <- lift (getitem (doc_creation_result s) "document_id") ;;
     result <- call export_tool (export_tool_run self document_id) ;;
     set_docx_export_result result ;;;
     ok <- lift (getitem result "success") ;;
     if truthy ok then ret tt
     else set_error_message ("DOCX export failed: " +:+ error_of result))
    (fun e =>
       set_docx_export_result (failed e) ;;;
       set_error_message ("DOCX export failed: " +:+ str_exn e)).

(** [_send_email] *)
Definition _send_email : M run unit :=
  try_except
    (s <- read ;;
     docx_content <- lift (getitem (docx_export_result s) "docx_content") ;;
     doc_title <- lift (getitem (doc_creation_result s) "title") ;;
     doc_url <- lift (getitem (doc_creation_result s) "document_url") ;;
     validated_data <- lift (getitem (validation_result s) "validated_data") ;;
     submission_name <- lift (subscript validated_data "name") ;;
     result <- call email_tool
                 (email_tool_run self docx_content doc_title doc_url
                    submission_name) ;;
     set_email_result result ;;;
     ok <- lift (getitem result "success") ;;
     if truthy ok
     then (* the log line formats result['message_id'] *)
          lift (getitem result "message_id") ;;; ret tt
     else set_error_message ("Email sending failed: " +:+ error_of result))
    (fun e =>
       set_email_result (failed e) ;;;
       set_error_message ("Email sending failed: " +:+ str_exn e)).

(** [_handle_error] *)
Definition _handle_error : M run unit :=
  s <- read ;;
  let retry_count := retry_count s in
  (if bool_decide (retry_count < 3)
   then set_retry_count (retry_count + 1)
   else ret tt) ;;;
  set_success false.

(** [_finalize] *)
Definition _finalize : M run unit :=
  s <- read ;;
  if all_ok s
  then
    set_success true ;;;
    doc_id <- lift (getitem (doc_creation_result s) "document_id") ;;
    message_id <- lift (getitem (email_result s) "message_id") ;;
    recipient <- lift (getitem (email_result s) "recipient") ;;
    doc_url <- lift (getitem (doc_creation_result s) "document_url") ;;
    set_final_message
      ("Submission processed successfully!
            
Document ID: " +:+ py_str doc_id +:+ "
Document URL: " +:+ py_str doc_url +:+ "
Email sent to: " +:+ py_str recipient +:+ "
Gmail Message ID: " +:+ py_str message_id)
  else
    set_success false ;;;
    set_final_message ("Workflow failed: " +:+ error_message s).

(** Conditional edge functions *)
Definition route_of (ok : pyval) : route :=
  if truthy ok then continue else error.

Definition _should_continue_after_validation : M run route :=
  s <- read ;;
  ok <- lift (getitem (validation_result s) "success") ;; ret (route_of ok).

Definition _should_continue_after_doc_creation : M run route :=
  s <- read ;;
  ok <- lift (getitem (doc_creation_result s) "success") ;; ret (route_of ok).

Definition _should_continue_after_export : M run route :=
  s <- read ;;
  ok <- lift (getitem (docx_export_result s) "success") ;; ret (route_of ok).

Definition _should_continue_after_email : M run route :=
  s <- read ;;
  ok <- lift (getitem (email_result s) "success") ;; ret (route_of ok).

(** The compiled graph: the function of every node, the entry point,
    and for every node either a router with its table or one fixed
    successor. *)
Record StateGraph := MkGraph
  { nodes : node -> M run unit;
    entry_point : node;
    conditional_edges : node -> option (M run route * (route -> target));
    edges : node -> option target }.

(** [_build_workflow] *)
Definition _build_workflow : StateGraph :=
  {| nodes := fun n =>
       match n with
       | validate_input => _validate_input
       | create_document => _create_document
       | export_docx => _export_docx
       | send_email => _send_email
       | handle_error => _handle_error
       | finalize => _finalize
       end;
     entry_point := validate_input;
     conditional_edges := fun n =>
       match n with
       | validate_input =>
           Some (_should_continue_after_validation,
                 fun r => match r with
                          | continue => To create_document
                          | error => To handle_error
                          end)
       | create_document =>
           Some (_should_continue_after_doc_creation,
                 fun r => match r with
                          | continue => To export_docx
                          | error => To handle_error
                          end)
       | export_docx =>
           Some (_should_continue_after_export,
                 fun r => match r with
                          | continue => To send_email
                          | error => To handle_error
                          end)
       | send_email =>
           Some (_should_continue_after_email,
                 fun r => match r with
                          | continue => To finalize
                          | error => To handle_error
                          end)
       | _ => None
       end;
     edges := fun n =>
       match n with
       | handle_error => Some (To finalize)
       | finalize => Some END
       | _ => None
       end |}.

(** Where the graph goes after node [n]. *)
Definition successor (g : StateGraph) (n : node) : M run target :=
  match conditional_edges g n with
  | Some (router, table) => r <- router ;; ret (table r)
  | None => ret (default END (edges g n))
  end.

(** Execution of a compiled graph from node [n]; [limit] is the
    recursion limit of the library, 25 steps unless configured. *)
Fixpoint run_from (g : StateGraph) (limit : nat) (n : node) : M run unit :=
  match limit with
  | O => raise GraphRecursionError
  | S limit' =>
      record (Ran n) ;;;
      nodes g n ;;;
      next <- successor g n ;;
      match next with
      | To n' => run_from g limit' n'
      | END => ret tt
      end
  end.

Definition recursion_limit : nat := 25.

(** [workflow.invoke(initial_state)] *)
Definition invoke (g : StateGraph) (initial_state : AgentState) (w : W)
  : res unit * run :=
  run_from g recursion_limit (entry_point g) (MkRun initial_state w []).

(** The initial state of [process_submission]. *)
Definition initial_state (name email address : string) : AgentState :=
  fresh_state {[ "name" := name; "email" := email; "address" := address ]}.

(** The dictionary returned when the graph ran to its end
    (lines 308-314). *)
Definition report_of (final_state : AgentState) : report :=
  {| report_success := success final_state;
     report_message := final_message final_state;
     report_document_id := dict_get (doc_creation_result final_state) "document_id";
     report_document_url := dict_get (doc_creation_result final_state) "document_url";
     report_email_message_id := dict_get (email_result final_state) "message_id" |}.

(** The dictionary returned from the [except] branch
    (lines 317-323). *)
Definition report_of_fault (e : exn) : report :=
  {| report_success := false;
     report_message := "Workflow execution failed: " +:+ str_exn e;
     report_document_id := PNone;
     report_document_url := PNone;
     report_email_message_id := PNone |}.

(** The [try] statement of [process_submission], from any initial
    state. *)
Definition run_workflow (initial_state : AgentState) (w : W)
  : res report * run :=
  match invoke _build_workflow initial_state w with
  | (Return _, r) => (Return (report_of (state r)), r)
  | (Raise e, r) => (Return (report_of_fault e), r)
  end.

(** [process_submission(self, name, email, address)] *)
Definition process_submission (name email address : string) : M W report :=
  fun w =>
    let (result, r) := run_workflow (initial_state name email address) w in
    (result, world r).

End Agent.

Arguments MkAgent {W}.
Arguments MkRun {W}.
Arguments log_step {W}.
Arguments set_state {W}.
Arguments in_world {W A}.
Arguments call {W A}.
Arguments read {W}.
Arguments update {W}.
Arguments record {W}.
Arguments state {W}.
Arguments world {W}.
Arguments history {W}.
Arguments parser {W}.
Arguments doc_tool_run {W}.
Arguments export_tool_run {W}.
Arguments email_tool_run {W}.
Arguments _validate_input {W}.
Arguments _create_document {W}.
Arguments _export_docx {W}.
Arguments _send_email {W}.
Arguments _handle_error {W}.
Arguments _finalize {W}.
Arguments _build_workflow {W}.
Arguments successor {W}.
Arguments run_from {W}.
Arguments invoke {W}.
Arguments run_workflow {W}.
Arguments process_submission {W}.

(** Modelled from the spec: the entry point
    [process_submission(name, email, address, recipient_email)] of
    adopt/agent.py. That module is the one that main.py,
    example_usage.py and streamlit_app.py import and call with four
    arguments; it is not under src/, where agent_backup.py holds an
    earlier copy whose method takes three fields and whose recipient
    is fixed by the configuration. Spec 4.3: the entry point takes the
    four fields, drives the pipeline on the record of the four, never
    raises past its boundary and converts an internal fault into a
    failed report. The pipeline and the [try] statement are those of
    agent_backup.py ([run_workflow], lines 305-323); the initial state
    is that of its lines 289-303 with [recipient_email] in
    [user_input]. *)
Definition process_submission_with_recipient {W} (self : SubmissionAgent W)
    (name email address recipient_email : string) : M W report :=
  fun w =>
    let (result, r) :=
      run_workflow self
        (fresh_state (raw_record name email address recipient_email)) w in
    (result, world r).

(** ** A small instance of the Google side, to evaluate the model

    A credential is a token, an optional refresh token and an expiry
    time. The token endpoint answers a refresh with a token that lasts
    an hour; the interactive flows are not available; the services
    answer with fixed values. *)

Record demo_credentials := DemoCreds
  { demo_token : string;
    demo_refresh_token : option string;
    demo_expiry : Z }.

Definition demo_google : google demo_credentials :=
  {| valid := fun c t => bool_decide (t < demo_expiry c);
     expired := fun c t => bool_decide (demo_expiry c <= t);
     refresh_token := demo_refresh_token;
     to_json := fun c => "{token: " +:+ demo_token c +:+ "}";
     from_authorized_user_info := fun content =>
       if bool_decide (content = "") then Raise (ValueError "empty token file")
       else Return (DemoCreds content (Some "refresh-1") 100);
     refresh := fun h c =>
       Return (DemoCreds "refreshed" (demo_refresh_token c) (now h + 3600));
     run_local_server := fun _ => Raise (ExternalError "port 8080 in use");
     run_console := fun _ => Raise (ExternalError "no console");
     build := fun _ service_name version _ => Return (Service service_name version);
     isoformat_now := fun _ => "2024-01-01T00:00:00";
     documents_create := fun _ _ _ => Return {[ "documentId" := PStr "doc-1" ]};
     documents_batchUpdate := fun _ _ _ _ => Return tt;
     files_update := fun _ _ _ _ _ => Return tt;
     files_export_media := fun _ _ _ _ => Return (PBytes "PK");
     mime_message := fun _ _ _ _ _ => Return "raw";
     messages_send := fun _ _ _ => Return {[ "id" := PStr "msg-1" ]} |}.

(** A process that has not yet asked for credentials, at time 200, with
    a token file written before time 100. *)
Definition demo_heap : heap demo_credentials :=
  {| api_manager := MkManager "client-id" "client-secret" "token.json" None;
     now := 200;
     files := {[ "token.json" := "stale" ]};
     events := [] |}.

(** ** The agent with the tools of tools.py

    [SubmissionAgent] holds the three tools of tools.py. It calls
    [SendEmailTool._run] with four keywords, and the method has a fifth
    parameter, [recipient_email], without a default: the call raises
    [TypeError] before the body of [_run] is entered. *)
Definition wired_agent {Credentials} (G : google Credentials)
    (ev : UserSubmission.email_parser) (drive_folder_id : option string)
  : SubmissionAgent (heap Credentials) :=
  {| parser := ev;
     doc_tool_run := CreateGoogleDocTool_run G ev drive_folder_id;
     export_tool_run := ExportDocxTool_run G;
     email_tool_run := fun _ _ _ _ =>
       raise (TypeError
         "_run() missing 1 required positional argument: 'recipient_email'") |}.

(** ** Stage stubs, to evaluate the pipeline

    An agent whose tools answer with fixed records and have no store. *)
Definition stub_agent (doc export email : gmap string pyval)
  : SubmissionAgent unit :=
  {| parser := simple_parser;
     doc_tool_run := fun _ => ret doc;
     export_tool_run := fun _ => ret export;
     email_tool_run := fun _ _ _ _ => ret email |}.

Definition stub_document : gmap string pyval :=
  {[ "success" := PBool true;
     "document_id" := PStr "doc-1";
     "document_url" := PStr "https://docs.google.com/document/d/doc-1";
     "title" := PStr "Submission - Jane Smith - 2024-01-01T00:00:00" ]}.

Definition stub_docx : gmap string pyval :=
  {[ "success" := PBool true;
     "docx_content" := PBytes "PK";
     "mime_type" := PStr export_mime_type ]}.

Definition stub_message : gmap string pyval :=
  {[ "success" := PBool true;
     "message_id" := PStr "msg-1";
     "recipient" := PStr "admin@co.com" ]}.

Definition stub_failure : gmap string pyval :=
  failed (ExternalError "quota exceeded").

(** The input of the end-to-end scenario, with all four fields. *)
Definition jane_smith : gmap string string :=
  raw_record "Jane Smith" "jane@x.com" "1 Oak Ave" "admin@co.com".

(** ** Vocabulary of the properties *)

(** The store at time [t], everything else as in [h]. *)
Definition at_time {Credentials} (t : Z) (h : heap Credentials) : heap Credentials :=
  MkHeap (api_manager h) t (files h) (events h).

(** The store in which the token endpoint is asked for a refresh: the
    token file at [token_path] has been found and read. *)
Definition at_refresh {Credentials} (h : heap Credentials) : heap Credentials :=
  let path := token_path (api_manager h) in
  push (Print "Refreshing expired token...")
    (push (FileRead path)
       (push (Print "Found existing token file, loading...")
          (push (PathExists path)
             (push (Print ("Checking for existing token at: " +:+ path)) h)))).

(** The record a stage returns: a boolean [success]; with [True] the
    keys of the payload, with [False] an [error] string. *)
Definition stage_record (payload : list string) (d : gmap string pyval) : Prop :=
  (d !! "success" = Some (PBool true) /\
   forall k, k ∈ payload -> is_Some (d !! k)) \/
  (d !! "success" = Some (PBool false) /\
   exists msg, d !! "error" = Some (PStr msg)).

(** What [_validate_input] leaves in the state dictionary. *)
Definition validated (ev : UserSubmission.email_parser) (s : AgentState)
  : AgentState :=
  match UserSubmission.new ev (user_input s) with
  | Return submission =>
      with_validation_result
        {[ "success" := PBool true;
           "validated_data" := PStrDict (UserSubmission.dict submission) ]} s
  | Raise e =>
      with_error_message ("Input validation failed: " +:+ str_exn e)
        (with_validation_result (failed e) s)
  end.

(** How far a run of the graph went before it turned to
    [handle_error], or whether it went through. *)
Inductive progress :=
| stopped_at_validation
| stopped_at_document
| stopped_at_export
| stopped_at_email
| completed.

(** The nodes run and the tools called, in order; [c] is the call of
    the tool of the stage that failed, when the stage got that far. *)
Definition expected_history (p : progress) (c : list step) : list step :=
  match p with
  | stopped_at_validation =>
      [Ran validate_input; Ran handle_error; Ran finalize]
  | stopped_at_document =>
      [Ran validate_input; Ran create_document] ++ c ++
      [Ran handle_error; Ran finalize]
  | stopped_at_export =>
      [Ran validate_input; Ran create_document; Called doc_tool;
       Ran export_docx] ++ c ++ [Ran handle_error; Ran finalize]
  | stopped_at_email =>
      [Ran validate_input; Ran create_document; Called doc_tool;
       Ran export_docx; Called export_tool; Ran send_email] ++ c ++
      [Ran handle_error; Ran finalize]
  | completed =>
      [Ran validate_input; Ran create_document; Called doc_tool;
       Ran export_docx; Called export_tool; Ran send_email;
       Called email_tool; Ran finalize]
  end%list.

Definition failing_tool (p : progress) : list step :=
  match p with
  | stopped_at_document => [Called doc_tool]
  | stopped_at_export => [Called export_tool]
  | stopped_at_email => [Called email_tool]
  | _ => []
  end.

(** The recorded results that go with each progress. *)
Definition reached (p : progress) (s : AgentState) : Prop :=
  match p with
  | stopped_at_validation => stage_ok (validation_result s) = false
  | stopped_at_document =>
      stage_ok (validation_result s) = true /\
      stage_ok (doc_creation_result s) = false
  | stopped_at_export =>
      stage_ok (validation_result s) = true /\
      stage_ok (doc_creation_result s) = true /\
      stage_ok (docx_export_result s) = false
  | stopped_at_email =>
      stage_ok (validation_result s) = true /\
      stage_ok (doc_creation_result s) = true /\
      stage_ok (docx_export_result s) = true /\
      stage_ok (email_result s) = false
  | completed => all_ok s = true
  end.

(** The results of the stages that were not reached are those of the
    initial state. *)
Definition untouched (p : progress) (s0 s : AgentState) : Prop :=
  match p with
  | stopped_at_validation =>
      doc_creation_result s = doc_creation_result s0 /\
      docx_export_result s = docx_export_result s0 /\
      email_result s = email_result s0
  | stopped_at_document =>
      docx_export_result s = docx_export_result s0 /\
      email_result s = email_result s0
  | stopped_at_export => email_result s = email_result s0
  | _ => True
  end.

(** The table of every conditional edge: on to the next stage, or to
    [handle_error]. *)
Definition branch (ok : pyval) (yes : node) : target :=
  if truthy ok then To yes else To handle_error.


(** ** [SubmissionAgent.__init__] and [create_agent] (agent_backup.py) *)

Section Init.
Variable Credentials : Type.

(** [os.getenv(key)] on the environment, after [load_dotenv()]. *)
Definition getenv (environ : gmap string string) (key : string)
  : option string :=
  environ !! key.

(** The constructors of the tools (tools.py). [CreateGoogleDocTool]
    takes the manager and a folder, [ExportDocxTool] and
    [SendEmailTool] take the manager and nothing else: further
    positional arguments, [more], make the call raise [TypeError]. *)
Definition CreateGoogleDocTool_init (api_manager : GoogleAPIManager Credentials)
    (drive_folder_id : option string)
  : res (GoogleAPIManager Credentials * option string) :=
  Return (api_manager, drive_folder_id).

Definition ExportDocxTool_init (api_manager : GoogleAPIManager Credentials)
  : res (GoogleAPIManager Credentials) :=
  Return api_manager.

Definition SendEmailTool_init (api_manager : GoogleAPIManager Credentials)
    (more : list (option string)) : res (GoogleAPIManager Credentials) :=
  match more with
  | [] => Return api_manager
  | _ =>
      Raise (TypeError
        ("__init__() takes 2 positional arguments but " +:+
         pretty (2 + length more)%nat +:+ " were given"))
  end.

(** The attributes of the agent object. *)
Record agent_object := MkAgentObject
  { agent_client_id : option string;
    agent_client_secret : option string;
    agent_token_path : string;
    agent_recipient_email : option string;
    agent_drive_folder_id : option string;
    agent_api_manager : GoogleAPIManager Credentials;
    agent_doc_tool : GoogleAPIManager Credentials * option string;
    agent_export_tool : GoogleAPIManager Credentials;
    agent_email_tool : GoogleAPIManager Credentials }.

Definition missing_configuration : exn :=
  ValueError "Missing required environment variables: GOOGLE_CLIENT_ID, GOOGLE_CLIENT_SECRET, FIXED_RECIPIENT_EMAIL".

(** [SubmissionAgent.__init__]; the graph it builds last is
    [_build_workflow]. *)
Definition SubmissionAgent_init (environ : gmap string string)
  : res agent_object :=
  let client_id := getenv environ "GOOGLE_CLIENT_ID" in
  let client_secret := getenv environ "GOOGLE_CLIENT_SECRET" in
  let token_path := default "token.json" (getenv environ "GOOGLE_TOKEN_PATH") in
  let recipient_email := getenv environ "FIXED_RECIPIENT_EMAIL" in
  let drive_folder_id := getenv environ "DRIVE_FOLDER_ID" in
  if negb (str_truthy client_id && str_truthy client_secret
           && str_truthy recipient_email)
  then Raise missing_configuration
  else
    let api_manager :=
      MkManager (default "" client_id) (default "" client_secret) token_path
        None in
    res_bind (CreateGoogleDocTool_init api_manager drive_folder_id)
      (fun doc_tool =>
    res_bind (ExportDocxTool_init api_manager) (fun export_tool =>
    res_bind (SendEmailTool_init api_manager [recipient_email])
      (fun email_tool =>
    Return (MkAgentObject client_id client_secret token_path recipient_email
              drive_folder_id api_manager doc_tool export_tool email_tool)))).

(** [create_agent] *)
Definition create_agent (environ : gmap string string) : res agent_object :=
  SubmissionAgent_init environ.

End Init.

Arguments create_agent {Credentials}.
Arguments SubmissionAgent_init {Credentials}.
Arguments SendEmailTool_init {Credentials}.

(** ** The command line (main.py)

    The agent that main.py imports, from [adopt.agent], is a parameter:
    [create_agent] and the method [process_submission] with its four
    arguments, which returns a dictionary. So is argparse:
    [parse_args] stands for [parser.parse_args()] of line 25 on the
    command line [argv]. [sys.exit(code)] ends [main] with that status
    and is not an [Exception], so the [except] clause of [main] lets it
    through; [main] returns its exit status, and an exception that
    leaves it ends the process with status 1. *)

Module Cli.

Record arguments := MkArguments
  { name : option string;
    email : option string;
    address : option string;
    recipient : option string;
    interactive : bool }.

(** What [parser.parse_args()] does: it returns the flags, or it ends
    the process with [SystemExit(code)], status 2 after the usage
    message on a command line that the parser refuses and status 0
    after the text of [--help]. *)
Inductive parsed :=
  | Parsed (args : arguments)
  | SystemExit (code : Z).

Section Main.
Variables (W Agent : Type).
Variable create_agent : M W Agent.
Variable process_submission :
  Agent -> string -> string -> string -> string -> M W (gmap string pyval).

(** The lines that wait on standard input, what was printed, and the
    store of the agent. *)
Record console := MkConsole
  { stdin : list string;
    stdout : list string;
    agent_world : W }.

Variable parse_args : list string -> M console parsed.

Definition say (msg : string) : M console unit :=
  modify (fun c => MkConsole (stdin c) (stdout c ++ [msg]) (agent_world c)).

(** [input(prompt)]; at the end of the input it raises [EOFError]. *)
Definition input (prompt : string) : M console string :=
  say prompt ;;;
  c <- get ;;
  match stdin c with
  | [] => raise (ExternalError "EOF when reading a line")
  | line :: rest =>
      modify (fun c => MkConsole rest (stdout c) (agent_world c)) ;;;
      ret line
  end.

Definition in_agent {A} (m : M W A) : M console A :=
  fun c => let (a, w) := m (agent_world c) in
           (a, MkConsole (stdin c) (stdout c) w).

(** Lines 27-44: the four fields, or [None] when [main] exits at
    line 39. *)
Definition get_fields (args : arguments)
  : M console (option (string * string * string * string)) :=
  if interactive args
     || negb (str_truthy (name args) && str_truthy (email args)
              && str_truthy (address args) && str_truthy (recipient args))
  then
    say "=== User Submission Processor ===" ;;;
    say "Please provide the following information:
" ;;;
    name <- input "Full Name: " ;;
    email <- input "Email Address: " ;;
    address <- input "Address: " ;;
    recipient_email <- input "Recipient Email: " ;;
    if negb (negb (bool_decide (strip name = ""))
             && negb (bool_decide (strip email = ""))
             && negb (bool_decide (strip address = ""))
             && negb (bool_decide (strip recipient_email = "")))
    then say "Error: All fields are required." ;;; ret None
    else ret (Some (strip name, strip email, strip address,
                    strip recipient_email))
  else
    ret (Some (default "" (name args), default "" (email args),
               default "" (address args), default "" (recipient args))).

Definition rule : string := "==================================================".

(** [main] on the command line [argv]; its value is the exit status. *)
Definition main (argv : list string) : M console Z :=
  parsed <- parse_args argv ;;
  match parsed with
  | SystemExit code => ret code
  | Parsed args =>
  fields <- get_fields args ;;
  match fields with
  | None => ret 1
  | Some (name, email, address, recipient_email) =>
      say ("
Processing submission for: " +:+ name) ;;;
      say rule ;;;
      try_except
        (agent <- in_agent create_agent ;;
         result <- in_agent (process_submission agent name email address
                               recipient_email) ;;
         ok <- lift (getitem result "success") ;;
         if truthy ok
         then
           say "Submission processed successfully!" ;;;
           document_url <- lift (getitem result "document_url") ;;
           say ("
Document created: " +:+ py_str document_url) ;;;
           email_message_id <- lift (getitem result "email_message_id") ;;
           say ("Email sent with message ID: " +:+ py_str email_message_id) ;;;
           ret 0
         else
           say "Submission processing failed!" ;;;
           message <- lift (getitem result "message") ;;
           say ("Error: " +:+ py_str message) ;;;
           ret 1)
        (fun e => say ("Fatal error: " +:+ str_exn e) ;;; ret 1)
  end
  end.

(** The status with which the process ends. *)
Definition exit_status (outcome : res Z) : Z :=
  match outcome with
  | Return code => code
  | Raise _ => 1
  end.

End Main.

Arguments MkConsole {W}.
Arguments stdin {W}.
Arguments stdout {W}.
Arguments agent_world {W}.
Arguments get_fields {W}.
Arguments main {W Agent}.

End Cli.

(** A command line parser for the stub below: it knows the flag
    [--help] and four flags with a value each, and refuses everything
    else. *)
Fixpoint stub_flags (argv : list string) (args : Cli.arguments)
  : Cli.parsed :=
  match argv with
  | [] => Cli.Parsed args
  | "--help" :: _ => Cli.SystemExit 0
  | "--name" :: v :: rest =>
      stub_flags rest
        (Cli.MkArguments (Some v) (Cli.email args) (Cli.address args)
           (Cli.recipient args) (Cli.interactive args))
  | "--email" :: v :: rest =>
      stub_flags rest
        (Cli.MkArguments (Cli.name args) (Some v) (Cli.address args)
           (Cli.recipient args) (Cli.interactive args))
  | "--address" :: v :: rest =>
      stub_flags rest
        (Cli.MkArguments (Cli.name args) (Cli.email args) (Some v)
           (Cli.recipient args) (Cli.interactive args))
  | "--recipient" :: v :: rest =>
      stub_flags rest
        (Cli.MkArguments (Cli.name args) (Cli.email args) (Cli.address args)
           (Some v) (Cli.interactive args))
  | _ => Cli.SystemExit 2
  end.

Definition stub_parse_args {W} (argv : list string)
  : M (Cli.console W) Cli.parsed :=
  ret (stub_flags argv (Cli.MkArguments None None None None false)).

(** A stub of the agent for the command line: it answers with the
    given dictionary and has no store. *)
Definition cli_stub (result : gmap string pyval)
  : unit -> string -> string -> string -> string -> M unit (gmap string pyval) :=
  fun _ _ _ _ _ => ret result.

Definition success_report : gmap string pyval :=
  {[ "success" := PBool true;
     "message" := PStr "Submission processed successfully!";
     "document_id" := PStr "doc-1";
     "document_url" := PStr "https://docs.google.com/document/d/doc-1";
     "email_message_id" := PStr "msg-1" ]}.

(** ** The form of the web front end (streamlit_app.py)

    [re.match] is the regular expression engine of the standard
    library, a parameter; the text inputs are strings. *)

Module Form.

Section Form.
Variable re_match : string -> string -> bool.

Definition pattern : string :=
  "^[a-zA-Z0-9._%+-]+@[a-zA-Z0-9.-]+\.[a-zA-Z]{2,}$".

(** [validate_email] *)
Definition validate_email (email : string) : bool :=
  re_match pattern email.

(** [not s or not s.strip()] *)
Definition is_missing (s : string) : bool :=
  bool_decide (s = "") || bool_decide (strip s = "").

(** Lines 316-332: the list [errors]. *)
Definition errors (name email recipient_email address : string)
  : list string :=
  (if is_missing name then ["Full Name is required"] else []) ++
  (if is_missing email then ["Email Address is required"]
   else if negb (validate_email (strip email))
        then ["Invalid email format for Email Address"] else []) ++
  (if is_missing recipient_email then ["Recipient Email is required"]
   else if negb (validate_email (strip recipient_email))
        then ["Invalid email format for Recipient Email"] else []) ++
  (if is_missing address then ["Address is required"] else []).

(** What the form does when it is submitted: it shows the errors, or
    calls [process_submission] with the four trimmed values, in the
    order name, email, address, recipient. *)
Inductive action :=
| ShowErrors (errors : list string)
| ProcessSubmission (name email address recipient_email : string).

Definition on_submit (name email recipient_email address : string) : action :=
  match errors name email recipient_email address with
  | [] => ProcessSubmission (strip name) (strip email) (strip address)
            (strip recipient_email)
  | errs => ShowErrors errs
  end.

End Form.

End Form.

(** A stage operation succeeds: its record has a true [success], the
    keys of [payload], and none of the [ids] is [None]. *)
Definition succeeds (payload ids : list string) (d : gmap string pyval)
  : Prop :=
  (exists ok, d !! "success" = Some ok /\ truthy ok = true) /\
  (forall k, k ∈ payload -> is_Some (d !! k)) /\
  (forall k, k ∈ ids -> d !! k <> Some PNone).


(** ** Vocabulary of the further properties *)

(** What a computation does to the store: [always R m] relates the
    store before to the store after whatever the outcome, [on_raise R m]
    when the outcome is an exception; [returns m] says that [m] never
    raises. *)
Definition always {S A} (R : S -> S -> Prop) (m : M S A) : Prop :=
  forall s r s', m s = (r, s') -> R s s'.

Definition on_raise {S A} (R : S -> S -> Prop) (m : M S A) : Prop :=
  forall s e s', m s = (Raise e, s') -> R s s'.

Definition returns {S A} (m : M S A) : Prop :=
  forall s, exists a s', m s = (Return a, s').

(** The events that obtaining a credential may add to the trace: no
    request to a Google service, and no file written but the token file
    at [path]. *)
Definition credential_event (path : string) (e : event) : Prop :=
  match e with
  | ApiRequest _ | BuildService _ _ => False
  | FileWrite p _ => p = path
  | _ => True
  end.

(** [grows P h h']: the configuration of the manager and the clock are
    the same, every file but the token file is the same, and the trace
    of [h'] is the trace of [h] followed by events that satisfy [P] at
    the path of the token file. *)
Definition grows {Credentials} (P : string -> event -> Prop)
    (h h' : heap Credentials) : Prop :=
  client_id (api_manager h') = client_id (api_manager h) /\
  client_secret (api_manager h') = client_secret (api_manager h) /\
  token_path (api_manager h') = token_path (api_manager h) /\
  now h' = now h /\
  (forall p, p <> token_path (api_manager h) -> files h' !! p = files h !! p) /\
  exists new, events h' = (events h ++ new)%list /\
              Forall (P (token_path (api_manager h))) new.

(** [untouched_store h h']: the files and the manager, with its cache,
    are the same; only the trace may differ. *)
Definition untouched_store {Credentials} (h h' : heap Credentials) : Prop :=
  files h' = files h /\ api_manager h' = api_manager h.

(** Whether [get_credentials] answers from the cache (line 61). *)
Definition cache_valid {Credentials} (G : google Credentials)
    (h : heap Credentials) : bool :=
  match _creds (api_manager h) with
  | Some c => valid G c (now h)
  | None => false
  end.

Definition is_print (e : event) : bool :=
  match e with
  | Print _ => true
  | _ => false
  end.

(** What a trace did, apart from what it printed. *)
Definition effects (l : list event) : list event :=
  filter (fun e => is_print e = false) l.

(** The store after the token file was looked for and not found. *)
Definition no_token_file {Credentials} (h : heap Credentials)
  : heap Credentials :=
  let path := token_path (api_manager h) in
  push (Print "No existing token file found")
    (push (PathExists path)
       (push (Print ("Checking for existing token at: " +:+ path)) h)).

(** The store after the token file was found and read. *)
Definition token_file_read {Credentials} (h : heap Credentials)
  : heap Credentials :=
  let path := token_path (api_manager h) in
  push (FileRead path)
    (push (Print "Found existing token file, loading...")
       (push (PathExists path)
          (push (Print ("Checking for existing token at: " +:+ path)) h))).

(** The store in which the local server of the interactive flow is
    started, and the one in which the console flow is started after the
    local server failed with [e]. *)
Definition flow_start {Credentials} (h : heap Credentials)
  : heap Credentials :=
  push (Print "Starting local server on port 8080...")
    (push (Print "If browser doesn't open, copy the URL that appears")
       (push (Print "A browser window will open for authorization")
          (push (Print "Starting OAuth flow...") h))).

Definition console_start {Credentials} (e : exn) (h : heap Credentials)
  : heap Credentials :=
  push (Print "Trying console-based OAuth flow...")
    (push (Print ("Local server failed: " +:+ str_exn e))
       (push (LocalServerFlow 8080) (flow_start h))).

(** The store after the credential [c] was kept in the cache, and after
    it was written to the token file at [path] and kept in the cache
    (lines 112-118). *)
Definition cached {Credentials} (c : Credentials) (h : heap Credentials)
  : heap Credentials :=
  MkHeap (MkManager (client_id (api_manager h)) (client_secret (api_manager h))
            (token_path (api_manager h)) (Some c))
    (now h) (files h) (events h).

Definition saved {Credentials} (G : google Credentials) (path : string)
    (c : Credentials) (h : heap Credentials) : heap Credentials :=
  MkHeap (MkManager (client_id (api_manager h)) (client_secret (api_manager h))
            (token_path (api_manager h)) (Some c))
    (now h) (<[path := to_json G c]> (files h))
    (events h ++
     [Print "Saving credentials to token file...";
      FileWrite path (to_json G c);
      Print "Credentials saved successfully"]).

(** Lines 75-118: refresh or authorize from the store [start], then
    save. *)
Definition acquire {Credentials} (G : google Credentials) (path : string)
    (stored : option Credentials) (start : heap Credentials)
  : res Credentials * heap Credentials :=
  match refresh_or_authorize G stored start with
  | (Return c, h1) => (Return c, saved G path c h1)
  | (Raise e, h1) => (Raise e, h1)
  end.

Definition is_file_read (e : event) : bool :=
  match e with
  | FileRead _ => true
  | _ => false
  end.

Definition is_local_server (e : event) : bool :=
  match e with
  | LocalServerFlow _ => true
  | _ => false
  end.

Definition is_console (e : event) : bool :=
  match e with
  | ConsoleFlow => true
  | _ => false
  end.

(** The Google side of a desktop: as [demo_google], with the given
    content of the token file and the given answers of the two
    interactive flows. *)
Definition desktop_google (stored local console : res demo_credentials)
  : google demo_credentials :=
  {| valid := valid demo_google;
     expired := expired demo_google;
     refresh_token := refresh_token demo_google;
     to_json := to_json demo_google;
     from_authorized_user_info := fun _ => stored;
     refresh := refresh demo_google;
     run_local_server := fun _ => local;
     run_console := fun _ => console;
     build := build demo_google;
     isoformat_now := isoformat_now demo_google;
     documents_create := documents_create demo_google;
     documents_batchUpdate := documents_batchUpdate demo_google;
     files_update := files_update demo_google;
     files_export_media := files_export_media demo_google;
     mime_message := mime_message demo_google;
     messages_send := messages_send demo_google |}.

(** What each stage tool may add to the trace: what obtaining a
    credential adds, the construction of its own services and its own
    requests. The Document Creator turns to Drive only when a folder is
    configured. *)
Definition service_events (own : list event) (path : string) (e : event)
  : Prop :=
  credential_event path e \/ e ∈ own.

Definition docs_events (drive_folder_id : option string) : list event :=
  [BuildService "docs" "v1";
   ApiRequest "docs.documents.create";
   ApiRequest "docs.documents.batchUpdate"] ++
  (if str_truthy drive_folder_id
   then [BuildService "drive" "v3"; ApiRequest "drive.files.update"]
   else []).

Definition export_events : list event :=
  [BuildService "drive" "v3"; ApiRequest "drive.files.export_media"].

Definition email_events : list event :=
  [BuildService "gmail" "v1"; ApiRequest "gmail.users.messages.send"].

(** The counter after [_handle_error] (lines 230-234). *)
Definition next_retry_count (n : Z) : Z :=
  if bool_decide (n < 3) then n + 1 else n.

Definition is_error_handling (s : step) : bool :=
  match s with
  | Ran handle_error => true
  | _ => false
  end.

(** [advances r r']: the history of [r'] extends that of [r], and the
    retry counter of [r'] is that of [r] after as many rounds of
    [_handle_error] as the extension records. *)
Definition advances {W} (r r' : run W) : Prop :=
  exists new,
    history r' = (history r ++ new)%list /\
    retry_count (state r') =
      Nat.iter (length (filter (fun s => is_error_handling s = true) new))
        next_retry_count (retry_count (state r)).

(** The text that opens the error message of each stage, and the
    result that each stage records. *)
Definition stage_label (n : node) : string :=
  match n with
  | validate_input => "Input validation failed: "
  | create_document => "Document creation failed: "
  | export_docx => "DOCX export failed: "
  | send_email => "Email sending failed: "
  | _ => ""
  end.

Definition result_of (n : node) (s : AgentState) : gmap string pyval :=
  match n with
  | validate_input => validation_result s
  | create_document => doc_creation_result s
  | export_docx => docx_export_result s
  | send_email => email_result s
  | _ => ∅
  end.

Definition stage_of (s : step) : option node :=
  match s with
  | Ran validate_input => Some validate_input
  | Ran create_document => Some create_document
  | Ran export_docx => Some export_docx
  | Ran send_email => Some send_email
  | _ => None
  end.

(** The stage node that ran last. *)
Definition last_stage (l : list step) : option node :=
  last (omap stage_of l).

Definition failed_stage_of (p : progress) : option node :=
  match p with
  | stopped_at_validation => Some validate_input
  | stopped_at_document => Some create_document
  | stopped_at_export => Some export_docx
  | stopped_at_email => Some send_email
  | completed => None
  end.

(** What holds of the messages during a run: the error message is that
    of the last stage when its result is a failure, and after a
    [_finalize] that found a failure the final message repeats it. *)
Definition messages_fit {W} (r : run W) : Prop :=
  (forall n, last_stage (history r) = Some n ->
             stage_ok (result_of n (state r)) = false ->
             exists detail,
               error_message (state r) = stage_label n +:+ detail) /\
  (last (history r) = Some (Ran finalize) ->
   all_ok (state r) = false ->
   final_message (state r) = "Workflow failed: " +:+ error_message (state r)).

(** Strings of whitespace, and strings that neither start nor end with
    whitespace and are not empty. *)
Fixpoint blank (s : string) : bool :=
  match s with
  | EmptyString => true
  | String c s' => is_space c && blank s'
  end.

Definition first_char (s : string) : option ascii :=
  match s with
  | EmptyString => None
  | String c _ => Some c
  end.

Fixpoint last_char (s : string) : option ascii :=
  match s with
  | EmptyString => None
  | String c EmptyString => Some c
  | String _ s' => last_char s'
  end.

Definition trimmed (s : string) : Prop :=
  s <> "" /\
  (forall c, first_char s = Some c -> is_space c = false) /\
  (forall c, last_char s = Some c -> is_space c = false).

(** The fields of [UserSubmission], in declaration order. *)
Definition field_names : list string :=
  ["name"; "email"; "address"; "recipient_email"].

(** [keeps I s s']: when [I] holds of [s], it holds of [s']. *)
Definition keeps {S} (I : S -> Prop) (s s' : S) : Prop := I s -> I s'.

(** Subject and body of the message of [SendEmailTool._run]
    (lines 261 and 264-270). *)
Definition email_subject (submission_name : pyval) : string :=
  "New Submission: " +:+ py_str submission_name.

Definition email_body (submission_name document_title document_url : pyval)
  : string :=
  "New submission received from " +:+ py_str submission_name +:+ ":

Document: " +:+ py_str document_title +:+ "
View online: " +:+ py_str document_url +:+ "

Please find the submission details in the attached DOCX file.
".

(** A Google side whose Gmail service answers a send with [answer]. *)
Definition with_messages_send {Credentials} (answer : gmap string pyval)
    (G : google Credentials) : google Credentials :=
  {| valid := valid G;
     expired := expired G;
     refresh_token := refresh_token G;
     to_json := to_json G;
     from_authorized_user_info := from_authorized_user_info G;
     refresh := refresh G;
     run_local_server := run_local_server G;
     run_console := run_console G;
     build := build G;
     isoformat_now := isoformat_now G;
     documents_create := documents_create G;
     documents_batchUpdate := documents_batchUpdate G;
     files_update := files_update G;
     files_export_media := files_export_media G;
     mime_message := mime_message G;
     messages_send := fun _ _ _ => Return answer |}.

(** The Google side when the token endpoint refuses every refresh. *)
Definition invalid_grant : exn := ExternalError "invalid_grant".

Definition revoked_google : google demo_credentials :=
  {| valid := valid demo_google;
     expired := expired demo_google;
     refresh_token := refresh_token demo_google;
     to_json := to_json demo_google;
     from_authorized_user_info := from_authorized_user_info demo_google;
     refresh := fun _ _ => Raise invalid_grant;
     run_local_server := run_local_server demo_google;
     run_console := run_console demo_google;
     build := build demo_google;
     isoformat_now := isoformat_now demo_google;
     documents_create := documents_create demo_google;
     documents_batchUpdate := documents_batchUpdate demo_google;
     files_update := files_update demo_google;
     files_export_media := files_export_media demo_google;
     mime_message := mime_message demo_google;
     messages_send := messages_send demo_google |}.

(** A first run: no token file, nothing cached. *)
Definition first_run : heap demo_credentials :=
  {| api_manager := MkManager "client-id" "client-secret" "token.json" None;
     now := 200;
     files := ∅;
     events := [] |}.

Definition browser_credential : demo_credentials :=
  DemoCreds "from-browser" (Some "refresh-2") 3800.

Definition console_credential : demo_credentials :=
  DemoCreds "from-console" (Some "refresh-3") 3800.

Definition port_in_use : exn := ExternalError "port 8080 in use".

Definition no_console : exn := ExternalError "no console".

(* ===================================================================== *)
(** * Part II. Properties *)
(* ===================================================================== *)

(** ** Trimming *)

Lemma lstrip_head (s : string) :
  lstrip s = "" \/ exists c s', lstrip s = String c s' /\ is_space c = false.
Proof.
  induction s as [|c s IH]; simpl; [by left|].
  destruct (is_space c) eqn:Hc; [exact IH|].
  right. by exists c, s.
Qed.

Lemma rstrip_keeps_head (c : ascii) (s : string) :
  is_space c = false -> exists s', rstrip (String c s) = String c s'.
Proof.
  intros Hc. simpl. destruct (rstrip s); rewrite ?Hc; eauto.
Qed.

Lemma rstrip_idem (s : string) : rstrip (rstrip s) = rstrip s.
Proof.
  induction s as [|c s IH]; simpl; [done|].
  destruct (rstrip s) as [|c' r] eqn:Hr.
  - destruct (is_space c) eqn:Hc; simpl; by rewrite ?Hc.
  - simpl in *. by rewrite IH.
Qed.

Lemma lstrip_fixed (c : ascii) (s : string) :
  is_space c = false -> lstrip (String c s) = String c s.
Proof. intros Hc. simpl. by rewrite Hc. Qed.

Lemma strip_idem (s : string) : strip (strip s) = strip s.
Proof.
  unfold strip.
  destruct (lstrip_head s) as [->|(c & s' & -> & Hc)]; [done|].
  destruct (rstrip_keeps_head c s' Hc) as [r Hr].
  rewrite Hr, (lstrip_fixed _ _ Hc), <- Hr. apply rstrip_idem.
Qed.

Lemma strip_nonempty_length (s : string) :
  s <> "" -> (String.length s < 1)%nat -> False.
Proof. destruct s; simpl; [done|lia]. Qed.

(** ** The validator *)

Lemma raw_record_name n e a r : raw_record n e a r !! "name" = Some n.
Proof. unfold raw_record. by simplify_map_eq. Qed.

Lemma raw_record_email n e a r : raw_record n e a r !! "email" = Some e.
Proof. unfold raw_record. by simplify_map_eq. Qed.

Lemma raw_record_address n e a r : raw_record n e a r !! "address" = Some a.
Proof. unfold raw_record. by simplify_map_eq. Qed.

Lemma raw_record_recipient n e a r :
  raw_record n e a r !! "recipient_email" = Some r.
Proof. unfold raw_record. by simplify_map_eq. Qed.

Lemma constrained_field_blank (v : string) :
  strip v = "" ->
  exists k, UserSubmission.constrained_field (Some v) = inl k /\
            EmptyField_style k.
Proof.
  intros Hv. unfold UserSubmission.constrained_field.
  case_bool_decide; [exists MinLength; split; [done|by left]|].
  unfold UserSubmission.validate_required_fields.
  rewrite Hv. rewrite (bool_decide_true ("" = "")) by done.
  rewrite orb_true_r. exists FieldCannotBeEmpty. split; [done|by right].
Qed.

Lemma constrained_field_filled (v : string) :
  strip v <> "" -> UserSubmission.constrained_field (Some v) = inr (strip v).
Proof.
  intros Hv. unfold UserSubmission.constrained_field.
  assert (v <> "") as Hne by (intros ->; by apply Hv).
  case_bool_decide as Hlen; [by destruct (strip_nonempty_length v)|].
  unfold UserSubmission.validate_required_fields.
  by rewrite !bool_decide_false.
Qed.

Lemma email_field_some ev (v : string) :
  UserSubmission.email_field ev (Some v) =
  match ev v with Some e => inr e | None => inl InvalidEmailFormat end.
Proof.
  unfold UserSubmission.email_field, UserSubmission.validate_email.
  by destruct (ev v).
Qed.

Lemma elem_of_field_errors (l l' : string) (k : error_kind)
    (r : error_kind + string) :
  ErrorItem l k ∈ UserSubmission.field_errors l' r <-> l = l' /\ r = inl k.
Proof.
  destruct r as [k'|v]; simpl.
  - rewrite list_elem_of_singleton. split; [by intros [= -> ->]|].
    by intros [-> [= ->]].
  - split; [by intros ?%not_elem_of_nil|by intros [_ ?]].
Qed.

(** The errors of a failed construction are the errors of the four
    fields, in declaration order. *)
Lemma new_errors ev (data : gmap string string) (errs : list error_item) :
  UserSubmission.new ev data = Raise (ValidationError errs) ->
  errs =
    (UserSubmission.field_errors "name"
      (UserSubmission.constrained_field (data !! "name")) ++
    UserSubmission.field_errors "email"
      (UserSubmission.email_field ev (data !! "email")) ++
    UserSubmission.field_errors "address"
      (UserSubmission.constrained_field (data !! "address")) ++
    UserSubmission.field_errors "recipient_email"
      (UserSubmission.email_field ev (data !! "recipient_email")))%list.
Proof.
  unfold UserSubmission.new.
  destruct (UserSubmission.constrained_field (data !! "name"));
    destruct (UserSubmission.email_field ev (data !! "email"));
    destruct (UserSubmission.constrained_field (data !! "address"));
    destruct (UserSubmission.email_field ev (data !! "recipient_email"));
    by intros [= <-].
Qed.

Lemma new_ok ev (data : gmap string string) (n e a r : string) :
  UserSubmission.constrained_field (data !! "name") = inr n ->
  UserSubmission.email_field ev (data !! "email") = inr e ->
  UserSubmission.constrained_field (data !! "address") = inr a ->
  UserSubmission.email_field ev (data !! "recipient_email") = inr r ->
  UserSubmission.new ev data = Return (UserSubmission.Build n e a r).
Proof. unfold UserSubmission.new. by intros -> -> -> ->. Qed.

Lemma new_fails ev (data : gmap string string) :
  (exists k, UserSubmission.constrained_field (data !! "name") = inl k) \/
  (exists k, UserSubmission.email_field ev (data !! "email") = inl k) \/
  (exists k, UserSubmission.constrained_field (data !! "address") = inl k) \/
  (exists k, UserSubmission.email_field ev (data !! "recipient_email") = inl k) ->
  exists errs, UserSubmission.new ev data = Raise (ValidationError errs).
Proof.
  unfold UserSubmission.new.
  intros [[k ->]|[[k ->]|[[k ->]|[k ->]]]];
    repeat match goal with
           | |- context [match ?x with inl _ => _ | inr _ => _ end] =>
               destruct x
           end; eauto.
Qed.

Lemma constrained_field_cases (v : string) :
  (strip v = "" /\
   exists k, UserSubmission.constrained_field (Some v) = inl k /\
             EmptyField_style k) \/
  (strip v <> "" /\ UserSubmission.constrained_field (Some v) = inr (strip v)).
Proof.
  destruct (decide (strip v = "")) as [H|H].
  - left. split; [done|]. by apply constrained_field_blank.
  - right. split; [done|]. by apply constrained_field_filled.
Qed.

Lemma elem_of_errors (l : string) (k : error_kind)
    (n e a r : error_kind + string) :
  ErrorItem l k ∈
    (UserSubmission.field_errors "name" n ++
     UserSubmission.field_errors "email" e ++
     UserSubmission.field_errors "address" a ++
     UserSubmission.field_errors "recipient_email" r)%list <->
  (l = "name" /\ n = inl k) \/ (l = "email" /\ e = inl k) \/
  (l = "address" /\ a = inl k) \/ (l = "recipient_email" /\ r = inl k).
Proof. rewrite !elem_of_app, !elem_of_field_errors. tauto. Qed.

(** C4. [validate] on a raw record of four strings: a name or an
    address that is blank after trimming gives a failure that carries an
    empty-field error for that field; an email or a recipient email that
    the parser rejects gives a failure that carries "Invalid email
    format" for that field; in every other case the result is the
    submission with the trimmed name and address and the normalized
    addresses. *)
Theorem validate_contract (ev : UserSubmission.email_parser)
    (name email address recipient_email : string) :
  let result :=
    UserSubmission.new ev (raw_record name email address recipient_email) in
  (forall errs, result = Raise (ValidationError errs) ->
     (strip name = "" <->
        exists k, ErrorItem "name" k ∈ errs /\ EmptyField_style k) /\
     (strip address = "" <->
        exists k, ErrorItem "address" k ∈ errs /\ EmptyField_style k) /\
     (ev email = None <-> ErrorItem "email" InvalidEmailFormat ∈ errs) /\
     (ev recipient_email = None <->
        ErrorItem "recipient_email" InvalidEmailFormat ∈ errs)) /\
  (strip name = "" \/ strip address = "" \/
   ev email = None \/ ev recipient_email = None ->
     exists errs, result = Raise (ValidationError errs)) /\
  (strip name <> "" -> strip address <> "" ->
   forall e r, ev email = Some e -> ev recipient_email = Some r ->
     result = Return (UserSubmission.Build (strip name) e (strip address) r)).
Proof.
  cbv zeta. split; [|split].
  - intros errs ->%new_errors.
    rewrite raw_record_name, raw_record_email, raw_record_address,
      raw_record_recipient, !email_field_some.
    repeat split.
    + intros Hblank.
      destruct (constrained_field_cases name) as [(_ & k & Hf & Hk)|(H & _)];
        [|done].
      exists k. split; [|done]. apply elem_of_errors. by left.
    + intros (k & Hin%elem_of_errors & Hk).
      destruct Hin as [[_ H]|[[[=] _]|[[[=] _]|[[=] _]]]].
      destruct (constrained_field_cases name) as [(? & _)|(_ & H')];
        [done|congruence].
    + intros Hblank.
      destruct (constrained_field_cases address) as [(_ & k & Hf & Hk)|(H & _)];
        [|done].
      exists k. split; [|done]. apply elem_of_errors. right; right; by left.
    + intros (k & Hin%elem_of_errors & Hk).
      destruct Hin as [[[=] _]|[[[=] _]|[[_ H]|[[=] _]]]].
      destruct (constrained_field_cases address) as [(? & _)|(_ & H')];
        [done|congruence].
    + intros He. apply elem_of_errors. right; left. by rewrite He.
    + intros [[[=] _]|[[_ H]|[[[=] _]|[[=] _]]]]%elem_of_errors.
      by destruct (ev email).
    + intros Hr. apply elem_of_errors. right; right; right. by rewrite Hr.
    + intros [[[=] _]|[[[=] _]|[[[=] _]|[_ H]]]]%elem_of_errors.
      by destruct (ev recipient_email).
  - intros H. apply new_fails.
    rewrite raw_record_name, raw_record_email, raw_record_address,
      raw_record_recipient, !email_field_some.
    destruct H as [H|[H|[H|H]]].
    + destruct (constrained_field_cases name) as [(_ & k & -> & _)|(? & _)];
        [eauto|done].
    + right; right; left.
      destruct (constrained_field_cases address) as [(_ & k & -> & _)|(? & _)];
        [eauto|done].
    + right; left. rewrite H. eauto.
    + right; right; right. rewrite H. eauto.
  - intros Hn Ha e r He Hr. apply new_ok.
    + rewrite raw_record_name. by apply constrained_field_filled.
    + by rewrite raw_record_email, email_field_some, He.
    + rewrite raw_record_address. by apply constrained_field_filled.
    + by rewrite raw_record_recipient, email_field_some, Hr.
Qed.

Example validate_jane_smith :
  UserSubmission.new simple_parser
    (raw_record "  Jane Smith " "jane@x.com" "1 Oak Ave" "admin@co.com") =
  Return (UserSubmission.Build "Jane Smith" "jane@x.com" "1 Oak Ave"
            "admin@co.com").
Proof. reflexivity. Qed.

Example validate_collects_all_errors :
  UserSubmission.new simple_parser
    (raw_record "" "not-an-email" "   " "admin@co.com") =
  Raise (ValidationError
           [ErrorItem "name" MinLength; ErrorItem "email" InvalidEmailFormat;
            ErrorItem "address" FieldCannotBeEmpty]).
Proof. reflexivity. Qed.

(** ** The monad *)

Section Monad.
Context {S A B : Type}.

Lemma bind_Return (m : M S A) (k : A -> M S B) s a s' :
  m s = (Return a, s') -> bind m k s = k a s'.
Proof. unfold bind. by intros ->. Qed.

Lemma bind_inv_Return (m : M S A) (k : A -> M S B) s b s2 :
  bind m k s = (Return b, s2) ->
  exists a s1, m s = (Return a, s1) /\ k a s1 = (Return b, s2).
Proof.
  unfold bind. destruct (m s) as [[a|e] s1]; [eauto|done].
Qed.

(** A [try] whose handler returns cannot raise. *)
Lemma try_except_total (body : M S A) handler (P : A -> Prop) :
  (forall s a s', body s = (Return a, s') -> P a) ->
  (forall e s, exists a s', handler e s = (Return a, s') /\ P a) ->
  forall s, exists a s', try_except body handler s = (Return a, s') /\ P a.
Proof.
  intros Hbody Hhandler s. unfold try_except.
  destruct (body s) as [[a|e] s'] eqn:Hs; [|apply Hhandler].
  exists a, s'. eauto.
Qed.
End Monad.

Ltac bind_inv H :=
  let a := fresh "a" in
  let s := fresh "s" in
  let Ha := fresh "Ha" in
  apply bind_inv_Return in H as (a & s & Ha & H).

(** ** The stage tools *)

Lemma failed_success e : failed e !! "success" = Some (PBool false).
Proof. unfold failed. by simplify_map_eq. Qed.

Lemma failed_error e : failed e !! "error" = Some (PStr (str_exn e)).
Proof. unfold failed. by simplify_map_eq. Qed.

Lemma stage_record_failed payload e : stage_record payload (failed e).
Proof. right. rewrite failed_success, failed_error. eauto. Qed.

Section Tools.
Context {Credentials : Type} (G : google Credentials)
        (ev : UserSubmission.email_parser).

Lemma failure_returns (payload : list string) e (h : heap Credentials) :
  exists d h', failure e h = (Return d, h') /\
               stage_record payload d.
Proof. eexists _, _. split; [done|]. apply stage_record_failed. Qed.

Lemma create_and_fill_record folder name email address h d h' :
  create_and_fill G folder name email address h = (Return d, h') ->
  stage_record ["document_id"; "document_url"; "title"] d.
Proof.
  unfold create_and_fill. intros H.
  do 5 bind_inv H. injection H as <- _.
  left. split; [by simplify_map_eq|].
  intros k Hk. repeat (apply elem_of_cons in Hk as [->|Hk]);
    [by simplify_map_eq..|by apply not_elem_of_nil in Hk].
Qed.

(** C10. Each of the three stage operations returns, for every
    input and whatever the services answer, a record with a boolean
    [success]; no exception leaves it. With [success] false the record
    carries an [error] string, with [success] true it carries the
    payload of the stage. *)
Theorem stage_tools_total :
  (forall folder submission_data h,
     exists d h',
       CreateGoogleDocTool_run G ev folder submission_data h = (Return d, h') /\
       stage_record ["document_id"; "document_url"; "title"] d) /\
  (forall document_id h,
     exists d h',
       ExportDocxTool_run G document_id h = (Return d, h') /\
       stage_record ["docx_content"; "mime_type"] d) /\
  (forall docx_content document_title document_url submission_name
          recipient_email h,
     exists d h',
       SendEmailTool_run G docx_content document_title document_url
         submission_name recipient_email h = (Return d, h') /\
       stage_record ["message_id"; "recipient"] d).
Proof.
  split; [|split]; intros.
  - apply try_except_total; [|apply failure_returns].
    intros s d s' H. do 2 bind_inv H.
    by eapply create_and_fill_record.
  - apply try_except_total; [|apply failure_returns].
    intros s d s' H. do 2 bind_inv H. injection H as <- _.
    left. split; [by simplify_map_eq|].
    intros k Hk. repeat (apply elem_of_cons in Hk as [->|Hk]);
      [by simplify_map_eq..|by apply not_elem_of_nil in Hk].
  - apply try_except_total; [|apply failure_returns].
    intros s d s' H. do 4 bind_inv H. injection H as <- _.
    left. split; [by simplify_map_eq|].
    intros k Hk. repeat (apply elem_of_cons in Hk as [->|Hk]);
      [by simplify_map_eq..|by apply not_elem_of_nil in Hk].
Qed.
End Tools.

(** ** The credential manager *)

Section Manager.
Context {Credentials : Type} (G : google Credentials).

Lemma load_credentials_caches h c h' :
  load_credentials G h = (Return c, h') -> _creds (api_manager h') = Some c.
Proof.
  unfold load_credentials. intros H.
  do 7 bind_inv H. injection H as <- <-.
  unfold set_creds, modify in Ha5. by injection Ha5 as _ <-.
Qed.

Lemma get_credentials_caches h c h' :
  get_credentials G h = (Return c, h') -> _creds (api_manager h') = Some c.
Proof.
  unfold get_credentials. intros H. bind_inv H.
  injection Ha as <- <-.
  destruct (_creds (api_manager h)) as [c0|] eqn:Hc;
    [destruct (valid G c0 (now h)) eqn:Hv|];
    try by apply load_credentials_caches in H.
  by injection H as <- <-.
Qed.

Lemma get_credentials_cached h c :
  _creds (api_manager h) = Some c -> valid G c (now h) = true ->
  get_credentials G h = (Return c, h).
Proof.
  intros Hc Hv. unfold get_credentials, bind, get. by rewrite Hc, Hv.
Qed.

(** C6. When a call of [get_credentials] has returned a credential,
    a second call made while that credential is valid returns the same
    credential and leaves the store as it finds it: the trace gains no
    event, so no network call is made and no file is written. *)
Theorem get_credentials_idempotent h c h' t :
  get_credentials G h = (Return c, h') ->
  valid G c t = true ->
  exists h'',
    get_credentials G (at_time t h') = (Return c, h'') /\
    events h'' = events h' /\
    files h'' = files h' /\
    count is_network (events h'') = count is_network (events h') /\
    count is_file_write (events h'') = count is_file_write (events h').
Proof.
  intros Hfirst Hvalid. exists (at_time t h'). split; [|done].
  apply get_credentials_cached; [|done].
  cbn [at_time api_manager]. by eapply get_credentials_caches.
Qed.

(** The refresh path, step by step. *)
Lemma from_authorized_user_file_reads path content c h :
  files h !! path = Some content ->
  from_authorized_user_info G content = Return c ->
  from_authorized_user_file G path h = (Return c, push (FileRead path) h).
Proof.
  intros Hfile Hparse. unfold from_authorized_user_file.
  erewrite bind_Return by reflexivity.
  erewrite bind_Return by reflexivity.
  erewrite bind_Return; [|unfold lift, getitem; by rewrite Hfile].
  unfold lift. by rewrite Hparse.
Qed.

Lemma refresh_or_authorize_refreshes c c' h :
  expired G c (now h) = true ->
  str_truthy (refresh_token G c) = true ->
  refresh G (push (Print "Refreshing expired token...") h) c = Return c' ->
  refresh_or_authorize G (Some c) h =
  (Return c',
   push (Print "Token refreshed successfully")
     (push RefreshExchange (push (Print "Refreshing expired token...") h))).
Proof.
  intros Hexpired Htoken Hrefresh. unfold refresh_or_authorize.
  erewrite bind_Return by reflexivity. rewrite Hexpired, Htoken. cbn [andb].
  erewrite bind_Return by reflexivity.
  erewrite bind_Return.
  2:{ unfold ask. erewrite bind_Return by reflexivity.
      erewrite bind_Return by reflexivity.
      unfold lift. by rewrite Hrefresh. }
  by erewrite bind_Return by reflexivity.
Qed.

Lemma events_at_refresh (h : heap Credentials) :
  events (at_refresh h) =
  (events h ++
   [Print ("Checking for existing token at: " +:+ token_path (api_manager h));
    PathExists (token_path (api_manager h));
    Print "Found existing token file, loading...";
    FileRead (token_path (api_manager h));
    Print "Refreshing expired token..."])%list.
Proof.
  unfold at_refresh. cbn [push events]. by rewrite <- !app_assoc.
Qed.

Lemma load_credentials_refresh h content c c' :
  files h !! token_path (api_manager h) = Some content ->
  from_authorized_user_info G content = Return c ->
  valid G c (now h) = false ->
  expired G c (now h) = true ->
  str_truthy (refresh_token G c) = true ->
  refresh G (at_refresh h) c = Return c' ->
  let path := token_path (api_manager h) in
  load_credentials G h =
  (Return c',
   MkHeap (MkManager (client_id (api_manager h)) (client_secret (api_manager h))
             path (Some c'))
     (now h) (<[path := to_json G c']> (files h))
     (events (at_refresh h) ++
      [RefreshExchange;
       Print "Token refreshed successfully";
       Print "Saving credentials to token file...";
       FileWrite path (to_json G c');
       Print "Credentials saved successfully"])).
Proof.
  intros Hfile Hparse Hvalid Hexpired Htoken Hrefresh path. subst path.
  unfold load_credentials.
  erewrite bind_Return by reflexivity.
  erewrite bind_Return by reflexivity.
  erewrite bind_Return by reflexivity.
  rewrite Hfile, bool_decide_true by eauto.
  erewrite bind_Return.
  2:{ erewrite bind_Return by reflexivity.
      erewrite bind_Return;
        [|by eapply from_authorized_user_file_reads]. reflexivity. }
  erewrite bind_Return by reflexivity.
  simpl now. rewrite Hvalid.
  erewrite bind_Return.
  2:{ erewrite bind_Return; [|by apply refresh_or_authorize_refreshes].
      erewrite bind_Return by reflexivity.
      erewrite bind_Return by reflexivity.
      erewrite bind_Return by reflexivity. reflexivity. }
  erewrite bind_Return by reflexivity.
  unfold ret, at_refresh.
  cbn [push write_file set_creds events files now api_manager token_path
       client_id client_secret].
  rewrite <- !app_assoc. reflexivity.
Qed.

(** When the token endpoint refuses, the exception leaves
    [get_credentials] after the one exchange; nothing is written and
    nothing is cached. *)
Lemma load_credentials_refused h content c e :
  files h !! token_path (api_manager h) = Some content ->
  from_authorized_user_info G content = Return c ->
  valid G c (now h) = false ->
  expired G c (now h) = true ->
  str_truthy (refresh_token G c) = true ->
  refresh G (at_refresh h) c = Raise e ->
  load_credentials G h = (Raise e, push RefreshExchange (at_refresh h)).
Proof.
  intros Hfile Hparse Hvalid Hexpired Htoken Hrefresh.
  unfold load_credentials.
  erewrite bind_Return by reflexivity.
  erewrite bind_Return by reflexivity.
  erewrite bind_Return by reflexivity.
  rewrite Hfile, bool_decide_true by eauto.
  erewrite bind_Return.
  2:{ erewrite bind_Return by reflexivity.
      erewrite bind_Return;
        [|by eapply from_authorized_user_file_reads]. reflexivity. }
  erewrite bind_Return by reflexivity.
  cbn [now push]. rewrite Hvalid.
  unfold bind at 1. unfold bind at 1. unfold refresh_or_authorize.
  erewrite bind_Return by reflexivity.
  cbn [now push]. rewrite Hexpired, Htoken. cbn [andb].
  erewrite bind_Return by reflexivity.
  unfold bind at 1. unfold ask.
  erewrite bind_Return by reflexivity.
  erewrite bind_Return by reflexivity.
  unfold lift. fold (at_refresh h). by rewrite Hrefresh.
Qed.

(** C7. The token file holds a credential that is expired and has a
    refresh token, and the cache holds no valid credential. One call of
    [get_credentials] asks the token endpoint once; when the endpoint
    grants the refresh, the call writes the refreshed credential to
    the token file once, keeps it in the cache and returns it. *)
Theorem get_credentials_refresh h content c c' :
  (forall c0, _creds (api_manager h) = Some c0 -> valid G c0 (now h) = false) ->
  files h !! token_path (api_manager h) = Some content ->
  from_authorized_user_info G content = Return c ->
  valid G c (now h) = false ->
  expired G c (now h) = true ->
  str_truthy (refresh_token G c) = true ->
  refresh G (at_refresh h) c = Return c' ->
  exists h' new,
    get_credentials G h = (Return c', h') /\
    events h' = (events h ++ new)%list /\
    count is_refresh new = 1%nat /\
    count is_network new = 1%nat /\
    count is_file_write new = 1%nat /\
    FileWrite (token_path (api_manager h)) (to_json G c') ∈ new /\
    files h' = <[token_path (api_manager h) := to_json G c']> (files h) /\
    _creds (api_manager h') = Some c'.
Proof.
  intros Hcache Hfile Hparse Hvalid Hexpired Htoken Hrefresh.
  pose proof (load_credentials_refresh h content c c' Hfile Hparse Hvalid
                Hexpired Htoken Hrefresh) as Hload.
  cbv zeta in Hload. rewrite events_at_refresh, <- app_assoc in Hload.
  eexists _, _. split; [|split].
  - unfold get_credentials, bind, get.
    destruct (_creds (api_manager h)) as [c0|] eqn:Hc0; [|exact Hload].
    by rewrite (Hcache c0 eq_refl).
  - reflexivity.
  - cbn [files api_manager _creds]. repeat split.
    apply elem_of_app. right. rewrite !elem_of_cons. do 3 right. by left.
Qed.

End Manager.

(** C6 at the demo store: the first call refreshes the stale token, the
    second, a hundred seconds later, is answered from the cache. *)
Lemma get_credentials_idempotent_witness :
  let c := DemoCreds "refreshed" (Some "refresh-1") 3800 in
  let h' := snd (get_credentials demo_google demo_heap) in
  exists h'',
    get_credentials demo_google (at_time 300 h') = (Return c, h'') /\
    events h'' = events h' /\
    files h'' = files h' /\
    count is_network (events h'') = count is_network (events h') /\
    count is_file_write (events h'') = count is_file_write (events h').
Proof.
  apply (get_credentials_idempotent demo_google demo_heap
           (DemoCreds "refreshed" (Some "refresh-1") 3800)
           (snd (get_credentials demo_google demo_heap)) 300);
    vm_compute; reflexivity.
Defined.

(** C7 at the demo store. *)
Lemma get_credentials_refresh_witness :
  exists h' new,
    get_credentials demo_google demo_heap =
      (Return (DemoCreds "refreshed" (Some "refresh-1") 3800), h') /\
    events h' = (events demo_heap ++ new)%list /\
    count is_refresh new = 1%nat /\
    count is_network new = 1%nat /\
    count is_file_write new = 1%nat /\
    FileWrite "token.json" "{token: refreshed}" ∈ new /\
    files h' = <["token.json" := "{token: refreshed}"]> (files demo_heap) /\
    _creds (api_manager h') =
      Some (DemoCreds "refreshed" (Some "refresh-1") 3800).
Proof.
  apply (get_credentials_refresh demo_google demo_heap "stale"
           (DemoCreds "stale" (Some "refresh-1") 100)
           (DemoCreds "refreshed" (Some "refresh-1") 3800));
    try (vm_compute; reflexivity).
  intros c0 H. discriminate H.
Defined.


(** ** The pipeline *)

Lemma stage_ok_failed e : stage_ok (failed e) = false.
Proof. unfold stage_ok, dict_get_default. by rewrite failed_success. Qed.

Lemma stage_ok_lookup (d : gmap string pyval) v :
  d !! "success" = Some v -> stage_ok d = truthy v.
Proof. unfold stage_ok, dict_get_default. by intros ->. Qed.

Section Pipeline.
Context {W : Type} (self : SubmissionAgent W).

Implicit Types (r : run W) (s : AgentState) (d : gmap string pyval).

Lemma validate_input_eq r :
  _validate_input self r =
  (Return tt, set_state (validated (parser self) (state r)) r).
Proof.
  unfold _validate_input, validated, try_except, bind, read, lift.
  by destruct (UserSubmission.new (parser self) (user_input (state r))).
Qed.

Lemma validated_frame s :
  user_input (validated (parser self) s) = user_input s /\
  doc_creation_result (validated (parser self) s) = doc_creation_result s /\
  docx_export_result (validated (parser self) s) = docx_export_result s /\
  email_result (validated (parser self) s) = email_result s /\
  retry_count (validated (parser self) s) = retry_count s.
Proof.
  unfold validated.
  by destruct (UserSubmission.new (parser self) (user_input s)).
Qed.

Lemma validated_success s :
  exists v, validation_result (validated (parser self) s) !! "success" = Some v.
Proof.
  unfold validated.
  destruct (UserSubmission.new (parser self) (user_input s)); cbn.
  - eexists. by simplify_map_eq.
  - eexists. apply failed_success.
Qed.

Ltac unfold_node :=
  unfold call, record, set_validation_result, set_doc_creation_result,
    set_docx_export_result, set_email_result, set_error_message,
    set_retry_count, set_success, set_final_message, update;
  unfold try_except, bind, read, lift, getitem, modify, in_world, ret;
  cbn [state world history log_step set_state].

Ltac failed_stage c :=
  eexists (failed _), _, _, c; rewrite ?app_nil_r;
  split; [reflexivity|];
  rewrite failed_success, ?stage_ok_failed;
  split; [by eexists|]; split; [by auto|done].

(** A stage node returns; it writes its own result, perhaps the error
    message, and calls its tool at most once. *)
Lemma create_document_spec r :
  exists d e w' c,
    _create_document self r =
      (Return tt,
       MkRun (with_error_message e (with_doc_creation_result d (state r)))
             w' (history r ++ c)) /\
    is_Some (d !! "success") /\
    (c = [] /\ w' = world r \/ c = [Called doc_tool]) /\
    (stage_ok d = true ->
     is_Some (d !! "document_id") /\ c = [Called doc_tool]).
Proof.
  unfold _create_document. unfold_node.
  destruct (validation_result (state r) !! "validated_data") as [vd|];
    [|failed_stage (@nil step)].
  cbn [state world history].
  destruct (doc_tool_run self vd (world r)) as [[result|ex] w'];
    [|failed_stage [Called doc_tool]].
  cbn [state world history].
  destruct (result !! "success") as [ok|] eqn:Hok;
    [|failed_stage [Called doc_tool]].
  destruct (truthy ok) eqn:Htruthy.
  - destruct (result !! "document_id") as [doc_id|] eqn:Hid;
      [|failed_stage [Called doc_tool]].
    exists result, (error_message (state r)), w', [Called doc_tool].
    split; [by destruct r as [[] ? ?]|]. rewrite Hok, Hid. eauto 6.
  - eexists result, _, _, _. split; [reflexivity|]. rewrite Hok.
    split; [eauto|]. split; [by right|].
    rewrite (stage_ok_lookup _ _ Hok). congruence.
Qed.

Lemma export_docx_spec r :
  exists d e w' c,
    _export_docx self r =
      (Return tt,
       MkRun (with_error_message e (with_docx_export_result d (state r)))
             w' (history r ++ c)) /\
    is_Some (d !! "success") /\
    (c = [] /\ w' = world r \/ c = [Called export_tool]) /\
    (stage_ok d = true -> c = [Called export_tool]).
Proof.
  unfold _export_docx. unfold_node.
  destruct (doc_creation_result (state r) !! "document_id") as [document_id|];
    [|failed_stage (@nil step)].
  cbn [state world history].
  destruct (export_tool_run self document_id (world r)) as [[result|ex] w'];
    [|failed_stage [Called export_tool]].
  cbn [state world history].
  destruct (result !! "success") as [ok|] eqn:Hok;
    [|failed_stage [Called export_tool]].
  destruct (truthy ok) eqn:Htruthy.
  - exists result, (error_message (state r)), w', [Called export_tool].
    split; [by destruct r as [[] ? ?]|]. rewrite Hok. eauto.
  - eexists result, _, _, _. split; [reflexivity|]. rewrite Hok.
    split; [eauto|]. split; [by right|done].
Qed.

Lemma send_email_spec r :
  exists d e w' c,
    _send_email self r =
      (Return tt,
       MkRun (with_error_message e (with_email_result d (state r)))
             w' (history r ++ c)) /\
    is_Some (d !! "success") /\
    (c = [] /\ w' = world r \/ c = [Called email_tool]) /\
    (stage_ok d = true ->
     is_Some (d !! "message_id") /\ c = [Called email_tool]).
Proof.
  unfold _send_email. unfold_node.
  destruct (docx_export_result (state r) !! "docx_content") as [docx_content|];
    [|failed_stage (@nil step)].
  destruct (doc_creation_result (state r) !! "title") as [doc_title|];
    [|failed_stage (@nil step)].
  destruct (doc_creation_result (state r) !! "document_url") as [doc_url|];
    [|failed_stage (@nil step)].
  destruct (validation_result (state r) !! "validated_data") as [validated_data|];
    [|failed_stage (@nil step)].
  destruct (subscript validated_data "name") as [submission_name|ex];
    [|failed_stage (@nil step)].
  cbn [state world history].
  destruct (email_tool_run self docx_content doc_title doc_url submission_name
              (world r)) as [[result|ex] w'];
    [|failed_stage [Called email_tool]].
  cbn [state world history].
  destruct (result !! "success") as [ok|] eqn:Hok;
    [|failed_stage [Called email_tool]].
  destruct (truthy ok) eqn:Htruthy.
  - destruct (result !! "message_id") as [message_id|] eqn:Hid;
      [|failed_stage [Called email_tool]].
    exists result, (error_message (state r)), w', [Called email_tool].
    split; [by destruct r as [[] ? ?]|]. rewrite Hok, Hid. eauto 6.
  - eexists result, _, _, _. split; [reflexivity|]. rewrite Hok.
    split; [eauto|]. split; [by right|].
    rewrite (stage_ok_lookup _ _ Hok). congruence.
Qed.

Lemma handle_error_eq r :
  exists n,
    _handle_error r =
    (Return tt,
     set_state (with_success false (with_retry_count n (state r))) r).
Proof.
  unfold _handle_error. unfold_node.
  case_bool_decide.
  - by eexists.
  - exists (retry_count (state r)). by destruct r as [[] ? ?].
Qed.

Lemma finalize_failed r :
  all_ok (state r) = false ->
  _finalize r =
  (Return tt,
   set_state (with_final_message ("Workflow failed: " +:+ error_message (state r))
                (with_success false (state r))) r).
Proof. intros H. unfold _finalize. unfold_node. by rewrite H. Qed.

Lemma finalize_succeeded r doc_id message_id recipient doc_url :
  all_ok (state r) = true ->
  doc_creation_result (state r) !! "document_id" = Some doc_id ->
  email_result (state r) !! "message_id" = Some message_id ->
  email_result (state r) !! "recipient" = Some recipient ->
  doc_creation_result (state r) !! "document_url" = Some doc_url ->
  exists m,
    _finalize r =
    (Return tt, set_state (with_final_message m (with_success true (state r))) r).
Proof.
  intros H H1 H2 H3 H4. unfold _finalize. unfold_node.
  rewrite H. cbn [doc_creation_result email_result with_success].
  rewrite H1, H2, H3, H4. by eexists.
Qed.

(** [_finalize] either returns with the results untouched and the flag
    set, or raises, which it does only when all stages are Ok and a key
    of the success message is missing. *)
Lemma finalize_cases r :
  (exists m,
     _finalize r =
     (Return tt,
      set_state (with_final_message m (with_success (all_ok (state r)) (state r)))
        r)) \/
  (all_ok (state r) = true /\
   exists k, _finalize r =
             (Raise (KeyError k), set_state (with_success true (state r)) r)).
Proof.
  destruct (all_ok (state r)) eqn:Hok.
  2:{ left. eexists. by apply finalize_failed. }
  unfold _finalize. unfold_node. rewrite Hok.
  cbn [doc_creation_result email_result with_success].
  destruct (doc_creation_result (state r) !! "document_id"); [|by eauto 6].
  destruct (email_result (state r) !! "message_id"); [|by eauto 6].
  destruct (email_result (state r) !! "recipient"); [|by eauto 6].
  destruct (doc_creation_result (state r) !! "document_url"); [|by eauto 6].
  left. by eexists.
Qed.

(** Edges *)
Lemma successor_validate_input r v :
  validation_result (state r) !! "success" = Some v ->
  successor (_build_workflow self) validate_input r =
  (Return (branch v create_document), r).
Proof.
  intros H. unfold successor, branch. cbn [conditional_edges _build_workflow].
  unfold _should_continue_after_validation, bind, read, lift, getitem, ret,
    route_of.
  rewrite H. by destruct (truthy v).
Qed.

Lemma successor_create_document r v :
  doc_creation_result (state r) !! "success" = Some v ->
  successor (_build_workflow self) create_document r =
  (Return (branch v export_docx), r).
Proof.
  intros H. unfold successor, branch. cbn [conditional_edges _build_workflow].
  unfold _should_continue_after_doc_creation, bind, read, lift, getitem, ret,
    route_of.
  rewrite H. by destruct (truthy v).
Qed.

Lemma successor_export_docx r v :
  docx_export_result (state r) !! "success" = Some v ->
  successor (_build_workflow self) export_docx r =
  (Return (branch v send_email), r).
Proof.
  intros H. unfold successor, branch. cbn [conditional_edges _build_workflow].
  unfold _should_continue_after_export, bind, read, lift, getitem, ret,
    route_of.
  rewrite H. by destruct (truthy v).
Qed.

Lemma successor_send_email r v :
  email_result (state r) !! "success" = Some v ->
  successor (_build_workflow self) send_email r =
  (Return (branch v finalize), r).
Proof.
  intros H. unfold successor, branch. cbn [conditional_edges _build_workflow].
  unfold _should_continue_after_email, bind, read, lift, getitem, ret,
    route_of.
  rewrite H. by destruct (truthy v).
Qed.

Lemma successor_handle_error r :
  successor (_build_workflow self) handle_error r = (Return (To finalize), r).
Proof. reflexivity. Qed.

Lemma successor_finalize r :
  successor (_build_workflow self) finalize r = (Return END, r).
Proof. reflexivity. Qed.

Lemma run_from_step g limit n r r1 next r2 :
  nodes W g n (log_step (Ran n) r) = (Return tt, r1) ->
  successor g n r1 = (Return next, r2) ->
  run_from g (S limit) n r =
  match next with
  | To n' => run_from g limit n' r2
  | END => (Return tt, r2)
  end.
Proof.
  intros Hnode Hnext. cbn [run_from]. unfold bind, record, modify.
  rewrite Hnode, Hnext. by destruct next.
Qed.

Lemma run_from_raise g limit n r e r1 :
  nodes W g n (log_step (Ran n) r) = (Raise e, r1) ->
  run_from g (S limit) n r = (Raise e, r1).
Proof.
  intros Hnode. cbn [run_from]. unfold bind, record, modify.
  by rewrite Hnode.
Qed.

(** From [handle_error] the run ends in [finalize] with the flag
    down, as soon as one recorded result is not Ok. *)
Lemma run_from_handle_error limit r :
  all_ok (state r) = false ->
  exists n m,
    run_from (_build_workflow self) (S (S limit)) handle_error r =
    (Return tt,
     MkRun (with_final_message m
              (with_success false (with_success false
                 (with_retry_count n (state r)))))
           (world r)
           (history r ++ [Ran handle_error; Ran finalize])).
Proof.
  intros Hok.
  destruct (handle_error_eq (log_step (Ran handle_error) r)) as [n Hn].
  exists n. eexists.
  erewrite run_from_step; [|exact Hn|apply successor_handle_error].
  cbv iota.
  erewrite run_from_step; [| |apply successor_finalize].
  2:{ cbn [nodes _build_workflow]. apply finalize_failed. exact Hok. }
  unfold set_state, log_step. cbn [state world history].
  by rewrite <- app_assoc.
Qed.

(** Projections of updated runs and states. *)
Ltac simpl_run := cbn [set_state log_step state world history].

Ltac simpl_state :=
  cbn [set_state log_step state world history
       with_validation_result with_doc_creation_result
       with_docx_export_result with_email_result with_error_message
       with_retry_count with_success with_final_message
       user_input validation_result doc_creation_result
       docx_export_result email_result error_message retry_count success
       final_message].


(** Every run of the graph is one of five paths. *)
Lemma invoke_shape s0 w :
  exists res r p c,
    invoke (_build_workflow self) s0 w = (res, r) /\
    (c = [] \/ c = failing_tool p) /\
    history r = expected_history p c /\
    reached p (state r) /\
    untouched p s0 (state r) /\
    user_input (state r) = user_input s0 /\
    validation_result (state r) =
      validation_result (validated (parser self) s0) /\
    (p <> completed -> res = Return tt /\ success (state r) = false) /\
    (p = completed ->
     res = Return tt /\ success (state r) = true \/
     (exists k, res = Raise (KeyError k))).
Proof.
  unfold invoke, recursion_limit. cbn [entry_point _build_workflow].
  destruct (validated_frame s0) as (Hin & Hdoc0 & Hexp0 & Hmail0 & _).
  destruct (validated_success s0) as [v Hv].
  pose proof (stage_ok_lookup _ _ Hv) as Hvok.
  erewrite run_from_step;
    [|apply validate_input_eq|apply successor_validate_input; exact Hv].
  simpl_run.
  unfold branch. destruct (truthy v) eqn:Hvt; cbv iota.
  2:{ (* validation failed *)
      edestruct run_from_handle_error as (n & m & ->).
      { unfold all_ok. simpl_run. by rewrite Hvok. }
      eexists _, _, stopped_at_validation, []. split; [reflexivity|].
      cbn [reached untouched expected_history failing_tool].
      simpl_run. simpl_state. rewrite Hvok.
      split_and!; try done. by left. }
  (* the document *)
  match goal with
  | |- context [run_from _ _ create_document ?r] =>
      destruct (create_document_spec (log_step (Ran create_document) r))
        as (d & e & w1 & c1 & Hnode & [vd Hvd] & Hc1 & Hd)
  end.
  unfold log_step in Hnode, Hc1; cbn [state world history] in Hnode, Hc1.
  pose proof (stage_ok_lookup _ _ Hvd) as Hdok.
  erewrite run_from_step;
    [|exact Hnode|apply successor_create_document; exact Hvd].
  clear Hnode.
  unfold branch. destruct (truthy vd) eqn:Hvdt; cbv iota.
  2:{ edestruct run_from_handle_error as (n & m & ->).
      { unfold all_ok. simpl_run. simpl_state. rewrite Hdok.
        by rewrite andb_false_r. }
      eexists _, _, stopped_at_document, c1. split; [reflexivity|].
      cbn [reached untouched expected_history failing_tool].
      simpl_run. simpl_state. rewrite Hvok, Hdok, <- !app_assoc.
      split_and!; try done. by destruct Hc1 as [[-> _]| ->]; auto. }
  destruct (Hd Hdok) as [Hdoc_id ->]. clear Hc1 Hd.
  (* the export *)
  match goal with
  | |- context [run_from _ _ export_docx ?r] =>
      destruct (export_docx_spec (log_step (Ran export_docx) r))
        as (x & e2 & w2 & c2 & Hnode & [vx Hvx] & Hc2 & Hx)
  end.
  unfold log_step in Hnode, Hc2; cbn [state world history] in Hnode, Hc2.
  pose proof (stage_ok_lookup _ _ Hvx) as Hxok.
  erewrite run_from_step;
    [|exact Hnode|apply successor_export_docx; exact Hvx].
  clear Hnode.
  unfold branch. destruct (truthy vx) eqn:Hvxt; cbv iota.
  2:{ edestruct run_from_handle_error as (n & m & ->).
      { unfold all_ok. simpl_run. simpl_state. rewrite Hxok.
        by rewrite andb_false_r. }
      eexists _, _, stopped_at_export, c2. split; [reflexivity|].
      cbn [reached untouched expected_history failing_tool].
      simpl_run. simpl_state. rewrite Hvok, Hdok, Hxok, <- !app_assoc.
      split_and!; try done. by destruct Hc2 as [[-> _]| ->]; auto. }
  pose proof (Hx Hxok) as ->. clear Hc2 Hx.
  (* the email *)
  match goal with
  | |- context [run_from _ _ send_email ?r] =>
      destruct (send_email_spec (log_step (Ran send_email) r))
        as (y & e3 & w3 & c3 & Hnode & [vy Hvy] & Hc3 & Hy)
  end.
  unfold log_step in Hnode, Hc3; cbn [state world history] in Hnode, Hc3.
  pose proof (stage_ok_lookup _ _ Hvy) as Hyok.
  erewrite run_from_step;
    [|exact Hnode|apply successor_send_email; exact Hvy].
  clear Hnode.
  unfold branch. destruct (truthy vy) eqn:Hvyt; cbv iota.
  2:{ edestruct run_from_handle_error as (n & m & ->).
      { unfold all_ok. simpl_run. simpl_state. rewrite Hyok.
        by rewrite andb_false_r. }
      eexists _, _, stopped_at_email, c3. split; [reflexivity|].
      cbn [reached untouched expected_history failing_tool].
      simpl_run. simpl_state. rewrite Hvok, Hdok, Hxok, Hyok, <- !app_assoc.
      split_and!; try done. by destruct Hc3 as [[-> _]| ->]; auto. }
  destruct (Hy Hyok) as [Hmsg_id ->]. clear Hc3 Hy.
  (* finalize *)
  match goal with
  | |- context [run_from _ _ finalize ?r] =>
      destruct (finalize_cases (log_step (Ran finalize) r))
        as [[m Hfin]|[Hall [k Hfin]]]
  end.
  - unfold log_step, set_state in Hfin; cbn [state world history] in Hfin.
    erewrite run_from_step; [|exact Hfin|apply successor_finalize].
    eexists _, _, completed, []. split; [reflexivity|].
    cbn [reached untouched expected_history failing_tool].
    simpl_run. unfold all_ok. simpl_state. rewrite Hvok, Hdok, Hxok, Hyok.
    rewrite <- !app_assoc. split_and!; try done; auto.
  - unfold log_step, set_state in Hfin; cbn [state world history] in Hfin.
    erewrite run_from_raise; [|exact Hfin].
    eexists _, _, completed, []. split; [reflexivity|].
    cbn [reached untouched expected_history failing_tool].
    simpl_run. unfold all_ok. simpl_state. rewrite Hvok, Hdok, Hxok, Hyok.
    rewrite <- !app_assoc. split_and!; try done; eauto.
Qed.

Lemma all_ok_true s :
  all_ok s = true ->
  stage_ok (validation_result s) = true /\
  stage_ok (doc_creation_result s) = true /\
  stage_ok (docx_export_result s) = true /\
  stage_ok (email_result s) = true.
Proof. unfold all_ok. rewrite !andb_true_iff. tauto. Qed.

(** [run_workflow] wraps [invoke]: same run, and always a report. *)
Lemma run_workflow_invoke s0 w :
  exists res rep,
    invoke (_build_workflow self) s0 w = (res, snd (run_workflow self s0 w)) /\
    run_workflow self s0 w = (Return rep, snd (run_workflow self s0 w)) /\
    (res = Return tt -> rep = report_of (state (snd (run_workflow self s0 w)))) /\
    (forall e, res = Raise e -> rep = report_of_fault e).
Proof.
  unfold run_workflow.
  destruct (invoke (_build_workflow self) s0 w) as [[[]|e] r]; cbn [snd].
  - eexists _, _. split_and!; [done..|]. by intros e [=].
  - eexists _, _. split_and!; [done..|]. by intros e' [= ->].
Qed.

Ltac in_history :=
  cbn [expected_history failing_tool app];
  rewrite ?elem_of_cons, ?elem_of_nil.

Ltac absurd_membership H :=
  repeat (destruct H as [H|H]; try discriminate H); try (destruct H).

Ltac not_member := let H := fresh in intros H; absurd_membership H.

(** C2. In every run of the pipeline, from any state: when the
    Document Creator stage has run and its recorded result is a
    failure, neither the export node nor the email node has run, neither
    of their tools has been called, their results are as they were
    before the run, and the report says [success = False]. More
    generally a tool has been called only if the recorded results of
    all earlier stages are Ok. *)
Theorem short_circuit s0 w result r :
  run_workflow self s0 w = (result, r) ->
  (Ran create_document ∈ history r ->
   stage_ok (doc_creation_result (state r)) = false ->
   (Ran export_docx ∉ history r) /\ (Called export_tool ∉ history r) /\
   (Ran send_email ∉ history r) /\ (Called email_tool ∉ history r) /\
   docx_export_result (state r) = docx_export_result s0 /\
   email_result (state r) = email_result s0 /\
   exists rep, result = Return rep /\ report_success rep = false) /\
  (Called doc_tool ∈ history r ->
   stage_ok (validation_result (state r)) = true) /\
  (Called export_tool ∈ history r ->
   stage_ok (validation_result (state r)) = true /\
   stage_ok (doc_creation_result (state r)) = true) /\
  (Called email_tool ∈ history r ->
   stage_ok (validation_result (state r)) = true /\
   stage_ok (doc_creation_result (state r)) = true /\
   stage_ok (docx_export_result (state r)) = true).
Proof.
  intros Hrun.
  destruct (run_workflow_invoke s0 w) as (res & rep & Hinv & Hrep & Hret & _).
  rewrite Hrun in Hinv, Hrep, Hret. cbn [snd] in *.
  injection Hrep as ->.
  destruct (invoke_shape s0 w)
    as (res' & r' & p & c & Hinv' & Hc & Hh & Hreach & Hunt & _ & _ & Hstop & _).
  rewrite Hinv in Hinv'. injection Hinv' as <- <-.
  rewrite Hh.
  destruct p; cbn [reached untouched] in Hreach, Hunt;
    destruct Hc as [->| ->]; in_history;
    try (apply all_ok_true in Hreach); destruct_and?; split_and!.
  (* a step that is not in the history *)
  all: try (intros Hin; absurd_membership Hin; fail).
  (* a tool that was called: the earlier results are Ok *)
  all: try (intros _; split_and?; assumption).
  (* the document stage was run *)
  all: intros _ Hdoc; try congruence.
  all: split_and?; try not_member; try assumption.
  all: destruct (Hstop ltac:(done)) as [-> Hs].
  all: exists rep; split; [done|]; by rewrite (Hret eq_refl).
Qed.





(** The three-argument method of agent_backup.py never raises. *)
Lemma process_submission_returns name email address w :
  exists rep w', process_submission self name email address w = (Return rep, w').
Proof.
  unfold process_submission.
  destruct (run_workflow_invoke (initial_state name email address) w)
    as (_ & rep & _ & -> & _).
  by eexists _, _.
Qed.

(** Without [recipient_email] in the input the validator fails. *)
Lemma new_without_recipient ev (name email address : string) :
  exists errs,
    UserSubmission.new ev
      {[ "name" := name; "email" := email; "address" := address ]} =
    Raise (ValidationError errs).
Proof.
  apply new_fails. do 3 right. exists FieldRequired.
  by simplify_map_eq.
Qed.

(** Every run started by the three-argument method of agent_backup.py
    stops at validation: no tool is called and the report is a failure
    without identifiers. *)
Lemma process_submission_fails name email address w :
  exists rep r,
    run_workflow self (initial_state name email address) w = (Return rep, r) /\
    history r = [Ran validate_input; Ran handle_error; Ran finalize] /\
    report_success rep = false /\
    report_document_id rep = PNone /\
    report_document_url rep = PNone /\
    report_email_message_id rep = PNone.
Proof.
  set (s0 := initial_state name email address).
  destruct (run_workflow_invoke s0 w) as (res & rep & Hinv & Hrep & Hret & _).
  destruct (invoke_shape s0 w)
    as (res' & r & p & c & Hinv' & _ & Hh & Hreach & Hunt & _ & Hval & Hstop & _).
  rewrite Hinv in Hinv'. injection Hinv' as <- <-.
  assert (stage_ok (validation_result (state (snd (run_workflow self s0 w))))
          = false) as Hbad.
  { rewrite Hval. unfold validated, s0, initial_state, fresh_state.
    cbn [user_input].
    destruct (new_without_recipient (parser self) name email address)
      as [errs ->].
    simpl_state. apply stage_ok_failed. }
  destruct p; cbn [reached] in Hreach;
    try (apply all_ok_true in Hreach); destruct_and?; try congruence.
  destruct (Hstop ltac:(done)) as [-> Hs]. rewrite (Hret eq_refl) in *.
  cbn [untouched] in Hunt. destruct Hunt as (Hd & Hx & Hm).
  eexists _, _. split; [exact Hrep|]. split; [exact Hh|].
  unfold report_of. cbn [report_success report_document_id
    report_document_url report_email_message_id].
  rewrite Hs, Hd, Hm. by split_and!.
Qed.

(** C1. The entry point with its four arguments returns a report for
    every input, every store and every stage tools, and never raises:
    when the graph ran to its end the report is read off the final
    state, and when a fault left the graph the report is a failure
    that carries the text of the fault and no identifier. *)
Theorem entry_point_total name email address recipient_email w :
  exists rep w',
    process_submission_with_recipient self name email address
      recipient_email w = (Return rep, w') /\
    (forall r,
       invoke (_build_workflow self)
         (fresh_state (raw_record name email address recipient_email)) w =
       (Return tt, r) ->
       w' = world r /\
       rep = {| report_success := success (state r);
                report_message := final_message (state r);
                report_document_id :=
                  dict_get (doc_creation_result (state r)) "document_id";
                report_document_url :=
                  dict_get (doc_creation_result (state r)) "document_url";
                report_email_message_id :=
                  dict_get (email_result (state r)) "message_id" |}) /\
    (forall e r,
       invoke (_build_workflow self)
         (fresh_state (raw_record name email address recipient_email)) w =
       (Raise e, r) ->
       w' = world r /\
       rep = {| report_success := false;
                report_message := "Workflow execution failed: " +:+ str_exn e;
                report_document_id := PNone;
                report_document_url := PNone;
                report_email_message_id := PNone |}).
Proof.
  unfold process_submission_with_recipient, run_workflow.
  destruct (invoke (_build_workflow self)
              (fresh_state (raw_record name email address recipient_email)) w)
    as [[[]|e] r].
  - eexists _, _. split; [reflexivity|]. split.
    + by intros r' [= <-].
    + by intros e r' [=].
  - eexists _, _. split; [reflexivity|]. split.
    + by intros r' [=].
    + by intros e' r' [= <- <-].
Qed.

(** A stage node whose tool succeeds records the answer of the tool. *)
Lemma create_document_ok r vd (d : gmap string pyval) w' ok doc_id :
  validation_result (state r) !! "validated_data" = Some vd ->
  doc_tool_run self vd (world r) = (Return d, w') ->
  d !! "success" = Some ok -> truthy ok = true ->
  d !! "document_id" = Some doc_id ->
  _create_document self r =
  (Return tt,
   MkRun (with_doc_creation_result d (state r)) w'
     (history r ++ [Called doc_tool])).
Proof.
  intros Hvd Htool Hok Htruthy Hid. unfold _create_document. unfold_node.
  rewrite Hvd. cbn [state world history]. rewrite Htool.
  cbn [state world history]. by rewrite Hok, Htruthy, Hid.
Qed.

Lemma export_docx_ok r document_id (d : gmap string pyval) w' ok :
  doc_creation_result (state r) !! "document_id" = Some document_id ->
  export_tool_run self document_id (world r) = (Return d, w') ->
  d !! "success" = Some ok -> truthy ok = true ->
  _export_docx self r =
  (Return tt,
   MkRun (with_docx_export_result d (state r)) w'
     (history r ++ [Called export_tool])).
Proof.
  intros Hid Htool Hok Htruthy. unfold _export_docx. unfold_node.
  rewrite Hid. cbn [state world history]. rewrite Htool.
  cbn [state world history]. by rewrite Hok, Htruthy.
Qed.

Lemma send_email_ok r docx_content doc_title doc_url validated_data
    submission_name (d : gmap string pyval) w' ok message_id :
  docx_export_result (state r) !! "docx_content" = Some docx_content ->
  doc_creation_result (state r) !! "title" = Some doc_title ->
  doc_creation_result (state r) !! "document_url" = Some doc_url ->
  validation_result (state r) !! "validated_data" = Some validated_data ->
  subscript validated_data "name" = Return submission_name ->
  email_tool_run self docx_content doc_title doc_url submission_name (world r) =
    (Return d, w') ->
  d !! "success" = Some ok -> truthy ok = true ->
  d !! "message_id" = Some message_id ->
  _send_email self r =
  (Return tt,
   MkRun (with_email_result d (state r)) w' (history r ++ [Called email_tool])).
Proof.
  intros Hdocx Htitle Hurl Hvd Hname Htool Hok Htruthy Hid.
  unfold _send_email. unfold_node.
  rewrite Hdocx, Htitle, Hurl, Hvd, Hname. cbn [state world history].
  rewrite Htool. cbn [state world history]. by rewrite Hok, Htruthy, Hid.
Qed.

(** C5. On the record of Jane Smith, and on every record that passes
    validation, when the three stage operations succeed (each answers
    with a success record that carries its payload, the identifiers not
    [None]), the entry point returns a report with [success = True], a
    document id and an email message id. *)
Theorem scenario_succeeds name email address recipient_email submission w :
  UserSubmission.new (parser self)
    (raw_record name email address recipient_email) = Return submission ->
  (forall v w0, exists d w1,
     doc_tool_run self v w0 = (Return d, w1) /\
     succeeds ["document_id"; "document_url"; "title"] ["document_id"] d) ->
  (forall v w0, exists d w1,
     export_tool_run self v w0 = (Return d, w1) /\
     succeeds ["docx_content"] [] d) ->
  (forall docx_content doc_title doc_url submission_name w0, exists d w1,
     email_tool_run self docx_content doc_title doc_url submission_name w0 =
       (Return d, w1) /\
     succeeds ["message_id"; "recipient"] ["message_id"] d) ->
  exists rep w',
    process_submission_with_recipient self name email address
      recipient_email w = (Return rep, w') /\
    report_success rep = true /\
    report_document_id rep <> PNone /\
    report_email_message_id rep <> PNone.
Proof.
  intros Hnew Hdoc Hexp Hmail.
  unfold process_submission_with_recipient, run_workflow, invoke,
    recursion_limit.
  cbn [entry_point _build_workflow].
  set (s0 := fresh_state (raw_record name email address recipient_email)).
  set (vd := PStrDict (UserSubmission.dict submission)).
  assert (validated (parser self) s0 =
          with_validation_result
            {[ "success" := PBool true; "validated_data" := vd ]} s0) as Hval
    by (unfold validated, s0, fresh_state; cbn [user_input]; by rewrite Hnew).
  assert (({[ "success" := PBool true; "validated_data" := vd ]}
             : gmap string pyval) !! "success" = Some (PBool true)) as Hvs
    by by simplify_map_eq.
  assert (({[ "success" := PBool true; "validated_data" := vd ]}
             : gmap string pyval) !! "validated_data" = Some vd) as Hvv
    by by simplify_map_eq.
  assert (subscript vd "name" = Return (PStr (UserSubmission.name submission)))
    as Hname.
  { unfold vd, subscript, getitem, UserSubmission.dict.
    by simplify_map_eq. }
  set (validation := ({[ "success" := PBool true; "validated_data" := vd ]}
                        : gmap string pyval)) in *.
  clearbody validation vd.
  (* validation *)
  erewrite run_from_step;
    [|apply validate_input_eq
     |apply successor_validate_input; simpl_state; rewrite Hval; simpl_state;
      exact Hvs].
  unfold branch. cbn [truthy]. cbv iota. simpl_run. rewrite Hval. clear Hval.
  (* the document *)
  destruct (Hdoc vd w) as (d & w1 & Hd & [ok1 [Hok1 Ht1]] & Hpay1 & Hid1).
  destruct (Hpay1 "document_id") as [doc_id Hdoc_id];
    [rewrite !elem_of_cons; auto|].
  destruct (Hpay1 "document_url") as [doc_url Hdoc_url];
    [rewrite !elem_of_cons; auto|].
  destruct (Hpay1 "title") as [doc_title Hdoc_title];
    [rewrite !elem_of_cons; auto|].
  erewrite run_from_step;
    [|eapply create_document_ok; simpl_state; eassumption
     |apply successor_create_document; simpl_state; exact Hok1].
  unfold branch. rewrite Ht1. cbv iota.
  (* the export *)
  destruct (Hexp doc_id w1) as (x & w2 & Hx & [ok2 [Hok2 Ht2]] & Hpay2 & _).
  destruct (Hpay2 "docx_content") as [docx Hdocx];
    [rewrite !elem_of_cons; auto|].
  erewrite run_from_step;
    [|eapply export_docx_ok; simpl_state; eassumption
     |apply successor_export_docx; simpl_state; exact Hok2].
  unfold branch. rewrite Ht2. cbv iota.
  (* the email *)
  destruct (Hmail docx doc_title doc_url
              (PStr (UserSubmission.name submission)) w2)
    as (y & w3 & Hy & [ok3 [Hok3 Ht3]] & Hpay3 & Hid3).
  destruct (Hpay3 "message_id") as [message_id Hmessage_id];
    [rewrite !elem_of_cons; auto|].
  destruct (Hpay3 "recipient") as [recipient Hrecipient];
    [rewrite !elem_of_cons; auto|].
  erewrite run_from_step;
    [|eapply send_email_ok; simpl_state; eassumption
     |apply successor_send_email; simpl_state; exact Hok3].
  unfold branch. rewrite Ht3. cbv iota.
  (* finalize *)
  edestruct (finalize_succeeded) as [m Hfin];
    [| | | | |erewrite run_from_step; [|exact Hfin|apply successor_finalize]].
  { unfold all_ok. simpl_state.
    by rewrite (stage_ok_lookup _ _ Hvs), (stage_ok_lookup _ _ Hok1),
      (stage_ok_lookup _ _ Hok2), (stage_ok_lookup _ _ Hok3), Ht1, Ht2, Ht3. }
  1-4: simpl_state; eassumption.
  eexists _, _. split; [reflexivity|].
  unfold report_of, dict_get.
  cbn [report_success report_document_id report_email_message_id].
  simpl_state. rewrite Hdoc_id, Hmessage_id. cbn [default].
  split_and!; [done| |].
  - unfold id. intros ->. apply (Hid1 "document_id"); [|done].
    rewrite !elem_of_cons; auto.
  - unfold id. intros ->. apply (Hid3 "message_id"); [|done].
    rewrite !elem_of_cons; auto.
Qed.

End Pipeline.

(** The scenario with stubs that all succeed. The three-argument method
    of agent_backup.py leaves [recipient_email] out of the record and
    fails at validation; the graph run on the complete record
    succeeds. *)
Example jane_smith_with_stubs :
  process_submission (stub_agent stub_document stub_docx stub_message)
    "Jane Smith" "jane@x.com" "1 Oak Ave" tt =
  (Return
     {| report_success := false;
        report_message :=
          "Workflow failed: Input validation failed: 1 validation error for UserSubmission
recipient_email
  field required (type=value_error.missing)";
        report_document_id := PNone;
        report_document_url := PNone;
        report_email_message_id := PNone |},
   tt).
Proof. vm_compute. reflexivity. Qed.

Example jane_smith_complete_record :
  let (result, r) :=
    run_workflow (stub_agent stub_document stub_docx stub_message)
      (fresh_state jane_smith) tt in
  result =
    Return
      {| report_success := true;
         report_message := "Submission processed successfully!
            
Document ID: doc-1
Document URL: https://docs.google.com/document/d/doc-1
Email sent to: admin@co.com
Gmail Message ID: msg-1";
         report_document_id := PStr "doc-1";
         report_document_url := PStr "https://docs.google.com/document/d/doc-1";
         report_email_message_id := PStr "msg-1" |} /\
  history r = expected_history completed [].
Proof. vm_compute. done. Qed.

(** C2 on a run whose Document Creator fails. *)
Lemma short_circuit_witness :
  let run := run_workflow (stub_agent stub_failure stub_docx stub_message)
               (fresh_state jane_smith) tt in
  (Ran export_docx ∉ history (snd run)) /\
  (Called export_tool ∉ history (snd run)) /\
  (Ran send_email ∉ history (snd run)) /\
  (Called email_tool ∉ history (snd run)) /\
  docx_export_result (state (snd run)) = ∅ /\
  email_result (state (snd run)) = ∅ /\
  exists rep, fst run = Return rep /\ report_success rep = false.
Proof.
  cbv zeta.
  destruct (short_circuit (stub_agent stub_failure stub_docx stub_message)
              (fresh_state jane_smith) tt
              (fst (run_workflow (stub_agent stub_failure stub_docx stub_message)
                      (fresh_state jane_smith) tt))
              (snd (run_workflow (stub_agent stub_failure stub_docx stub_message)
                      (fresh_state jane_smith) tt)))
    as [H _].
  - apply surjective_pairing.
  - apply H.
    + apply list_elem_of_lookup. exists 1%nat. vm_compute. reflexivity.
    + vm_compute. reflexivity.
Defined.

(** C5 on the record of Jane Smith, with stage stubs that succeed. *)
Lemma scenario_succeeds_witness :
  exists rep w',
    process_submission_with_recipient
      (stub_agent stub_document stub_docx stub_message)
      "Jane Smith" "jane@x.com" "1 Oak Ave" "admin@co.com" tt =
      (Return rep, w') /\
    report_success rep = true /\
    report_document_id rep <> PNone /\
    report_email_message_id rep <> PNone.
Proof.
  apply (scenario_succeeds (stub_agent stub_document stub_docx stub_message)
           "Jane Smith" "jane@x.com" "1 Oak Ave" "admin@co.com"
           (UserSubmission.Build "Jane Smith" "jane@x.com" "1 Oak Ave"
              "admin@co.com") tt).
  - vm_compute. reflexivity.
  - intros v w0. exists stub_document, w0. split; [reflexivity|].
    unfold succeeds, stub_document. split_and!.
    + exists (PBool true). by simplify_map_eq.
    + intros k Hk. rewrite !elem_of_cons, elem_of_nil in Hk.
      destruct Hk as [->|[->|[->|[]]]]; by simplify_map_eq.
    + intros k Hk. rewrite !elem_of_cons, elem_of_nil in Hk.
      destruct Hk as [->|[]]. by simplify_map_eq.
  - intros v w0. exists stub_docx, w0. split; [reflexivity|].
    unfold succeeds, stub_docx. split_and!.
    + exists (PBool true). by simplify_map_eq.
    + intros k Hk. rewrite !elem_of_cons, elem_of_nil in Hk.
      destruct Hk as [->|[]]. by simplify_map_eq.
    + intros k Hk. by rewrite elem_of_nil in Hk.
  - intros docx_content doc_title doc_url submission_name w0.
    exists stub_message, w0. split; [reflexivity|].
    unfold succeeds, stub_message. split_and!.
    + exists (PBool true). by simplify_map_eq.
    + intros k Hk. rewrite !elem_of_cons, elem_of_nil in Hk.
      destruct Hk as [->|[->|[]]]; by simplify_map_eq.
    + intros k Hk. rewrite !elem_of_cons, elem_of_nil in Hk.
      destruct Hk as [->|[]]. by simplify_map_eq.
Defined.


(** The same with the tools of tools.py in place of the stubs: the
    document is created and exported, the call of [SendEmailTool._run]
    lacks [recipient_email], and the failed report carries the
    document id. *)
Example wired_agent_run :
  let (result, r) :=
    run_workflow (wired_agent demo_google simple_parser None)
      (fresh_state jane_smith) demo_heap in
  result =
    Return
      {| report_success := false;
         report_message :=
           "Workflow failed: Email sending failed: _run() missing 1 required positional argument: 'recipient_email'";
         report_document_id := PStr "doc-1";
         report_document_url := PStr "https://docs.google.com/document/d/doc-1";
         report_email_message_id := PNone |} /\
  history r = expected_history stopped_at_email [Called email_tool].
Proof. vm_compute. done. Qed.

(** ** Validation inside the Document Creator *)

Lemma new_inv ev (data : gmap string string) s :
  UserSubmission.new ev data = Return s ->
  UserSubmission.constrained_field (data !! "name") = inr (UserSubmission.name s) /\
  UserSubmission.email_field ev (data !! "email") = inr (UserSubmission.email s) /\
  UserSubmission.constrained_field (data !! "address") =
    inr (UserSubmission.address s) /\
  UserSubmission.email_field ev (data !! "recipient_email") =
    inr (UserSubmission.recipient_email s).
Proof.
  unfold UserSubmission.new.
  destruct (UserSubmission.constrained_field (data !! "name"));
    destruct (UserSubmission.email_field ev (data !! "email"));
    destruct (UserSubmission.constrained_field (data !! "address"));
    destruct (UserSubmission.email_field ev (data !! "recipient_email"));
    try done.
  by intros [= <-].
Qed.





Section Revalidation.
Context {Credentials : Type} (G : google Credentials)
        (ev : UserSubmission.email_parser).

(** Data that fails the check is turned away before any service is
    asked. *)
Lemma CreateGoogleDocTool_run_rejects folder data errs h :
  UserSubmission.new ev data = Raise (ValidationError errs) ->
  CreateGoogleDocTool_run G ev folder (PStrDict data) h =
  (Return (failed (ValidationError errs)), h).
Proof.
  intros H. unfold CreateGoogleDocTool_run, try_except, bind, lift, kwargs.
  by rewrite H.
Qed.


End Revalidation.


(** Outside the submissions that have passed validation the two
    differ: on a record with an empty name the Document Creator answers
    with a failure and asks no service, where the reference creates a
    document. The pipeline never hands it such a record. *)
Example document_creator_on_invalid_data :
  let data := PStrDict (raw_record "" "jane@x.com" "1 Oak Ave" "admin@co.com") in
  CreateGoogleDocTool_run demo_google simple_parser None data demo_heap <>
  CreateGoogleDocTool_run_unvalidated demo_google None data demo_heap.
Proof.
  cbv zeta. intros H.
  apply (f_equal (fun x => length (events (snd x)))) in H.
  vm_compute in H. discriminate H.
Qed.


(* ===================================================================== *)
(** * Part III. Further properties of the code *)
(* ===================================================================== *)

(** ** Stores before and after *)

Section Relations.
Context {S : Type} (R : S -> S -> Prop) `{!PreOrder R}.

Lemma always_ret {A} (a : A) : always R (ret a).
Proof. intros s r s' [= <- <-]. reflexivity. Qed.

Lemma always_raise {A} e : always R (@raise S A e).
Proof. intros s r s' [= <- <-]. reflexivity. Qed.

Lemma always_lift {A} (x : res A) : always R (lift x).
Proof. intros s r s' [= <- <-]. reflexivity. Qed.

Lemma always_get : always R get.
Proof. intros s r s' [= <- <-]. reflexivity. Qed.

Lemma always_modify (f : S -> S) : (forall s, R s (f s)) -> always R (modify f).
Proof. intros Hf s r s' [= <- <-]. apply Hf. Qed.

Lemma always_bind {A B} (m : M S A) (k : A -> M S B) :
  always R m -> (forall a, always R (k a)) -> always R (bind m k).
Proof.
  intros Hm Hk s r s'. unfold bind.
  destruct (m s) as [[a|e] s1] eqn:Hs.
  - intros H. etrans; [by eapply Hm|by eapply Hk].
  - intros [= <- <-]. by eapply Hm.
Qed.

Lemma always_try_except {A} (body : M S A) handler :
  always R body -> (forall e, always R (handler e)) ->
  always R (try_except body handler).
Proof.
  intros Hm Hk s r s'. unfold try_except.
  destruct (body s) as [[a|e] s1] eqn:Hs.
  - intros [= <- <-]. by eapply Hm.
  - intros H. etrans; [by eapply Hm|by eapply Hk].
Qed.

Lemma on_raise_always {A} (m : M S A) : always R m -> on_raise R m.
Proof. intros Hm s e s'. apply Hm. Qed.

Lemma on_raise_returns {A} (m : M S A) : returns m -> on_raise R m.
Proof. intros Hm s e s' H. destruct (Hm s) as (a & s1 & Hs). congruence. Qed.

Lemma on_raise_bind {A B} (m : M S A) (k : A -> M S B) :
  always R m -> (forall a, on_raise R (k a)) -> on_raise R (bind m k).
Proof.
  intros Hm Hk s e s'. unfold bind.
  destruct (m s) as [[a|e'] s1] eqn:Hs.
  - intros H. etrans; [by eapply Hm|by eapply Hk].
  - intros [= <- <-]. by eapply Hm.
Qed.

Lemma on_raise_bind_returns {A B} (m : M S A) (k : A -> M S B) :
  on_raise R m -> (forall a, returns (k a)) -> on_raise R (bind m k).
Proof.
  intros Hm Hk s e s'. unfold bind.
  destruct (m s) as [[a|e'] s1] eqn:Hs.
  - intros H. destruct (Hk a s1) as (b & s2 & Hs2). congruence.
  - intros [= <- <-]. by eapply Hm.
Qed.

End Relations.

Lemma bind_Raise {S A B} (m : M S A) (k : A -> M S B) s e s' :
  m s = (Raise e, s') -> bind m k s = (Raise e, s').
Proof. unfold bind. by intros ->. Qed.

Lemma returns_ret {S A} (a : A) : returns (@ret S A a).
Proof. intros s. by eexists _, _. Qed.

Lemma returns_modify {S} (f : S -> S) : returns (modify f).
Proof. intros s. by eexists _, _. Qed.

Lemma returns_bind {S A B} (m : M S A) (k : A -> M S B) :
  returns m -> (forall a, returns (k a)) -> returns (bind m k).
Proof.
  intros Hm Hk s. destruct (Hm s) as (a & s1 & Hs).
  destruct (Hk a s1) as (b & s2 & Hs2).
  exists b, s2. unfold bind. by rewrite Hs.
Qed.

(** ** The credential manager, path by path *)

Section Credentials.
Context {Credentials : Type} (G : google Credentials).

Lemma get_credentials_loads h :
  cache_valid G h = false -> get_credentials G h = load_credentials G h.
Proof.
  unfold cache_valid, get_credentials, bind, get.
  destruct (_creds (api_manager h)); [|done]. by intros ->.
Qed.

Lemma ask_eq {A} e (oracle : heap Credentials -> res A) h :
  ask e oracle h = (oracle h, push e h).
Proof. reflexivity. Qed.

Lemma oauth_flow_local c h :
  run_local_server G (flow_start h) = Return c ->
  oauth_flow G h =
  (Return c,
   push (Print "OAuth flow completed successfully!")
     (push (LocalServerFlow 8080) (flow_start h))).
Proof.
  intros Hlocal. unfold oauth_flow.
  do 3 (erewrite bind_Return by reflexivity).
  unfold try_except at 1.
  erewrite bind_Return by reflexivity.
  erewrite bind_Return.
  2:{ unfold try_except. rewrite ask_eq. fold (flow_start h).
      rewrite Hlocal. reflexivity. }
  by erewrite bind_Return by reflexivity.
Qed.

Lemma oauth_flow_console e c h :
  run_local_server G (flow_start h) = Raise e ->
  run_console G (console_start e h) = Return c ->
  oauth_flow G h =
  (Return c,
   push (Print "OAuth flow completed successfully!")
     (push ConsoleFlow (console_start e h))).
Proof.
  intros Hlocal Hconsole. unfold oauth_flow.
  do 3 (erewrite bind_Return by reflexivity).
  unfold try_except at 1.
  erewrite bind_Return by reflexivity.
  erewrite bind_Return.
  2:{ unfold try_except. rewrite ask_eq. fold (flow_start h).
      rewrite Hlocal.
      do 2 (erewrite bind_Return by reflexivity).
      rewrite ask_eq. fold (console_start e h). rewrite Hconsole.
      reflexivity. }
  by erewrite bind_Return by reflexivity.
Qed.

Lemma oauth_flow_fails e e' h :
  run_local_server G (flow_start h) = Raise e ->
  run_console G (console_start e h) = Raise e' ->
  oauth_flow G h =
  (Raise e',
   push (Print "Make sure port 8080 is available and redirect URI is configured correctly")
     (push (Print ("OAuth flow failed: " +:+ str_exn e'))
        (push ConsoleFlow (console_start e h)))).
Proof.
  intros Hlocal Hconsole. unfold oauth_flow.
  do 3 (erewrite bind_Return by reflexivity).
  unfold try_except at 1.
  erewrite bind_Return by reflexivity.
  unfold bind at 1. unfold try_except at 1.
  rewrite ask_eq. fold (flow_start h). rewrite Hlocal.
  do 2 (erewrite bind_Return by reflexivity).
  rewrite ask_eq. fold (console_start e h). rewrite Hconsole.
  by do 2 (erewrite bind_Return by reflexivity).
Qed.

Lemma from_authorized_user_file_fails path content e h :
  files h !! path = Some content ->
  from_authorized_user_info G content = Raise e ->
  from_authorized_user_file G path h = (Raise e, push (FileRead path) h).
Proof.
  intros Hfile Hparse. unfold from_authorized_user_file.
  do 2 (erewrite bind_Return by reflexivity).
  erewrite bind_Return; [|unfold lift, getitem; by rewrite Hfile].
  unfold lift. by rewrite Hparse.
Qed.

(** What [load_credentials] does around the interactive flow, when
    there is no token file. *)
Lemma load_credentials_first_run h r h1 :
  files h !! token_path (api_manager h) = None ->
  oauth_flow G (no_token_file h) = (r, h1) ->
  load_credentials G h =
  match r with
  | Return c =>
      (Return c,
       MkHeap (MkManager (client_id (api_manager h1))
                 (client_secret (api_manager h1)) (token_path (api_manager h1))
                 (Some c))
         (now h1) (<[token_path (api_manager h) := to_json G c]> (files h1))
         (events h1 ++
          [Print "Saving credentials to token file...";
           FileWrite (token_path (api_manager h)) (to_json G c);
           Print "Credentials saved successfully"]))
  | Raise e => (Raise e, h1)
  end.
Proof.
  intros Hfile Hflow. unfold load_credentials.
  do 3 (erewrite bind_Return by reflexivity).
  rewrite Hfile, bool_decide_false by (by intros [? ?]).
  erewrite bind_Return by reflexivity.
  erewrite bind_Return by reflexivity.
  fold (no_token_file h).
  destruct r as [c|e].
  - erewrite bind_Return.
    2:{ erewrite bind_Return.
        2:{ unfold refresh_or_authorize.
            erewrite bind_Return by reflexivity. exact Hflow. }
        do 3 (erewrite bind_Return by reflexivity). reflexivity. }
    erewrite bind_Return by reflexivity.
    unfold ret.
    cbn [push write_file set_creds events files now api_manager token_path
         client_id client_secret].
    by rewrite <- !app_assoc.
  - unfold bind at 1. unfold bind at 1. unfold refresh_or_authorize.
    erewrite bind_Return by reflexivity. by rewrite Hflow.
Qed.

(** The same around a token file that holds a credential which is
    neither valid nor refreshable. *)
Lemma load_credentials_replaces h content c0 r h1 :
  files h !! token_path (api_manager h) = Some content ->
  from_authorized_user_info G content = Return c0 ->
  valid G c0 (now h) = false ->
  expired G c0 (now h) && str_truthy (refresh_token G c0) = false ->
  oauth_flow G (token_file_read h) = (r, h1) ->
  load_credentials G h =
  match r with
  | Return c =>
      (Return c,
       MkHeap (MkManager (client_id (api_manager h1))
                 (client_secret (api_manager h1)) (token_path (api_manager h1))
                 (Some c))
         (now h1) (<[token_path (api_manager h) := to_json G c]> (files h1))
         (events h1 ++
          [Print "Saving credentials to token file...";
           FileWrite (token_path (api_manager h)) (to_json G c);
           Print "Credentials saved successfully"]))
  | Raise e => (Raise e, h1)
  end.
Proof.
  intros Hfile Hparse Hvalid Hno Hflow. unfold load_credentials.
  do 3 (erewrite bind_Return by reflexivity).
  rewrite Hfile, bool_decide_true by eauto.
  erewrite bind_Return.
  2:{ erewrite bind_Return by reflexivity.
      erewrite bind_Return;
        [|by eapply from_authorized_user_file_reads]. reflexivity. }
  erewrite bind_Return by reflexivity.
  cbn [now push]. rewrite Hvalid.
  fold (token_file_read h).
  destruct r as [c|e].
  - erewrite bind_Return.
    2:{ erewrite bind_Return.
        2:{ unfold refresh_or_authorize.
            erewrite bind_Return by reflexivity.
            replace (now (token_file_read h)) with (now h) by reflexivity.
            rewrite Hno. exact Hflow. }
        do 3 (erewrite bind_Return by reflexivity). reflexivity. }
    erewrite bind_Return by reflexivity.
    unfold ret.
    cbn [push write_file set_creds events files now api_manager token_path
         client_id client_secret].
    by rewrite <- !app_assoc.
  - unfold bind at 1. unfold bind at 1. unfold refresh_or_authorize.
    erewrite bind_Return by reflexivity.
    replace (now (token_file_read h)) with (now h) by reflexivity.
    by rewrite Hno, Hflow.
Qed.

(** X1. First run: there is no token file and the cache holds no valid
    credential. [get_credentials] runs the local server flow on port
    8080; when it authorizes, the credential is returned, kept in the
    cache and written to the token file, and the console flow is not
    started. *)
Theorem first_run_authorizes h c :
  cache_valid G h = false ->
  files h !! token_path (api_manager h) = None ->
  run_local_server G (flow_start (no_token_file h)) = Return c ->
  exists h' new,
    get_credentials G h = (Return c, h') /\
    events h' = (events h ++ new)%list /\
    effects new = [PathExists (token_path (api_manager h));
                   LocalServerFlow 8080;
                   FileWrite (token_path (api_manager h)) (to_json G c)] /\
    files h' = <[token_path (api_manager h) := to_json G c]> (files h) /\
    _creds (api_manager h') = Some c.
Proof.
  intros Hcache Hfile Hlocal.
  rewrite get_credentials_loads by done.
  erewrite load_credentials_first_run;
    [|done|by apply oauth_flow_local].
  eexists _, _. split; [reflexivity|].
  unfold flow_start, no_token_file.
  cbn [push events files api_manager _creds].
  split; [rewrite <- !app_assoc; reflexivity|].
  by split_and!.
Qed.

(** X2. On a first run where the local server flow fails, its exception
    is printed and the console flow is tried; when that one authorizes,
    its credential is returned, cached and written to the token file. *)
Theorem console_fallback h e c :
  cache_valid G h = false ->
  files h !! token_path (api_manager h) = None ->
  run_local_server G (flow_start (no_token_file h)) = Raise e ->
  run_console G (console_start e (no_token_file h)) = Return c ->
  exists h' new,
    get_credentials G h = (Return c, h') /\
    events h' = (events h ++ new)%list /\
    effects new = [PathExists (token_path (api_manager h));
                   LocalServerFlow 8080;
                   ConsoleFlow;
                   FileWrite (token_path (api_manager h)) (to_json G c)] /\
    Print ("Local server failed: " +:+ str_exn e) ∈ new /\
    files h' = <[token_path (api_manager h) := to_json G c]> (files h) /\
    _creds (api_manager h') = Some c.
Proof.
  intros Hcache Hfile Hlocal Hconsole.
  rewrite get_credentials_loads by done.
  erewrite load_credentials_first_run;
    [|done|by eapply oauth_flow_console].
  eexists _, _. split; [reflexivity|].
  unfold console_start, flow_start, no_token_file.
  cbn [push events files api_manager _creds].
  split; [rewrite <- !app_assoc; reflexivity|].
  split_and!; [reflexivity| |reflexivity|reflexivity].
  cbn [app]. rewrite !elem_of_cons. do 8 right. by left.
Qed.

(** X3. On a first run where both interactive flows fail, the exception
    of the console flow leaves [get_credentials]; no file is written
    and the cache is as it was. *)
Theorem interactive_flow_fails h e e' :
  cache_valid G h = false ->
  files h !! token_path (api_manager h) = None ->
  run_local_server G (flow_start (no_token_file h)) = Raise e ->
  run_console G (console_start e (no_token_file h)) = Raise e' ->
  exists h' new,
    get_credentials G h = (Raise e', h') /\
    events h' = (events h ++ new)%list /\
    effects new = [PathExists (token_path (api_manager h));
                   LocalServerFlow 8080;
                   ConsoleFlow] /\
    Print ("OAuth flow failed: " +:+ str_exn e') ∈ new /\
    untouched_store h h'.
Proof.
  intros Hcache Hfile Hlocal Hconsole.
  rewrite get_credentials_loads by done.
  erewrite load_credentials_first_run;
    [|done|by eapply oauth_flow_fails].
  eexists _, _. split; [reflexivity|].
  unfold console_start, flow_start, no_token_file.
  cbn [push events files api_manager _creds].
  split; [rewrite <- !app_assoc; reflexivity|].
  split_and!; [reflexivity| |done].
  cbn [app]. rewrite !elem_of_cons. do 11 right. by left.
Qed.

(** X4. A token file that holds a valid credential is read once; the
    credential is returned and cached, nothing is asked of the identity
    provider and nothing is written. *)
Theorem token_file_valid h content c :
  cache_valid G h = false ->
  files h !! token_path (api_manager h) = Some content ->
  from_authorized_user_info G content = Return c ->
  valid G c (now h) = true ->
  exists h' new,
    get_credentials G h = (Return c, h') /\
    events h' = (events h ++ new)%list /\
    effects new = [PathExists (token_path (api_manager h));
                   FileRead (token_path (api_manager h))] /\
    files h' = files h /\
    _creds (api_manager h') = Some c.
Proof.
  intros Hcache Hfile Hparse Hvalid.
  rewrite get_credentials_loads by done.
  unfold load_credentials.
  do 3 (erewrite bind_Return by reflexivity).
  rewrite Hfile, bool_decide_true by eauto.
  erewrite bind_Return.
  2:{ erewrite bind_Return by reflexivity.
      erewrite bind_Return;
        [|by eapply from_authorized_user_file_reads]. reflexivity. }
  erewrite bind_Return by reflexivity.
  cbn [now push]. rewrite Hvalid.
  do 2 (erewrite bind_Return by reflexivity).
  eexists _, _. split; [reflexivity|].
  cbn [push events files api_manager _creds].
  split; [rewrite <- !app_assoc; reflexivity|].
  by split_and!.
Qed.

(** X5. A token file that cannot be parsed is fatal: the exception of
    the parser leaves [get_credentials], no interactive flow is started
    in its place, and the file stays as it is. *)
Theorem token_file_corrupt h content e :
  cache_valid G h = false ->
  files h !! token_path (api_manager h) = Some content ->
  from_authorized_user_info G content = Raise e ->
  exists h' new,
    get_credentials G h = (Raise e, h') /\
    events h' = (events h ++ new)%list /\
    effects new = [PathExists (token_path (api_manager h));
                   FileRead (token_path (api_manager h))] /\
    untouched_store h h'.
Proof.
  intros Hcache Hfile Hparse.
  rewrite get_credentials_loads by done.
  unfold load_credentials.
  do 3 (erewrite bind_Return by reflexivity).
  rewrite Hfile, bool_decide_true by eauto.
  erewrite bind_Raise.
  2:{ erewrite bind_Return by reflexivity.
      apply bind_Raise. by eapply from_authorized_user_file_fails. }
  eexists _, _. split; [reflexivity|].
  cbn [push events files api_manager _creds].
  split; [rewrite <- !app_assoc; reflexivity|].
  by split_and!.
Qed.

(** X6. A token file whose credential is not valid and cannot be
    refreshed (it is not expired, or it has no refresh token) is
    replaced: the interactive flow runs, no refresh is asked for, and
    the new credential overwrites the file. *)
Theorem token_file_replaced h content c0 c :
  cache_valid G h = false ->
  files h !! token_path (api_manager h) = Some content ->
  from_authorized_user_info G content = Return c0 ->
  valid G c0 (now h) = false ->
  expired G c0 (now h) && str_truthy (refresh_token G c0) = false ->
  run_local_server G (flow_start (token_file_read h)) = Return c ->
  exists h' new,
    get_credentials G h = (Return c, h') /\
    events h' = (events h ++ new)%list /\
    effects new = [PathExists (token_path (api_manager h));
                   FileRead (token_path (api_manager h));
                   LocalServerFlow 8080;
                   FileWrite (token_path (api_manager h)) (to_json G c)] /\
    files h' = <[token_path (api_manager h) := to_json G c]> (files h) /\
    _creds (api_manager h') = Some c.
Proof.
  intros Hcache Hfile Hparse Hvalid Hno Hlocal.
  rewrite get_credentials_loads by done.
  erewrite load_credentials_replaces;
    [|done|done|done|done|by apply oauth_flow_local].
  eexists _, _. split; [reflexivity|].
  unfold flow_start, token_file_read.
  cbn [push events files api_manager _creds].
  split; [rewrite <- !app_assoc; reflexivity|].
  by split_and!.
Qed.

(** The credential manager as a table of its paths. *)
Lemma oauth_flow_eq h :
  oauth_flow G h =
  match run_local_server G (flow_start h) with
  | Return c =>
      (Return c,
       push (Print "OAuth flow completed successfully!")
         (push (LocalServerFlow 8080) (flow_start h)))
  | Raise e =>
      match run_console G (console_start e h) with
      | Return c =>
          (Return c,
           push (Print "OAuth flow completed successfully!")
             (push ConsoleFlow (console_start e h)))
      | Raise e' =>
          (Raise e',
           push (Print "Make sure port 8080 is available and redirect URI is configured correctly")
             (push (Print ("OAuth flow failed: " +:+ str_exn e'))
                (push ConsoleFlow (console_start e h))))
      end
  end.
Proof.
  destruct (run_local_server G (flow_start h)) as [c|e] eqn:Hlocal;
    [by apply oauth_flow_local|].
  destruct (run_console G (console_start e h)) as [c|e'] eqn:Hconsole;
    [by eapply oauth_flow_console|by eapply oauth_flow_fails].
Qed.

Lemma refresh_or_authorize_eq stored h :
  refresh_or_authorize G stored h =
  match stored with
  | Some c =>
      if expired G c (now h) && str_truthy (refresh_token G c)
      then match refresh G (push (Print "Refreshing expired token...") h) c with
           | Return c' =>
               (Return c',
                push (Print "Token refreshed successfully")
                  (push RefreshExchange
                     (push (Print "Refreshing expired token...") h)))
           | Raise e =>
               (Raise e,
                push RefreshExchange
                  (push (Print "Refreshing expired token...") h))
           end
      else oauth_flow G h
  | None => oauth_flow G h
  end.
Proof.
  unfold refresh_or_authorize. erewrite bind_Return by reflexivity.
  destruct stored as [c|]; [|done].
  destruct (expired G c (now h) && str_truthy (refresh_token G c)); [|done].
  erewrite bind_Return by reflexivity.
  unfold bind at 1. rewrite ask_eq.
  destruct (refresh G _ c); [|done].
  by erewrite bind_Return by reflexivity.
Qed.

Lemma load_credentials_eq h :
  load_credentials G h =
  match files h !! token_path (api_manager h) with
  | Some content =>
      match from_authorized_user_info G content with
      | Return c =>
          if valid G c (now h) then (Return c, cached c (token_file_read h))
          else acquire G (token_path (api_manager h)) (Some c)
                 (token_file_read h)
      | Raise e => (Raise e, token_file_read h)
      end
  | None => acquire G (token_path (api_manager h)) None (no_token_file h)
  end.
Proof.
  unfold load_credentials.
  do 3 (erewrite bind_Return by reflexivity).
  destruct (files h !! token_path (api_manager h)) as [content|] eqn:Hfile.
  - rewrite bool_decide_true by eauto.
    destruct (from_authorized_user_info G content) as [c|e] eqn:Hparse.
    + erewrite bind_Return.
      2:{ erewrite bind_Return by reflexivity.
          erewrite bind_Return;
            [|by eapply from_authorized_user_file_reads]. reflexivity. }
      erewrite bind_Return by reflexivity.
      cbn [now push]. fold (token_file_read h).
      destruct (valid G c (now h)).
      * by do 2 (erewrite bind_Return by reflexivity).
      * unfold acquire.
        destruct (refresh_or_authorize G (Some c) (token_file_read h))
          as [[c'|e] h1] eqn:Hacquire.
        -- erewrite bind_Return.
           2:{ erewrite bind_Return by exact Hacquire.
               do 3 (erewrite bind_Return by reflexivity). reflexivity. }
           erewrite bind_Return by reflexivity. unfold ret, saved.
           cbn [push events files now api_manager token_path client_id
                client_secret].
           by rewrite <- !app_assoc.
        -- erewrite bind_Raise; [done|]. by apply bind_Raise.
    + erewrite bind_Raise; [done|].
      erewrite bind_Return by reflexivity.
      apply bind_Raise. by eapply from_authorized_user_file_fails.
  - rewrite bool_decide_false by (by intros [? ?]).
    do 2 (erewrite bind_Return by reflexivity).
    fold (no_token_file h). unfold acquire.
    destruct (refresh_or_authorize G None (no_token_file h))
      as [[c'|e] h1] eqn:Hacquire.
    + erewrite bind_Return.
      2:{ erewrite bind_Return by exact Hacquire.
          do 3 (erewrite bind_Return by reflexivity). reflexivity. }
      erewrite bind_Return by reflexivity. unfold ret, saved.
      cbn [push events files now api_manager token_path client_id
           client_secret].
      by rewrite <- !app_assoc.
    + erewrite bind_Raise; [done|]. by apply bind_Raise.
Qed.

Lemma get_credentials_eq h :
  get_credentials G h =
  match _creds (api_manager h) with
  | Some c => if valid G c (now h) then (Return c, h) else load_credentials G h
  | None => load_credentials G h
  end.
Proof.
  unfold get_credentials, bind, get.
  destruct (_creds (api_manager h)) as [c|]; [|done].
  by destruct (valid G c (now h)).
Qed.

End Credentials.

Ltac credential_paths :=
  rewrite get_credentials_eq;
  repeat first
    [ rewrite load_credentials_eq
    | rewrite refresh_or_authorize_eq
    | rewrite oauth_flow_eq
    | progress unfold acquire
    | match goal with
      | |- context [match _creds ?m with _ => _ end] =>
          destruct (_creds m) eqn:?
      | |- context [match files ?h !! ?p with _ => _ end] =>
          destruct (files h !! p) eqn:?
      | |- context [match from_authorized_user_info ?G ?s with _ => _ end] =>
          destruct (from_authorized_user_info G s) eqn:?
      | |- context [if valid ?G ?c ?t then _ else _] =>
          destruct (valid G c t) eqn:?
      | |- context [if expired ?G ?c ?t && ?b then _ else _] =>
          destruct (expired G c t && b) eqn:?
      | |- context [match refresh ?G ?h ?c with _ => _ end] =>
          destruct (refresh G h c) eqn:?
      | |- context [match run_local_server ?G ?h with _ => _ end] =>
          destruct (run_local_server G h) eqn:?
      | |- context [match run_console ?G ?h with _ => _ end] =>
          destruct (run_console G h) eqn:?
      end ].

Ltac unfold_stores :=
  unfold saved, cached, console_start, flow_start, token_file_read,
    no_token_file;
  cbn [fst snd push events files now api_manager token_path client_id
       client_secret _creds].

Ltac trace_grows :=
  first [ symmetry; apply app_nil_r
        | rewrite <- !app_assoc; reflexivity ].

Section Paths.
Context {Credentials : Type} (G : google Credentials).

(** X7. Whatever path it takes and whatever its outcome,
    [get_credentials] leaves the configuration of the manager and every
    file but the token file as they are, only adds to the trace, builds
    no service and sends no request to a Google service. *)
Theorem get_credentials_frame h :
  grows credential_event h (snd (get_credentials G h)).
Proof.
  credential_paths; unfold grows; unfold_stores;
    (split_and!;
     [ reflexivity | reflexivity | reflexivity | reflexivity
     | intros p Hp; first [reflexivity | by rewrite lookup_insert_ne]
     | eexists; split; [trace_grows|repeat constructor] ]).
Qed.

(** X9. One call of [get_credentials] turns to the identity provider at
    most once: it asks for at most one refresh or starts at most one
    local server flow, never both; the console flow is only started
    after a local server flow; and the token file is read at most once
    and written at most once. A refusal is not retried. *)
Theorem get_credentials_asks_once h :
  exists new,
    events (snd (get_credentials G h)) = (events h ++ new)%list /\
    (count is_refresh new + count is_local_server new <= 1)%nat /\
    (count is_console new <= count is_local_server new)%nat /\
    (count is_file_read new <= 1)%nat /\
    (count is_file_write new <= 1)%nat.
Proof.
  credential_paths; unfold_stores;
    (eexists; split; [trace_grows|vm_compute; lia]).
Qed.

(** X10. A credential that [get_credentials] returns is in the cache;
    and either it was valid at the time of the call and no file
    changed, or it is the content of the token file: a credential that
    was obtained from the identity provider is written down before it
    is returned. *)
Theorem get_credentials_persists h c h' :
  get_credentials G h = (Return c, h') ->
  _creds (api_manager h') = Some c /\
  (valid G c (now h) = true /\ files h' = files h \/
   files h' = <[token_path (api_manager h) := to_json G c]> (files h)).
Proof.
  credential_paths; intros [= <- <-]; unfold_stores;
    (split; [first [reflexivity|assumption]|]);
    first [left; split; [assumption|reflexivity]|right; reflexivity].
Qed.

(** X11. A refusal of the token endpoint is fatal for the call: the
    exception leaves [get_credentials] after the one exchange, the
    interactive flow is not started in its place, nothing is written
    and nothing is cached. *)
Theorem refresh_refused_is_fatal h content c e :
  cache_valid G h = false ->
  files h !! token_path (api_manager h) = Some content ->
  from_authorized_user_info G content = Return c ->
  valid G c (now h) = false ->
  expired G c (now h) = true ->
  str_truthy (refresh_token G c) = true ->
  refresh G (at_refresh h) c = Raise e ->
  exists h' new,
    get_credentials G h = (Raise e, h') /\
    events h' = (events h ++ new)%list /\
    effects new = [PathExists (token_path (api_manager h));
                   FileRead (token_path (api_manager h));
                   RefreshExchange] /\
    untouched_store h h'.
Proof.
  intros Hcache Hfile Hparse Hvalid Hexpired Htoken Hrefresh.
  rewrite get_credentials_loads by done.
  erewrite load_credentials_refused by done.
  eexists _, _. split; [reflexivity|].
  unfold at_refresh.
  cbn [push events files api_manager _creds].
  split; [rewrite <- !app_assoc; reflexivity|].
  by split_and!.
Qed.

End Paths.

(** X1 on a first run where the browser authorizes. *)
Lemma first_run_authorizes_witness :
  exists h' new,
    get_credentials
      (desktop_google (Raise invalid_grant) (Return browser_credential)
         (Raise no_console)) first_run = (Return browser_credential, h') /\
    events h' = (events first_run ++ new)%list /\
    effects new = [PathExists "token.json"; LocalServerFlow 8080;
                   FileWrite "token.json" "{token: from-browser}"] /\
    files h' = <["token.json" := "{token: from-browser}"]> (files first_run) /\
    _creds (api_manager h') = Some browser_credential.
Proof.
  apply (first_run_authorizes
           (desktop_google (Raise invalid_grant) (Return browser_credential)
              (Raise no_console)) first_run browser_credential);
    vm_compute; reflexivity.
Defined.

(** X2 on a first run where port 8080 is taken. *)
Lemma console_fallback_witness :
  exists h' new,
    get_credentials
      (desktop_google (Raise invalid_grant) (Raise port_in_use)
         (Return console_credential)) first_run =
      (Return console_credential, h') /\
    events h' = (events first_run ++ new)%list /\
    effects new = [PathExists "token.json"; LocalServerFlow 8080; ConsoleFlow;
                   FileWrite "token.json" "{token: from-console}"] /\
    Print ("Local server failed: " +:+ str_exn port_in_use) ∈ new /\
    files h' = <["token.json" := "{token: from-console}"]> (files first_run) /\
    _creds (api_manager h') = Some console_credential.
Proof.
  apply (console_fallback
           (desktop_google (Raise invalid_grant) (Raise port_in_use)
              (Return console_credential)) first_run port_in_use
           console_credential);
    vm_compute; reflexivity.
Defined.

(** X3 on a first run where neither flow is available. *)
Lemma interactive_flow_fails_witness :
  exists h' new,
    get_credentials demo_google first_run = (Raise no_console, h') /\
    events h' = (events first_run ++ new)%list /\
    effects new = [PathExists "token.json"; LocalServerFlow 8080; ConsoleFlow] /\
    Print ("OAuth flow failed: " +:+ str_exn no_console) ∈ new /\
    untouched_store first_run h'.
Proof.
  apply (interactive_flow_fails demo_google first_run port_in_use no_console);
    vm_compute; reflexivity.
Defined.

(** X4 at the demo store, at a time when the stored credential is still
    valid. *)
Lemma token_file_valid_witness :
  exists h' new,
    get_credentials demo_google (at_time 50 demo_heap) =
      (Return (DemoCreds "stale" (Some "refresh-1") 100), h') /\
    events h' = (events (at_time 50 demo_heap) ++ new)%list /\
    effects new = [PathExists "token.json"; FileRead "token.json"] /\
    files h' = files (at_time 50 demo_heap) /\
    _creds (api_manager h') = Some (DemoCreds "stale" (Some "refresh-1") 100).
Proof.
  apply (token_file_valid demo_google (at_time 50 demo_heap) "stale"
           (DemoCreds "stale" (Some "refresh-1") 100));
    vm_compute; reflexivity.
Defined.

(** X5 at the demo store, with a token file that does not parse. *)
Lemma token_file_corrupt_witness :
  exists h' new,
    get_credentials
      (desktop_google (Raise (ValueError "not a token")) (Return browser_credential)
         (Return console_credential)) demo_heap =
      (Raise (ValueError "not a token"), h') /\
    events h' = (events demo_heap ++ new)%list /\
    effects new = [PathExists "token.json"; FileRead "token.json"] /\
    untouched_store demo_heap h'.
Proof.
  apply (token_file_corrupt
           (desktop_google (Raise (ValueError "not a token"))
              (Return browser_credential) (Return console_credential))
           demo_heap "stale" (ValueError "not a token"));
    vm_compute; reflexivity.
Defined.

(** X6 at the demo store, with a stored credential that has no refresh
    token. *)
Lemma token_file_replaced_witness :
  exists h' new,
    get_credentials
      (desktop_google (Return (DemoCreds "old" None 100))
         (Return browser_credential) (Raise no_console)) demo_heap =
      (Return browser_credential, h') /\
    events h' = (events demo_heap ++ new)%list /\
    effects new = [PathExists "token.json"; FileRead "token.json";
                   LocalServerFlow 8080;
                   FileWrite "token.json" "{token: from-browser}"] /\
    files h' = <["token.json" := "{token: from-browser}"]> (files demo_heap) /\
    _creds (api_manager h') = Some browser_credential.
Proof.
  apply (token_file_replaced
           (desktop_google (Return (DemoCreds "old" None 100))
              (Return browser_credential) (Raise no_console))
           demo_heap "stale" (DemoCreds "old" None 100) browser_credential);
    vm_compute; reflexivity.
Defined.

(** X10 at the demo store: the refreshed credential is in the token
    file. *)
Lemma get_credentials_persists_witness :
  let c := DemoCreds "refreshed" (Some "refresh-1") 3800 in
  let h' := snd (get_credentials demo_google demo_heap) in
  _creds (api_manager h') = Some c /\
  (valid demo_google c (now demo_heap) = true /\ files h' = files demo_heap \/
   files h' = <["token.json" := to_json demo_google c]> (files demo_heap)).
Proof.
  apply (get_credentials_persists demo_google demo_heap
           (DemoCreds "refreshed" (Some "refresh-1") 3800)).
  vm_compute; reflexivity.
Defined.

(** X11 at the demo store, with a token endpoint that refuses. *)
Lemma refresh_refused_is_fatal_witness :
  exists h' new,
    get_credentials revoked_google demo_heap = (Raise invalid_grant, h') /\
    events h' = (events demo_heap ++ new)%list /\
    effects new = [PathExists "token.json"; FileRead "token.json";
                   RefreshExchange] /\
    untouched_store demo_heap h'.
Proof.
  apply (refresh_refused_is_fatal revoked_google demo_heap "stale"
           (DemoCreds "stale" (Some "refresh-1") 100) invalid_grant);
    vm_compute; reflexivity.
Defined.

(** ** The stage tools and the store *)

Section ToolsStore.
Context {Credentials : Type} (G : google Credentials)
        (ev : UserSubmission.email_parser).

#[local] Instance grows_preorder (P : string -> event -> Prop) :
  PreOrder (@grows Credentials P).
Proof.
  split.
  - intros h. unfold grows. split_and!; try done.
    exists []. split; [by rewrite app_nil_r|constructor].
  - intros h1 h2 h3 (Hi1 & Hs1 & Hp1 & Hn1 & Hf1 & new1 & He1 & HP1)
      (Hi2 & Hs2 & Hp2 & Hn2 & Hf2 & new2 & He2 & HP2).
    unfold grows. split_and!; try congruence.
    + intros p Hp. rewrite Hf2 by congruence. by apply Hf1.
    + exists (new1 ++ new2)%list. split.
      * by rewrite He2, He1, app_assoc.
      * apply Forall_app. split; [done|]. by rewrite <- Hp1.
Qed.

Lemma grows_emit (P : string -> event -> Prop) e :
  (forall path, P path e) -> always (grows P) (emit (Credentials:=Credentials) e).
Proof.
  intros HP. apply always_modify. intros h. unfold grows.
  cbn [push api_manager now files events]. split_and!; try done.
  exists [e]. split; [done|]. by constructor.
Qed.

Lemma grows_ask {A} (P : string -> event -> Prop) e
    (oracle : heap Credentials -> res A) :
  (forall path, P path e) -> always (grows P) (ask e oracle).
Proof.
  intros HP. unfold ask.
  apply always_bind; [apply _|apply always_get; apply _|intros h].
  apply always_bind; [apply _|by apply grows_emit|intros _].
  apply always_lift, _.
Qed.

Lemma get_credentials_grows (P : string -> event -> Prop) :
  (forall path e, credential_event path e -> P path e) ->
  always (grows P) (get_credentials G).
Proof.
  intros HP h r h'. credential_paths; intros [= <- <-];
    unfold grows; unfold_stores;
    (split_and!;
     [ reflexivity | reflexivity | reflexivity | reflexivity
     | intros p Hp; first [reflexivity | by rewrite lookup_insert_ne]
     | eexists; split;
       [trace_grows|repeat (constructor; [by apply HP|]); constructor] ]).
Qed.

Lemma get_service_grows (P : string -> event -> Prop) service_name version :
  (forall path e, credential_event path e -> P path e) ->
  (forall path, P path (BuildService service_name version)) ->
  always (grows P) (get_service G service_name version).
Proof.
  intros HP Hbuild. unfold get_service.
  apply always_bind; [apply _|by apply get_credentials_grows|intros creds].
  by apply grows_ask.
Qed.

Lemma grows_snd {A} (P : string -> event -> Prop) (m : M (heap Credentials) A) h :
  always (grows P) m -> grows P h (snd (m h)).
Proof. intros Hm. destruct (m h) as [r h'] eqn:Hh. by eapply Hm. Qed.

Lemma credential_service_event own path e :
  credential_event path e -> service_events own path e.
Proof. by left. Qed.

Ltac own_event :=
  intros ?; right; unfold docs_events, export_events, email_events;
  rewrite ?elem_of_app, ?elem_of_cons; auto 10.

Lemma create_and_fill_grows folder name email address :
  always (grows (service_events (docs_events folder)))
    (create_and_fill G folder name email address).
Proof.
  unfold create_and_fill.
  apply always_bind; [apply _|apply always_get, _|intros h].
  apply always_bind; [apply _| |intros docs_service].
  { apply get_service_grows; [apply credential_service_event|own_event]. }
  apply always_bind; [apply _|apply grows_ask; own_event|intros doc].
  apply always_bind; [apply _|apply grows_ask; own_event|intros _].
  apply always_bind; [apply _| |intros _; apply always_ret, _].
  destruct folder as [folder|]; [|apply always_ret, _].
  case_bool_decide as Hfolder; [apply always_ret, _|].
  assert (str_truthy (Some folder) = true) as Htruthy
    by (cbn [str_truthy]; by rewrite bool_decide_false).
  apply always_bind; [apply _| |intros drive_service].
  - apply get_service_grows; [apply credential_service_event|].
    intros ?. right. unfold docs_events. rewrite Htruthy.
    rewrite ?elem_of_app, ?elem_of_cons. auto 10.
  - apply grows_ask. intros ?. right. unfold docs_events. rewrite Htruthy.
    rewrite ?elem_of_app, ?elem_of_cons. auto 10.
Qed.

(** X12. Each stage tool, whatever it is given and whatever the
    services answer, leaves the configuration of the manager and every
    file but the token file as they are, and adds to the trace only
    what obtaining a credential adds, the construction of its own
    services and its own requests: the exporter and the mailer never
    turn to the Docs service, and the Document Creator turns to Drive
    only when a folder is configured. *)
Theorem stage_tools_frame :
  (forall folder submission_data h,
     grows (service_events (docs_events folder)) h
       (snd (CreateGoogleDocTool_run G ev folder submission_data h))) /\
  (forall document_id h,
     grows (service_events export_events) h
       (snd (ExportDocxTool_run G document_id h))) /\
  (forall docx_content document_title document_url submission_name
          recipient_email h,
     grows (service_events email_events) h
       (snd (SendEmailTool_run G docx_content document_title document_url
               submission_name recipient_email h))).
Proof.
  split_and!; intros; apply grows_snd;
    (apply always_try_except;
     [apply _| |intros e; apply always_ret, _]).
  - apply always_bind; [apply _|apply always_lift, _|intros data].
    apply always_bind; [apply _|apply always_lift, _|intros submission].
    apply create_and_fill_grows.
  - apply always_bind; [apply _| |intros drive_service].
    { apply get_service_grows; [apply credential_service_event|own_event]. }
    apply always_bind; [apply _|apply grows_ask; own_event|intros docx].
    apply always_ret, _.
  - apply always_bind; [apply _| |intros gmail_service].
    { apply get_service_grows; [apply credential_service_event|own_event]. }
    apply always_bind; [apply _|apply always_lift, _|intros raw_message].
    apply always_bind; [apply _|apply grows_ask; own_event|intros send_message].
    apply always_bind; [apply _|apply always_lift, _|intros message_id].
    apply always_ret, _.
Qed.

(** X13. When no credential can be obtained, each stage tool reports
    the exception of [get_credentials] in its record and leaves the
    store as [get_credentials] left it: no service is built and no
    request is sent. *)
Theorem stage_tools_without_credentials h e h' :
  get_credentials G h = (Raise e, h') ->
  (forall folder data submission,
     UserSubmission.new ev data = Return submission ->
     CreateGoogleDocTool_run G ev folder (PStrDict data) h =
       (Return (failed e), h')) /\
  (forall document_id,
     ExportDocxTool_run G document_id h = (Return (failed e), h')) /\
  (forall docx_content document_title document_url submission_name
          recipient_email,
     SendEmailTool_run G docx_content document_title document_url
       submission_name recipient_email h = (Return (failed e), h')).
Proof.
  intros Hcreds.
  assert (forall service_name version,
            get_service G service_name version h = (Raise e, h')) as Hservice.
  { intros. unfold get_service. by apply bind_Raise. }
  split_and!; intros.
  - unfold CreateGoogleDocTool_run, try_except.
    erewrite bind_Return by reflexivity.
    erewrite bind_Return by (unfold lift; by rewrite H).
    unfold create_and_fill. erewrite bind_Return by reflexivity.
    by erewrite bind_Raise by apply Hservice.
  - unfold ExportDocxTool_run, try_except.
    by erewrite bind_Raise by apply Hservice.
  - unfold SendEmailTool_run, try_except.
    by erewrite bind_Raise by apply Hservice.
Qed.

Lemma lift_inv {S A} (x : res A) (s s' : S) a :
  lift x s = (Return a, s') -> x = Return a /\ s' = s.
Proof. by intros [= -> ->]. Qed.

Lemma ask_inv {A} e (oracle : heap Credentials -> res A) h a h' :
  ask e oracle h = (Return a, h') -> oracle h = Return a /\ h' = push e h.
Proof. rewrite ask_eq. by intros [= -> <-]. Qed.

Lemma get_service_inv service_name version h s h' :
  get_service G service_name version h = (Return s, h') ->
  exists creds h1 new,
    build G h1 service_name version creds = Return s /\
    events h' = (events h ++ new ++ [BuildService service_name version])%list /\
    Forall (credential_event (token_path (api_manager h))) new /\
    token_path (api_manager h') = token_path (api_manager h).
Proof.
  unfold get_service. intros H. bind_inv H.
  apply ask_inv in H as [Hbuild ->].
  apply (get_credentials_grows credential_event) in Ha; [|done].
  destruct Ha as (_ & _ & Hpath & _ & _ & new & Hnew & HP).
  exists a, s0, new. cbn [push events api_manager].
  split_and!; [done| |done|done]. by rewrite Hnew, <- app_assoc.
Qed.

(** X14. A success record of the Document Creator means that the
    submission it was given passed validation, that one document was
    created under the title [Submission - name - timestamp] and filled
    by one batch update, in this order, and that the document was moved
    by one Drive request exactly when a folder is configured. The
    identifier of the record is the [documentId] of the answer
    ([None] when the answer has none) and the URL is derived from
    it. *)
Theorem document_created_on_success folder submission_data h d h' :
  CreateGoogleDocTool_run G ev folder submission_data h = (Return d, h') ->
  stage_ok d = true ->
  exists data submission h1 docs_service doc new1 new2,
    submission_data = PStrDict data /\
    UserSubmission.new ev data = Return submission /\
    documents_create G h1 docs_service
      ("Submission - " +:+ UserSubmission.name submission +:+ " - " +:+
       isoformat_now G h) = Return doc /\
    d = {[ "success" := PBool true;
           "document_id" := dict_get doc "documentId";
           "document_url" :=
             PStr ("https://docs.google.com/document/d/" +:+
                   py_str (dict_get doc "documentId"));
           "title" :=
             PStr ("Submission - " +:+ UserSubmission.name submission +:+
                   " - " +:+ isoformat_now G h) ]} /\
    events h' =
      (events h ++ new1 ++
       [BuildService "docs" "v1";
        ApiRequest "docs.documents.create";
        ApiRequest "docs.documents.batchUpdate"] ++ new2)%list /\
    Forall (credential_event (token_path (api_manager h))) new1 /\
    if str_truthy folder
    then exists new3,
           new2 = (new3 ++ [BuildService "drive" "v3";
                            ApiRequest "drive.files.update"])%list /\
           Forall (credential_event (token_path (api_manager h))) new3
    else new2 = [].
Proof.
  intros Hrun Hok. unfold CreateGoogleDocTool_run, try_except in Hrun.
  match type of Hrun with
  | match ?body with _ => _ end = _ =>
      destruct body as [[d0|e] h0] eqn:Hbody
  end.
  2:{ injection Hrun as <- _. by rewrite stage_ok_failed in Hok. }
  injection Hrun as -> ->. clear Hok.
  apply bind_inv_Return in Hbody as (data & ? & Hkw & Hbody).
  apply lift_inv in Hkw as [Hkw ->].
  apply bind_inv_Return in Hbody as (submission & ? & Hnew & Hbody).
  apply lift_inv in Hnew as [Hnew ->].
  destruct submission_data as [| | | |data']; try discriminate Hkw.
  injection Hkw as ->.
  unfold create_and_fill in Hbody.
  apply bind_inv_Return in Hbody as (? & ? & [= <- <-] & Hbody).
  apply bind_inv_Return in Hbody as (docs_service & h1 & Hservice & Hbody).
  apply get_service_inv in Hservice
    as (creds & _ & new1 & _ & He1 & HP1 & Hp1).
  apply bind_inv_Return in Hbody as (doc & ? & Hcreate & Hbody).
  apply ask_inv in Hcreate as [Hcreate ->].
  apply bind_inv_Return in Hbody as ([] & ? & Hupdate & Hbody).
  apply ask_inv in Hupdate as [_ ->].
  apply bind_inv_Return in Hbody as ([] & h2 & Hmove & Hbody).
  injection Hbody as <- <-.
  exists data, submission, h1, docs_service, doc, new1.
  destruct folder as [folder|]; cbn [str_truthy].
  - case_bool_decide as Hfolder; cbn [negb].
    + injection Hmove as <-. exists [].
      cbn [push events]. split_and!; try done.
      by rewrite He1, <- !app_assoc.
    + apply bind_inv_Return in Hmove as (drive_service & h3 & Hdrive & Hmove).
      apply get_service_inv in Hdrive
        as (creds' & _ & new3 & _ & He3 & HP3 & _).
      apply ask_inv in Hmove as [_ ->].
      eexists. cbn [push events] in *. split_and!; try done.
      * rewrite He3. cbn [push events]. rewrite He1, <- !app_assoc.
        reflexivity.
      * exists new3. split; [reflexivity|].
        cbn [push api_manager] in HP3. by rewrite Hp1 in HP3.
  - injection Hmove as <-. exists [].
    cbn [push events]. split_and!; try done.
    by rewrite He1, <- !app_assoc.
Qed.

(** X15. A success record of the mailer means that one message was
    sent, as the last thing the tool did; the record holds the [id] of
    the answer of Gmail and the recipient the tool was given. *)
Theorem mail_sent_on_success docx_content document_title document_url
    submission_name recipient_email h d h' :
  SendEmailTool_run G docx_content document_title document_url
    submission_name recipient_email h = (Return d, h') ->
  stage_ok d = true ->
  exists gmail_service h1 raw_message send_message message_id new,
    messages_send G h1 gmail_service raw_message = Return send_message /\
    send_message !! "id" = Some message_id /\
    d = {[ "success" := PBool true;
           "message_id" := message_id;
           "recipient" := recipient_email ]} /\
    events h' =
      (events h ++ new ++
       [BuildService "gmail" "v1";
        ApiRequest "gmail.users.messages.send"])%list /\
    Forall (credential_event (token_path (api_manager h))) new.
Proof.
  intros Hrun Hok. unfold SendEmailTool_run, try_except in Hrun.
  match type of Hrun with
  | match ?body with _ => _ end = _ =>
      destruct body as [[d0|e] h0] eqn:Hbody
  end.
  2:{ injection Hrun as <- _. by rewrite stage_ok_failed in Hok. }
  injection Hrun as -> ->. clear Hok.
  apply bind_inv_Return in Hbody as (gmail_service & h1 & Hservice & Hbody).
  apply get_service_inv in Hservice as (creds & _ & new & _ & He & HP & _).
  apply bind_inv_Return in Hbody as (raw_message & ? & Hraw & Hbody).
  apply lift_inv in Hraw as [Hraw ->].
  apply bind_inv_Return in Hbody as (send_message & ? & Hsend & Hbody).
  apply ask_inv in Hsend as [Hsend ->].
  apply bind_inv_Return in Hbody as (message_id & ? & Hid & Hbody).
  apply lift_inv in Hid as [Hid ->].
  injection Hbody as <- <-.
  exists gmail_service, h1, raw_message, send_message, message_id, new.
  split_and!; [done| |done| |done].
  - unfold getitem in Hid. by destruct (send_message !! "id") as [?|]; simplify_eq.
  - cbn [push events]. by rewrite He, <- !app_assoc.
Qed.

(** X16. When the answer of Gmail to the send request has no [id], the
    mailer reports a failure, [KeyError] on [id], although the message
    has been sent: a failure record of the mailer does not mean that no
    mail went out. *)
Theorem mail_sent_without_id docx_content document_title document_url
    submission_name recipient_email h gmail_service h1 raw_message
    send_message :
  get_service G "gmail" "v1" h = (Return gmail_service, h1) ->
  mime_message G recipient_email (email_subject submission_name)
    (email_body submission_name document_title document_url) docx_content
    (py_str document_title +:+ ".docx") = Return raw_message ->
  messages_send G h1 gmail_service raw_message = Return send_message ->
  send_message !! "id" = None ->
  SendEmailTool_run G docx_content document_title document_url
    submission_name recipient_email h =
  (Return (failed (KeyError "id")),
   push (ApiRequest "gmail.users.messages.send") h1).
Proof.
  intros Hservice Hraw Hsend Hid. unfold SendEmailTool_run, try_except.
  unfold email_subject, email_body in Hraw.
  erewrite bind_Return by exact Hservice.
  erewrite bind_Return by (unfold lift; rewrite Hraw; reflexivity).
  erewrite bind_Return by (rewrite ask_eq, Hsend; reflexivity).
  erewrite bind_Raise; [done|].
  unfold lift, getitem. by rewrite Hid.
Qed.

End ToolsStore.

(** X14 at the demo store, for the complete record of Jane Smith and a
    configured folder. *)
Lemma document_created_on_success_witness :
  exists data submission h1 docs_service doc new1 new2,
    PStrDict jane_smith = PStrDict data /\
    UserSubmission.new simple_parser data = Return submission /\
    documents_create demo_google h1 docs_service
      ("Submission - " +:+ UserSubmission.name submission +:+ " - " +:+
       isoformat_now demo_google demo_heap) = Return doc /\
    stub_document =
      {[ "success" := PBool true;
         "document_id" := dict_get doc "documentId";
         "document_url" :=
           PStr ("https://docs.google.com/document/d/" +:+
                 py_str (dict_get doc "documentId"));
         "title" :=
           PStr ("Submission - " +:+ UserSubmission.name submission +:+
                 " - " +:+ isoformat_now demo_google demo_heap) ]} /\
    events (snd (CreateGoogleDocTool_run demo_google simple_parser
                   (Some "folder-1") (PStrDict jane_smith) demo_heap)) =
      (events demo_heap ++ new1 ++
       [BuildService "docs" "v1";
        ApiRequest "docs.documents.create";
        ApiRequest "docs.documents.batchUpdate"] ++ new2)%list /\
    Forall (credential_event "token.json") new1 /\
    exists new3,
      new2 = (new3 ++ [BuildService "drive" "v3";
                       ApiRequest "drive.files.update"])%list /\
      Forall (credential_event "token.json") new3.
Proof.
  apply (document_created_on_success demo_google simple_parser
           (Some "folder-1") (PStrDict jane_smith) demo_heap stub_document
           (snd (CreateGoogleDocTool_run demo_google simple_parser
                   (Some "folder-1") (PStrDict jane_smith) demo_heap)));
    vm_compute; reflexivity.
Defined.

(** X15 at the demo store. *)
Lemma mail_sent_on_success_witness :
  exists gmail_service h1 raw_message send_message message_id new,
    messages_send demo_google h1 gmail_service raw_message =
      Return send_message /\
    send_message !! "id" = Some message_id /\
    stub_message =
      {[ "success" := PBool true;
         "message_id" := message_id;
         "recipient" := PStr "admin@co.com" ]} /\
    events (snd (SendEmailTool_run demo_google (PBytes "PK") (PStr "title")
                   (PStr "url") (PStr "Jane Smith") (PStr "admin@co.com")
                   demo_heap)) =
      (events demo_heap ++ new ++
       [BuildService "gmail" "v1";
        ApiRequest "gmail.users.messages.send"])%list /\
    Forall (credential_event "token.json") new.
Proof.
  apply (mail_sent_on_success demo_google (PBytes "PK") (PStr "title")
           (PStr "url") (PStr "Jane Smith") (PStr "admin@co.com") demo_heap
           stub_message
           (snd (SendEmailTool_run demo_google (PBytes "PK") (PStr "title")
                   (PStr "url") (PStr "Jane Smith") (PStr "admin@co.com")
                   demo_heap)));
    vm_compute; reflexivity.
Defined.

(** X16 at the demo store, with a Gmail service that answers with an
    empty dictionary. *)
Lemma mail_sent_without_id_witness :
  let G := with_messages_send ∅ demo_google in
  let h1 := snd (get_service G "gmail" "v1" demo_heap) in
  SendEmailTool_run G (PBytes "PK") (PStr "title") (PStr "url")
    (PStr "Jane Smith") (PStr "admin@co.com") demo_heap =
  (Return (failed (KeyError "id")),
   push (ApiRequest "gmail.users.messages.send") h1).
Proof.
  apply (mail_sent_without_id (with_messages_send ∅ demo_google)
           (PBytes "PK") (PStr "title") (PStr "url") (PStr "Jane Smith")
           (PStr "admin@co.com") demo_heap (Service "gmail" "v1")
           (snd (get_service (with_messages_send ∅ demo_google) "gmail" "v1"
                   demo_heap)) "raw" ∅);
    vm_compute; reflexivity.
Defined.

(** X13 on a first run where neither interactive flow is available. *)
Lemma stage_tools_without_credentials_witness :
  let h' := snd (get_credentials demo_google first_run) in
  (forall folder data submission,
     UserSubmission.new simple_parser data = Return submission ->
     CreateGoogleDocTool_run demo_google simple_parser folder (PStrDict data)
       first_run = (Return (failed no_console), h')) /\
  (forall document_id,
     ExportDocxTool_run demo_google document_id first_run =
       (Return (failed no_console), h')) /\
  (forall docx_content document_title document_url submission_name
          recipient_email,
     SendEmailTool_run demo_google docx_content document_title document_url
       submission_name recipient_email first_run =
       (Return (failed no_console), h')).
Proof.
  apply (stage_tools_without_credentials demo_google simple_parser first_run
           no_console).
  vm_compute; reflexivity.
Defined.

(** ** Runs of the graph *)

#[local] Instance node_eq_dec : EqDecision node.
Proof. solve_decision. Defined.

#[local] Instance tool_eq_dec : EqDecision tool.
Proof. solve_decision. Defined.

#[local] Instance step_eq_dec : EqDecision step.
Proof. solve_decision. Defined.

#[local] Instance progress_eq_dec : EqDecision progress.
Proof. solve_decision. Defined.

Lemma always_ext {S A} (R : S -> S -> Prop) (m m' : M S A) :
  (forall s, m s = m' s) -> always R m -> always R m'.
Proof. intros Heq Hm s r s' H. eapply Hm. by rewrite Heq. Qed.

Lemma bind_assoc {S A B C} (m : M S A) (k : A -> M S B) (k' : B -> M S C) s :
  bind (bind m k) k' s = bind m (fun x => bind (k x) k') s.
Proof. unfold bind. by destruct (m s) as [[a|e] s1]. Qed.

Section Runs.
Context {W : Type} (self : SubmissionAgent W).

Implicit Types (r : run W) (s : AgentState).

Ltac unfold_node :=
  unfold call, record, set_validation_result, set_doc_creation_result,
    set_docx_export_result, set_email_result, set_error_message,
    set_retry_count, set_success, set_final_message, update;
  unfold try_except, bind, read, lift, getitem, modify, in_world, ret;
  cbn [state world history log_step set_state].

Ltac simpl_state :=
  cbn [set_state log_step state world history
       with_validation_result with_doc_creation_result
       with_docx_export_result with_email_result with_error_message
       with_retry_count with_success with_final_message
       user_input validation_result doc_creation_result
       docx_export_result email_result error_message retry_count success
       final_message].

(** A property of the steps of a graph holds of its runs. *)
Lemma run_from_always (R : run W -> run W -> Prop) `{!PreOrder R} g :
  (forall n, always R (record (Ran n) ;;; nodes W g n)) ->
  (forall n, always R (successor g n)) ->
  forall limit n, always R (run_from g limit n).
Proof.
  intros Hnode Hnext. induction limit as [|limit IH]; intros n;
    cbn [run_from]; [apply always_raise, _|].
  eapply always_ext; [intros r; apply bind_assoc|].
  apply always_bind; [apply _|apply Hnode|intros _].
  apply always_bind; [apply _|apply Hnext|intros [n'|]];
    [apply IH|apply always_ret, _].
Qed.

Lemma successor_pure n r :
  snd (successor (_build_workflow self) n r) = r.
Proof.
  unfold successor. destruct n; cbn [conditional_edges edges _build_workflow];
    try reflexivity;
    unfold _should_continue_after_validation,
      _should_continue_after_doc_creation, _should_continue_after_export,
      _should_continue_after_email, bind, read, lift, getitem, ret;
    match goal with
    | |- context [?d !! "success"] => by destruct (d !! "success")
    end.
Qed.

Lemma successor_always (R : run W -> run W -> Prop) `{!Reflexive R} n :
  always R (successor (_build_workflow self) n).
Proof.
  intros r res r' H. pose proof (successor_pure n r) as Hpure.
  rewrite H in Hpure. cbn [snd] in Hpure. by subst r'.
Qed.

Lemma handle_error_next r :
  _handle_error r =
  (Return tt,
   set_state (with_success false
                (with_retry_count (next_retry_count (retry_count (state r)))
                   (state r))) r).
Proof.
  unfold _handle_error, next_retry_count. unfold_node.
  case_bool_decide; [done|]. by destruct r as [[] ? ?].
Qed.

Lemma reached_all_ok p s :
  reached p s -> all_ok s = bool_decide (p = completed).
Proof.
  unfold all_ok. destruct p; cbn [reached]; intros H; destruct_and?;
    repeat match goal with
           | H : stage_ok _ = _ |- _ => rewrite H
           end;
    rewrite ?andb_false_r; done.
Qed.

(** X17. Every run of the graph, from any state and with any tools,
    ends with [finalize] as its last step and never hits the recursion
    limit; no node is run twice and no tool is called twice; and
    [handle_error] is run exactly when one of the four recorded results
    is not Ok. A stage that failed is not tried again. *)
Theorem run_ends_in_finalize s0 w :
  fst (invoke (_build_workflow self) s0 w) <> Raise GraphRecursionError /\
  last (history (snd (invoke (_build_workflow self) s0 w))) =
    Some (Ran finalize) /\
  NoDup (history (snd (invoke (_build_workflow self) s0 w))) /\
  (Ran handle_error ∈ history (snd (invoke (_build_workflow self) s0 w)) <->
   all_ok (state (snd (invoke (_build_workflow self) s0 w))) = false).
Proof.
  destruct (invoke_shape self s0 w)
    as (res & r & p & c & -> & Hc & Hh & Hreach & _ & _ & _ & Hstop & Hdone).
  cbn [fst snd]. rewrite Hh, (reached_all_ok _ _ Hreach).
  assert (res <> Raise GraphRecursionError) as Hres.
  { destruct (decide (p = completed)) as [Hp|Hp].
    - destruct (Hdone Hp) as [[-> _]|[k ->]]; done.
    - by destruct (Hstop Hp) as [-> _]. }
  split; [done|]. clear Hres Hstop Hdone Hreach Hh.
  destruct p; destruct Hc as [->| ->];
    cbn [expected_history failing_tool app];
    (split_and!;
     [ reflexivity
     | by apply (bool_decide_unpack _)
     | by apply (bool_decide_unpack _) ]).
Qed.

#[local] Instance advances_preorder : PreOrder (@advances W).
Proof.
  split.
  - intros r. exists []. split; [by rewrite app_nil_r|done].
  - intros r1 r2 r3 (new1 & Hh1 & Hc1) (new2 & Hh2 & Hc2).
    exists (new1 ++ new2)%list. split; [by rewrite Hh2, Hh1, app_assoc|].
    rewrite Hc2, Hc1, filter_app, length_app, Nat.add_comm.
    by rewrite Nat.iter_add.
Qed.

Lemma node_advances n :
  always advances (record (Ran n) ;;; nodes W (_build_workflow self) n).
Proof.
  intros r res r'. unfold bind at 1. unfold record, modify.
  destruct n; cbn [nodes _build_workflow].
  - rewrite validate_input_eq. intros [= <- <-].
    exists [Ran validate_input]. split; [done|]. simpl_state.
    by destruct (validated_frame self (state r)) as (_ & _ & _ & _ & ->).
  - destruct (create_document_spec self (log_step (Ran create_document) r))
      as (d & e & w' & c & -> & _ & Hc & _).
    intros [= <- <-]. exists ([Ran create_document] ++ c)%list.
    simpl_state. split; [by rewrite <- app_assoc|].
    by destruct Hc as [[-> _]| ->].
  - destruct (export_docx_spec self (log_step (Ran export_docx) r))
      as (d & e & w' & c & -> & _ & Hc & _).
    intros [= <- <-]. exists ([Ran export_docx] ++ c)%list.
    simpl_state. split; [by rewrite <- app_assoc|].
    by destruct Hc as [[-> _]| ->].
  - destruct (send_email_spec self (log_step (Ran send_email) r))
      as (d & e & w' & c & -> & _ & Hc & _).
    intros [= <- <-]. exists ([Ran send_email] ++ c)%list.
    simpl_state. split; [by rewrite <- app_assoc|].
    by destruct Hc as [[-> _]| ->].
  - rewrite handle_error_next. intros [= <- <-].
    exists [Ran handle_error]. by simpl_state.
  - destruct (finalize_cases (log_step (Ran finalize) r))
      as [[m ->]|[_ [k ->]]]; intros [= <- <-];
      exists [Ran finalize]; by simpl_state.
Qed.

(** X18. The retry counter counts the rounds of error handling, of
    which a run has at most one: after a run in which all four results
    are Ok the counter is as it was, after any other run it is one
    more, unless it had reached 3. Nothing is done with it. *)
Theorem retry_count_after_run s0 w :
  retry_count (state (snd (invoke (_build_workflow self) s0 w))) =
  if all_ok (state (snd (invoke (_build_workflow self) s0 w)))
  then retry_count s0
  else next_retry_count (retry_count s0).
Proof.
  destruct (invoke_shape self s0 w)
    as (res & r & p & c & Hinv & Hc & Hh & Hreach & _).
  pose proof (run_from_always advances (_build_workflow self) node_advances
                (successor_always advances) recursion_limit validate_input
                (MkRun s0 w []) res r Hinv) as (new & Hnew & Hretry).
  rewrite Hinv. cbn [snd]. rewrite Hretry, (reached_all_ok _ _ Hreach).
  cbn [history app state] in Hnew. rewrite <- Hnew, Hh.
  clear Hinv Hreach Hnew Hh.
  by destruct p; destruct Hc as [->| ->].
Qed.

(** X19. When the input does not pass validation, the run is
    [validate_input], [handle_error], [finalize] and nothing else: no
    tool is called and their store is as it was, the results of the
    three stages are as they were, and the report is a failure whose
    message is [Workflow failed: Input validation failed: ] followed by
    the text of the validation error. *)
Theorem invalid_input_stops_run s0 w e :
  UserSubmission.new (parser self) (user_input s0) = Raise e ->
  exists rep r,
    run_workflow self s0 w = (Return rep, r) /\
    history r = [Ran validate_input; Ran handle_error; Ran finalize] /\
    world r = w /\
    validation_result (state r) = failed e /\
    doc_creation_result (state r) = doc_creation_result s0 /\
    docx_export_result (state r) = docx_export_result s0 /\
    email_result (state r) = email_result s0 /\
    report_success rep = false /\
    report_message rep =
      "Workflow failed: Input validation failed: " +:+ str_exn e.
Proof.
  intros Hnew.
  assert (validated (parser self) s0 =
          with_error_message ("Input validation failed: " +:+ str_exn e)
            (with_validation_result (failed e) s0)) as Hval
    by (unfold validated; by rewrite Hnew).
  unfold run_workflow, invoke, recursion_limit.
  cbn [entry_point _build_workflow].
  erewrite run_from_step;
    [|apply validate_input_eq
     |apply successor_validate_input; simpl_state; rewrite Hval; simpl_state;
      apply failed_success].
  unfold branch. cbn [truthy]. cbv iota.
  erewrite run_from_step;
    [|apply handle_error_next|apply successor_handle_error].
  cbv iota.
  erewrite run_from_step; [| |apply successor_finalize].
  2:{ cbn [nodes _build_workflow]. apply finalize_failed.
      simpl_state. rewrite Hval. unfold all_ok. simpl_state.
      by rewrite stage_ok_failed. }
  eexists _, _. split; [reflexivity|].
  unfold report_of. cbn [report_success report_message].
  simpl_state. rewrite Hval. simpl_state. by split_and!.
Qed.

#[local] Instance keeps_preorder {S} (I : S -> Prop) : PreOrder (keeps I).
Proof.
  split; [intros s H; exact H|]. intros s1 s2 s3 H1 H2 H. by apply H2, H1.
Qed.

Lemma last_stage_app (l c : list step) :
  last_stage (l ++ c) =
  match last_stage c with
  | Some n => Some n
  | None => last_stage l
  end.
Proof. unfold last_stage. by rewrite omap_app, last_app. Qed.

Ltac failed_message c :=
  eexists (failed _), _, _, c; rewrite ?app_nil_r;
  split; [reflexivity|]; split; [by auto|]; intros _; by eexists.

(** A stage node whose recorded result is a failure has set the error
    message, with the label of the stage first. *)
Lemma create_document_message r :
  exists d e w' c,
    _create_document self r =
      (Return tt,
       MkRun (with_error_message e (with_doc_creation_result d (state r)))
             w' (history r ++ c)) /\
    (c = [] \/ c = [Called doc_tool]) /\
    (stage_ok d = false ->
     exists detail, e = stage_label create_document +:+ detail).
Proof.
  unfold _create_document. unfold_node.
  destruct (validation_result (state r) !! "validated_data") as [vd|];
    [|failed_message (@nil step)].
  cbn [state world history].
  destruct (doc_tool_run self vd (world r)) as [[result|ex] w'];
    [|failed_message [Called doc_tool]].
  cbn [state world history].
  destruct (result !! "success") as [ok|] eqn:Hok;
    [|failed_message [Called doc_tool]].
  destruct (truthy ok) eqn:Htruthy.
  - destruct (result !! "document_id") as [doc_id|] eqn:Hid;
      [|failed_message [Called doc_tool]].
    exists result, (error_message (state r)), w', [Called doc_tool].
    split; [by destruct r as [[] ? ?]|]. split; [by auto|].
    rewrite (stage_ok_lookup _ _ Hok). congruence.
  - eexists result, _, _, _. split; [reflexivity|].
    split; [by right|]. intros _. by eexists.
Qed.

Lemma export_docx_message r :
  exists d e w' c,
    _export_docx self r =
      (Return tt,
       MkRun (with_error_message e (with_docx_export_result d (state r)))
             w' (history r ++ c)) /\
    (c = [] \/ c = [Called export_tool]) /\
    (stage_ok d = false ->
     exists detail, e = stage_label export_docx +:+ detail).
Proof.
  unfold _export_docx. unfold_node.
  destruct (doc_creation_result (state r) !! "document_id") as [document_id|];
    [|failed_message (@nil step)].
  cbn [state world history].
  destruct (export_tool_run self document_id (world r)) as [[result|ex] w'];
    [|failed_message [Called export_tool]].
  cbn [state world history].
  destruct (result !! "success") as [ok|] eqn:Hok;
    [|failed_message [Called export_tool]].
  destruct (truthy ok) eqn:Htruthy.
  - exists result, (error_message (state r)), w', [Called export_tool].
    split; [by destruct r as [[] ? ?]|]. split; [by auto|].
    rewrite (stage_ok_lookup _ _ Hok). congruence.
  - eexists result, _, _, _. split; [reflexivity|].
    split; [by right|]. intros _. by eexists.
Qed.

Lemma send_email_message r :
  exists d e w' c,
    _send_email self r =
      (Return tt,
       MkRun (with_error_message e (with_email_result d (state r)))
             w' (history r ++ c)) /\
    (c = [] \/ c = [Called email_tool]) /\
    (stage_ok d = false ->
     exists detail, e = stage_label send_email +:+ detail).
Proof.
  unfold _send_email. unfold_node.
  destruct (docx_export_result (state r) !! "docx_content") as [docx_content|];
    [|failed_message (@nil step)].
  destruct (doc_creation_result (state r) !! "title") as [doc_title|];
    [|failed_message (@nil step)].
  destruct (doc_creation_result (state r) !! "document_url") as [doc_url|];
    [|failed_message (@nil step)].
  destruct (validation_result (state r) !! "validated_data") as [validated_data|];
    [|failed_message (@nil step)].
  destruct (subscript validated_data "name") as [submission_name|ex];
    [|failed_message (@nil step)].
  cbn [state world history].
  destruct (email_tool_run self docx_content doc_title doc_url submission_name
              (world r)) as [[result|ex] w'];
    [|failed_message [Called email_tool]].
  cbn [state world history].
  destruct (result !! "success") as [ok|] eqn:Hok;
    [|failed_message [Called email_tool]].
  destruct (truthy ok) eqn:Htruthy.
  - destruct (result !! "message_id") as [message_id|] eqn:Hid;
      [|failed_message [Called email_tool]].
    exists result, (error_message (state r)), w', [Called email_tool].
    split; [by destruct r as [[] ? ?]|]. split; [by auto|].
    rewrite (stage_ok_lookup _ _ Hok). congruence.
  - eexists result, _, _, _. split; [reflexivity|].
    split; [by right|]. intros _. by eexists.
Qed.

Lemma stage_run_fits n (d : gmap string pyval) e (w' : W) c r s' :
  stage_of (Ran n) = Some n ->
  omap stage_of c = [] ->
  last c <> Some (Ran finalize) ->
  result_of n s' = d ->
  error_message s' = e ->
  (stage_ok d = false -> exists detail, e = stage_label n +:+ detail) ->
  messages_fit (MkRun s' w' ((history r ++ [Ran n]) ++ c)).
Proof.
  intros Hn Hc Hlast Hd He Hmsg. split; cbn [history state].
  - intros n'. rewrite !last_stage_app. unfold last_stage at 1. rewrite Hc.
    cbn [last]. unfold last_stage at 1.
    change (omap stage_of [Ran n]) with
      (match stage_of (Ran n) with Some x => [x] | None => [] end).
    rewrite Hn. cbn [last].
    intros [= <-]. rewrite Hd, He. exact Hmsg.
  - rewrite last_app. destruct (last c) as [x|] eqn:Hx.
    + intros [= ->]. by destruct Hlast.
    + rewrite last_snoc. intros [= ->]. discriminate Hn.
Qed.

Lemma node_keeps_messages n :
  always (keeps messages_fit)
    (record (Ran n) ;;; nodes W (_build_workflow self) n).
Proof.
  intros r res r'. unfold bind at 1. unfold record, modify.
  destruct n; cbn [nodes _build_workflow].
  - rewrite validate_input_eq. intros [= <- <-] _.
    unfold set_state, log_step. cbn [state world history].
    rewrite <- (app_nil_r (history r ++ [Ran validate_input])).
    eapply (stage_run_fits validate_input); try done.
    cbn [result_of stage_label]. unfold validated.
    destruct (UserSubmission.new (parser self) (user_input (state r)));
      simpl_state; intros Hbad; [|by eexists].
    by rewrite (stage_ok_lookup _ (PBool true)) in Hbad by by simplify_map_eq.
  - destruct (create_document_message (log_step (Ran create_document) r))
      as (d & e & w' & c & -> & Hc & Hmsg).
    intros [= <- <-] _. unfold log_step. cbn [state world history].
    eapply (stage_run_fits create_document); try done;
      by destruct Hc as [->| ->].
  - destruct (export_docx_message (log_step (Ran export_docx) r))
      as (d & e & w' & c & -> & Hc & Hmsg).
    intros [= <- <-] _. unfold log_step. cbn [state world history].
    eapply (stage_run_fits export_docx); try done;
      by destruct Hc as [->| ->].
  - destruct (send_email_message (log_step (Ran send_email) r))
      as (d & e & w' & c & -> & Hc & Hmsg).
    intros [= <- <-] _. unfold log_step. cbn [state world history].
    eapply (stage_run_fits send_email); try done;
      by destruct Hc as [->| ->].
  - rewrite handle_error_next. intros [= <- <-] [Hmsg _].
    split; simpl_state; [|by rewrite last_snoc].
    intros n. rewrite last_stage_app. cbn. intros Hn Hbad.
    apply (Hmsg n Hn). by destruct n.
  - destruct (all_ok (state r)) eqn:Hok.
    + destruct (finalize_cases (log_step (Ran finalize) r))
        as [[m ->]|[_ [k ->]]]; intros [= <- <-] [Hmsg _];
        (split; simpl_state;
         [|intros _; unfold all_ok; simpl_state; fold (all_ok (state r));
           by rewrite Hok]);
        intros n; rewrite last_stage_app; cbn; intros Hn Hbad;
        apply (Hmsg n Hn); by destruct n.
    + rewrite finalize_failed by done. intros [= <- <-] [Hmsg _].
      split; simpl_state; [|done].
      intros n. rewrite last_stage_app. cbn. intros Hn Hbad.
      apply (Hmsg n Hn). by destruct n.
Qed.

(** X20. When a run ends with one of the four results not Ok, the
    graph returns with the success flag down, and the final message
    names the first stage that failed: it is [Workflow failed: ],
    then the label of that stage, then a detail. *)
Theorem failure_message_names_stage s0 w :
  all_ok (state (snd (invoke (_build_workflow self) s0 w))) = false ->
  exists p n detail,
    failed_stage_of p = Some n /\
    reached p (state (snd (invoke (_build_workflow self) s0 w))) /\
    fst (invoke (_build_workflow self) s0 w) = Return tt /\
    success (state (snd (invoke (_build_workflow self) s0 w))) = false /\
    final_message (state (snd (invoke (_build_workflow self) s0 w))) =
      "Workflow failed: " +:+ stage_label n +:+ detail.
Proof.
  destruct (invoke_shape self s0 w)
    as (res & r & p & c & Hinv & Hc & Hh & Hreach & _ & _ & _ & Hstop & _).
  assert (messages_fit r) as [Hmsg Hfinal].
  { eapply (run_from_always (keeps messages_fit) (_build_workflow self)
              node_keeps_messages (successor_always (keeps messages_fit)));
      [exact Hinv|].
    split; cbn [history]; [|done]. by intros n. }
  rewrite Hinv. cbn [fst snd]. intros Hbad.
  rewrite (reached_all_ok _ _ Hreach) in Hbad.
  apply bool_decide_eq_false in Hbad.
  destruct (Hstop Hbad) as [-> Hsuccess].
  assert (exists n, failed_stage_of p = Some n /\
                    last_stage (history r) = Some n /\
                    stage_ok (result_of n (state r)) = false /\
                    last (history r) = Some (Ran finalize))
    as (n & Hp & Hn & Hfailed & Hlast).
  { rewrite Hh. clear Hmsg Hfinal Hh Hinv Hstop.
    destruct p; try done; destruct Hc as [->| ->];
      cbn [reached] in Hreach; destruct_and?;
      eexists; (split; [reflexivity|]); by split_and!. }
  destruct (Hmsg n Hn Hfailed) as [detail Hdetail].
  exists p, n, detail. split_and!; try done.
  rewrite Hfinal, Hdetail; [done|done|].
  rewrite (reached_all_ok _ _ Hreach). by apply bool_decide_eq_false.
Qed.

End Runs.

(** X20 on a run whose Document Creator reports that the quota is
    exceeded. *)
Lemma failure_message_names_stage_witness :
  let out := invoke (_build_workflow
                       (stub_agent stub_failure stub_docx stub_message))
               (fresh_state jane_smith) tt in
  exists p n detail,
    failed_stage_of p = Some n /\
    reached p (state (snd out)) /\
    fst out = Return tt /\
    success (state (snd out)) = false /\
    final_message (state (snd out)) =
      "Workflow failed: " +:+ stage_label n +:+ detail.
Proof.
  apply (failure_message_names_stage
           (stub_agent stub_failure stub_docx stub_message)
           (fresh_state jane_smith) tt).
  vm_compute; reflexivity.
Defined.

(** X19 on a record with a blank name, with stubs that would all
    succeed. *)
Lemma invalid_input_stops_run_witness :
  let e := ValidationError [ErrorItem "name" FieldCannotBeEmpty] in
  exists rep r,
    run_workflow (stub_agent stub_document stub_docx stub_message)
      (fresh_state (raw_record "  " "jane@x.com" "1 Oak Ave" "admin@co.com"))
      tt = (Return rep, r) /\
    history r = [Ran validate_input; Ran handle_error; Ran finalize] /\
    world r = tt /\
    validation_result (state r) = failed e /\
    doc_creation_result (state r) = ∅ /\
    docx_export_result (state r) = ∅ /\
    email_result (state r) = ∅ /\
    report_success rep = false /\
    report_message rep =
      "Workflow failed: Input validation failed: " +:+ str_exn e.
Proof.
  apply (invalid_input_stops_run
           (stub_agent stub_document stub_docx stub_message)
           (fresh_state (raw_record "  " "jane@x.com" "1 Oak Ave" "admin@co.com"))
           tt (ValidationError [ErrorItem "name" FieldCannotBeEmpty])).
  vm_compute; reflexivity.
Defined.

(** ** The validator, field by field *)

Lemma append_cons c (a b : string) : String c a +:+ b = String c (a +:+ b).
Proof. reflexivity. Qed.

Lemma append_nil (b : string) : "" +:+ b = b.
Proof. reflexivity. Qed.

Lemma lstrip_split (s : string) :
  exists pre, s = pre +:+ lstrip s /\ blank pre = true.
Proof.
  induction s as [|c s (pre & IH & Hpre)]; [by exists ""|].
  cbn [lstrip]. destruct (is_space c) eqn:Hc.
  - exists (String c pre). rewrite append_cons, <- IH.
    cbn [blank]. by rewrite Hc, Hpre.
  - by exists "".
Qed.

Lemma rstrip_split (s : string) :
  exists post, s = rstrip s +:+ post /\ blank post = true.
Proof.
  induction s as [|c s (post & IH & Hpost)]; [by exists ""|].
  cbn [rstrip]. destruct (rstrip s) as [|c' r] eqn:Hr.
  - rewrite append_nil in IH. subst post.
    destruct (is_space c) eqn:Hc.
    + exists (String c s). rewrite append_nil.
      cbn [blank]. by rewrite Hc, Hpost.
    + exists s. by rewrite append_cons, append_nil.
  - exists post. split; [|done]. by rewrite append_cons, <- IH.
Qed.

Lemma rstrip_last (s : string) c :
  last_char (rstrip s) = Some c -> is_space c = false.
Proof.
  induction s as [|c0 s IH]; [done|].
  cbn [rstrip]. destruct (rstrip s) as [|c' r] eqn:Hr.
  - destruct (is_space c0) eqn:Hc; [done|]. by intros [= <-].
  - exact IH.
Qed.

Lemma strip_split (s : string) :
  exists pre post,
    s = pre +:+ strip s +:+ post /\ blank pre = true /\ blank post = true.
Proof.
  destruct (lstrip_split s) as (pre & Hs & Hpre).
  destruct (rstrip_split (lstrip s)) as (post & Hl & Hpost).
  exists pre, post. unfold strip. by rewrite <- Hl, <- Hs.
Qed.

Lemma strip_trimmed (s : string) : strip s <> "" -> trimmed (strip s).
Proof.
  intros Hne. split; [done|]. split; [|apply rstrip_last].
  unfold strip in *.
  destruct (lstrip_head s) as [Hl|(c & s' & Hl & Hc)];
    rewrite Hl in *; [done|].
  destruct (rstrip_keeps_head c s' Hc) as [r ->]. by intros ? [= <-].
Qed.

Lemma constrained_field_kind (raw : option string) k :
  UserSubmission.constrained_field raw = inl k <->
  (k = FieldRequired /\ raw = None) \/
  (k = MinLength /\ raw = Some "") \/
  (k = FieldCannotBeEmpty /\
   exists v, raw = Some v /\ v <> "" /\ strip v = "").
Proof.
  destruct raw as [v|]; cbn [UserSubmission.constrained_field].
  2:{ split; [intros [= <-]; by left|].
      by intros [[-> _]|[[_ [=]]|[_ (v & [=] & _)]]]. }
  case_bool_decide as Hlen.
  - assert (v = "") as -> by (destruct v; [done|cbn in Hlen; lia]).
    split; [intros [= <-]; right; by left|].
    by intros [[_ [=]]|[[-> _]|[_ (v & [= <-] & Hv & _)]]].
  - assert (v <> "") as Hv by (intros ->; cbn in Hlen; lia).
    unfold UserSubmission.validate_required_fields.
    rewrite (bool_decide_false (v = "")) by done. cbn [orb].
    case_bool_decide as Hblank.
    + split; [intros [= <-]; right; right; eauto|].
      by intros [[_ [=]]|[[_ [= ->]]|[-> _]]].
    + split; [done|].
      by intros [[_ [=]]|[[_ [= ->]]|[_ (v' & [= <-] & _ & ?)]]].
Qed.

Lemma email_field_kind ev (raw : option string) k :
  UserSubmission.email_field ev raw = inl k <->
  (k = FieldRequired /\ raw = None) \/
  (k = InvalidEmailFormat /\ exists v, raw = Some v /\ ev v = None).
Proof.
  destruct raw as [v|]; [rewrite email_field_some|];
    cbn [UserSubmission.email_field].
  - destruct (ev v) as [e|] eqn:Hev.
    + split; [done|].
      intros [[_ [=]]|[_ (v' & [= <-] & ?)]]. congruence.
    + split; [intros [= <-]; right; eauto|].
      by intros [[_ [=]]|[-> _]].
  - split; [intros [= <-]; by left|].
    by intros [[-> _]|[_ (v & [=] & _)]].
Qed.

Ltac solve_sublist :=
  repeat first [apply sublist_nil | apply sublist_skip | apply sublist_cons].

(** X21. The constructor of [UserSubmission] raises nothing but a
    validation error, which is never empty and lists the failing
    fields once each, in declaration order. A name or an address has
    [field required] exactly when the key is absent, the length error
    exactly when the value is the empty string, and [Field cannot be
    empty] exactly when the value is not empty but blank; an email or a
    recipient email has [field required] exactly when the key is
    absent and [Invalid email format] exactly when the parser rejects
    the value. *)
Theorem validation_error_table ev (data : gmap string string) e :
  UserSubmission.new ev data = Raise e ->
  exists errs,
    e = ValidationError errs /\
    errs <> [] /\
    sublist (loc <$> errs) field_names /\
    (forall l k, l ∈ ["name"; "address"] ->
       (ErrorItem l k ∈ errs <->
        (k = FieldRequired /\ data !! l = None) \/
        (k = MinLength /\ data !! l = Some "") \/
        (k = FieldCannotBeEmpty /\
         exists v, data !! l = Some v /\ v <> "" /\ strip v = ""))) /\
    (forall l k, l ∈ ["email"; "recipient_email"] ->
       (ErrorItem l k ∈ errs <->
        (k = FieldRequired /\ data !! l = None) \/
        (k = InvalidEmailFormat /\
         exists v, data !! l = Some v /\ ev v = None))).
Proof.
  intros Hnew.
  assert (exists errs, e = ValidationError errs) as [errs ->].
  { unfold UserSubmission.new in Hnew.
    destruct (UserSubmission.constrained_field (data !! "name"));
      destruct (UserSubmission.email_field ev (data !! "email"));
      destruct (UserSubmission.constrained_field (data !! "address"));
      destruct (UserSubmission.email_field ev (data !! "recipient_email"));
      first [discriminate Hnew|injection Hnew as <-; by eexists]. }
  exists errs. split; [done|].
  pose proof (new_errors _ _ _ Hnew) as Herrs.
  split_and!.
  - intros ->. unfold UserSubmission.new in Hnew.
    destruct (UserSubmission.constrained_field (data !! "name"));
      destruct (UserSubmission.email_field ev (data !! "email"));
      destruct (UserSubmission.constrained_field (data !! "address"));
      destruct (UserSubmission.email_field ev (data !! "recipient_email"));
      done.
  - rewrite Herrs. unfold field_names.
    destruct (UserSubmission.constrained_field (data !! "name"));
      destruct (UserSubmission.email_field ev (data !! "email"));
      destruct (UserSubmission.constrained_field (data !! "address"));
      destruct (UserSubmission.email_field ev (data !! "recipient_email"));
      cbn; solve_sublist.
  - intros l k Hl. rewrite Herrs, elem_of_errors.
    rewrite <- !constrained_field_kind.
    rewrite !elem_of_cons, elem_of_nil in Hl.
    destruct Hl as [->|[->|[]]];
      (split; [intros [[? ?]|[[? ?]|[[? ?]|[? ?]]]]; done|]); eauto.
  - intros l k Hl. rewrite Herrs, elem_of_errors.
    rewrite <- !email_field_kind.
    rewrite !elem_of_cons, elem_of_nil in Hl.
    destruct Hl as [->|[->|[]]];
      (split; [intros [[? ?]|[[? ?]|[[? ?]|[? ?]]]]; done|]).
    + intros H. right; left. eauto.
    + intros H. right; right; right. eauto.
Qed.

(** X22. In a submission that passed validation, the name and the
    address are the given values without the whitespace around them:
    they are not empty and neither start nor end with whitespace; the
    two addresses are what the parser made of the given values. *)
Theorem validated_fields_are_trimmed ev (data : gmap string string)
    submission :
  UserSubmission.new ev data = Return submission ->
  (exists pre post,
     data !! "name" =
       Some (pre +:+ UserSubmission.name submission +:+ post) /\
     blank pre = true /\ blank post = true) /\
  trimmed (UserSubmission.name submission) /\
  (exists pre post,
     data !! "address" =
       Some (pre +:+ UserSubmission.address submission +:+ post) /\
     blank pre = true /\ blank post = true) /\
  trimmed (UserSubmission.address submission) /\
  (exists raw, data !! "email" = Some raw /\
               ev raw = Some (UserSubmission.email submission)) /\
  (exists raw, data !! "recipient_email" = Some raw /\
               ev raw = Some (UserSubmission.recipient_email submission)).
Proof.
  intros (Hn & He & Ha & Hr)%new_inv.
  assert (forall raw v,
            UserSubmission.constrained_field raw = inr v ->
            (exists pre post,
               raw = Some (pre +:+ v +:+ post) /\
               blank pre = true /\ blank post = true) /\ trimmed v)
    as Hfield.
  { intros [raw|] v Hv; [|done].
    destruct (constrained_field_cases raw) as [(_ & k & Hk & _)|[Hne Hraw]];
      [congruence|].
    rewrite Hraw in Hv. injection Hv as <-.
    split; [|by apply strip_trimmed].
    destruct (strip_split raw) as (pre & post & Hsplit & ? & ?).
    exists pre, post. by rewrite <- Hsplit. }
  assert (forall raw v,
            UserSubmission.email_field ev raw = inr v ->
            exists x, raw = Some x /\ ev x = Some v) as Hemail.
  { intros [raw|] v; [|done]. rewrite email_field_some.
    destruct (ev raw) eqn:Hev; [|done]. intros [= <-]. eauto. }
  destruct (Hfield _ _ Hn) as [? ?]. destruct (Hfield _ _ Ha) as [? ?].
  split_and!; eauto.
Qed.

(** X21 on a record that has nothing but a blank name. *)
Lemma validation_error_table_witness :
  let data : gmap string string := {[ "name" := "  " ]} in
  let e := ValidationError
             [ErrorItem "name" FieldCannotBeEmpty;
              ErrorItem "email" FieldRequired;
              ErrorItem "address" FieldRequired;
              ErrorItem "recipient_email" FieldRequired] in
  exists errs,
    e = ValidationError errs /\
    errs <> [] /\
    sublist (loc <$> errs) field_names /\
    (forall l k, l ∈ ["name"; "address"] ->
       (ErrorItem l k ∈ errs <->
        (k = FieldRequired /\ data !! l = None) \/
        (k = MinLength /\ data !! l = Some "") \/
        (k = FieldCannotBeEmpty /\
         exists v, data !! l = Some v /\ v <> "" /\ strip v = ""))) /\
    (forall l k, l ∈ ["email"; "recipient_email"] ->
       (ErrorItem l k ∈ errs <->
        (k = FieldRequired /\ data !! l = None) \/
        (k = InvalidEmailFormat /\
         exists v, data !! l = Some v /\ simple_parser v = None))).
Proof.
  apply (validation_error_table simple_parser {[ "name" := "  " ]}).
  vm_compute; reflexivity.
Defined.

(** X22 on the record of Jane Smith with whitespace around the name
    and the address. *)
Lemma validated_fields_are_trimmed_witness :
  let data := raw_record "  Jane Smith " "jane@x.com" "1 Oak Ave
" "admin@co.com" in
  let submission :=
    UserSubmission.Build "Jane Smith" "jane@x.com" "1 Oak Ave" "admin@co.com" in
  (exists pre post,
     data !! "name" =
       Some (pre +:+ UserSubmission.name submission +:+ post) /\
     blank pre = true /\ blank post = true) /\
  trimmed (UserSubmission.name submission) /\
  (exists pre post,
     data !! "address" =
       Some (pre +:+ UserSubmission.address submission +:+ post) /\
     blank pre = true /\ blank post = true) /\
  trimmed (UserSubmission.address submission) /\
  (exists raw, data !! "email" = Some raw /\
               simple_parser raw = Some (UserSubmission.email submission)) /\
  (exists raw, data !! "recipient_email" = Some raw /\
               simple_parser raw =
                 Some (UserSubmission.recipient_email submission)).
Proof.
  apply (validated_fields_are_trimmed simple_parser
           (raw_record "  Jane Smith " "jane@x.com" "1 Oak Ave
" "admin@co.com")
           (UserSubmission.Build "Jane Smith" "jane@x.com" "1 Oak Ave"
              "admin@co.com")).
  vm_compute; reflexivity.
Defined.

(** ** The constructor of the agent *)

(** X23. [create_agent] never returns an agent, whatever the
    environment: when one of [GOOGLE_CLIENT_ID],
    [GOOGLE_CLIENT_SECRET], [FIXED_RECIPIENT_EMAIL] is unset or empty
    [__init__] raises [ValueError]; otherwise it raises [TypeError],
    because it gives [SendEmailTool] the recipient as a second
    argument and the constructor of tools.py takes the manager
    only. *)
Theorem create_agent_always_raises {Credentials} (environ : gmap string string) :
  create_agent (Credentials:=Credentials) environ =
  Raise
    (if str_truthy (environ !! "GOOGLE_CLIENT_ID")
        && str_truthy (environ !! "GOOGLE_CLIENT_SECRET")
        && str_truthy (environ !! "FIXED_RECIPIENT_EMAIL")
     then TypeError "__init__() takes 2 positional arguments but 3 were given"
     else missing_configuration).
Proof.
  unfold create_agent, SubmissionAgent_init, getenv.
  by destruct (str_truthy (environ !! "GOOGLE_CLIENT_ID")
               && str_truthy (environ !! "GOOGLE_CLIENT_SECRET")
               && str_truthy (environ !! "FIXED_RECIPIENT_EMAIL")).
Qed.

(** ** The command line *)

Section CommandLine.
Context {W Agent : Type} (create_agent : M W Agent)
        (process_submission :
           Agent -> string -> string -> string -> string ->
           M W (gmap string pyval))
        (parse_args : list string -> M (Cli.console W) Cli.parsed).

Implicit Types (c : Cli.console W) (args : Cli.arguments).

Lemma bind_eq {S A B} (m : M S A) (k : A -> M S B) s :
  bind m k s =
  match m s with
  | (Return a, s') => k a s'
  | (Raise e, s') => (Raise e, s')
  end.
Proof. reflexivity. Qed.

Lemma input_line prompt c line rest :
  Cli.stdin c = line :: rest ->
  Cli.input W prompt c =
  (Return line,
   Cli.MkConsole rest (Cli.stdout c ++ [prompt]) (Cli.agent_world c)).
Proof.
  intros Hin. unfold Cli.input, Cli.say.
  do 2 (erewrite bind_Return by reflexivity).
  cbn [Cli.stdin]. rewrite Hin.
  by erewrite bind_Return by reflexivity.
Qed.

Lemma input_eof prompt c :
  Cli.stdin c = [] ->
  Cli.input W prompt c =
  (Raise (ExternalError "EOF when reading a line"),
   Cli.MkConsole [] (Cli.stdout c ++ [prompt]) (Cli.agent_world c)).
Proof.
  intros Hin. unfold Cli.input, Cli.say.
  do 2 (erewrite bind_Return by reflexivity).
  cbn [Cli.stdin]. by rewrite Hin.
Qed.

Lemma str_truthy_Some (o : option string) :
  str_truthy o = true -> exists v, o = Some v /\ v <> "".
Proof.
  destruct o as [v|]; [|done]. cbn. case_bool_decide; [done|eauto].
Qed.

Lemma strip_empty_blank (v : string) : strip v <> "" -> v <> "".
Proof. by intros H ->. Qed.

(** X24. How [main] obtains the four fields. With all four flags
    given and not empty, and without [--interactive], the fields are
    the flags as they are, and nothing is read or printed. In every
    other case the flags are ignored: four lines are read and trimmed;
    when one of them is blank [main] exits with status 1 after the
    fourth prompt; when fewer than four lines can be read the
    exception of [input] leaves [main]. The fields that [main] goes on
    with are never empty. *)
Theorem get_fields_contract args c :
  (forall n e a r,
     Cli.interactive args = false ->
     Cli.name args = Some n -> Cli.email args = Some e ->
     Cli.address args = Some a -> Cli.recipient args = Some r ->
     n <> "" -> e <> "" -> a <> "" -> r <> "" ->
     Cli.get_fields args c = (Return (Some (n, e, a, r)), c)) /\
  (Cli.interactive args
   || negb (str_truthy (Cli.name args) && str_truthy (Cli.email args)
            && str_truthy (Cli.address args)
            && str_truthy (Cli.recipient args)) = true ->
   (forall l1 l2 l3 l4 rest,
      Cli.stdin c = l1 :: l2 :: l3 :: l4 :: rest ->
      exists c',
        Cli.get_fields args c =
          (Return
             (if bool_decide (strip l1 <> "" /\ strip l2 <> "" /\
                              strip l3 <> "" /\ strip l4 <> "")
              then Some (strip l1, strip l2, strip l3, strip l4)
              else None), c') /\
        Cli.stdin c' = rest /\
        Cli.agent_world c' = Cli.agent_world c) /\
   ((length (Cli.stdin c) < 4)%nat ->
    exists c',
      Cli.get_fields args c =
        (Raise (ExternalError "EOF when reading a line"), c'))) /\
  (forall n e a r c',
     Cli.get_fields args c = (Return (Some (n, e, a, r)), c') ->
     n <> "" /\ e <> "" /\ a <> "" /\ r <> "").
Proof.
  split_and!.
  - intros n e a r Hi Hn He Ha Hr ? ? ? ?. unfold Cli.get_fields.
    rewrite Hi, Hn, He, Ha, Hr. cbn [str_truthy orb default].
    by rewrite !bool_decide_false by done.
  - intros Hprompt. unfold Cli.get_fields. rewrite Hprompt. split.
    + intros l1 l2 l3 l4 rest Hin. unfold Cli.say.
      do 2 (erewrite bind_Return by reflexivity).
      do 4 (erewrite bind_Return by (by apply input_line)).
      destruct (decide (strip l1 = "")) as [H1|H1];
        [rewrite (bool_decide_true (strip l1 = "")) by done|
         rewrite (bool_decide_false (strip l1 = "")) by done];
      (destruct (decide (strip l2 = "")) as [H2|H2];
        [rewrite (bool_decide_true (strip l2 = "")) by done|
         rewrite (bool_decide_false (strip l2 = "")) by done]);
      (destruct (decide (strip l3 = "")) as [H3|H3];
        [rewrite (bool_decide_true (strip l3 = "")) by done|
         rewrite (bool_decide_false (strip l3 = "")) by done]);
      (destruct (decide (strip l4 = "")) as [H4|H4];
        [rewrite (bool_decide_true (strip l4 = "")) by done|
         rewrite (bool_decide_false (strip l4 = "")) by done]);
      cbn [negb andb];
      first [ rewrite bool_decide_true by done
            | rewrite bool_decide_false by (intros (? & ? & ? & ?); done) ];
      try (erewrite bind_Return by reflexivity);
      by eexists.
    + intros Hshort. unfold Cli.say.
      do 2 (erewrite bind_Return by reflexivity).
      destruct (Cli.stdin c) as [|l1 [|l2 [|l3 [|l4 rest]]]] eqn:Hin;
        [| | | |cbn in Hshort; lia].
      * erewrite bind_Raise; [by eexists|]. by apply input_eof.
      * erewrite bind_Return by (by apply input_line).
        erewrite bind_Raise; [by eexists|]. by apply input_eof.
      * do 2 (erewrite bind_Return by (by apply input_line)).
        erewrite bind_Raise; [by eexists|]. by apply input_eof.
      * do 3 (erewrite bind_Return by (by apply input_line)).
        erewrite bind_Raise; [by eexists|]. by apply input_eof.
  - intros n e a r c'. unfold Cli.get_fields.
    destruct (Cli.interactive args
              || negb (str_truthy (Cli.name args) && str_truthy (Cli.email args)
                       && str_truthy (Cli.address args)
                       && str_truthy (Cli.recipient args))) eqn:Hprompt.
    + intros H.
      apply bind_inv_Return in H as ([] & ? & _ & H).
      apply bind_inv_Return in H as ([] & ? & _ & H).
      apply bind_inv_Return in H as (l1 & ? & _ & H).
      apply bind_inv_Return in H as (l2 & ? & _ & H).
      apply bind_inv_Return in H as (l3 & ? & _ & H).
      apply bind_inv_Return in H as (l4 & ? & _ & H).
      repeat case_bool_decide; cbn [negb andb] in H;
        try (apply bind_inv_Return in H as ([] & ? & _ & H); discriminate H).
      by injection H as <- <- <- <- _.
    + apply orb_false_iff in Hprompt as [_ Hflags].
      apply negb_false_iff in Hflags.
      rewrite !andb_true_iff in Hflags.
      destruct Hflags as [[[Hn He] Ha] Hr].
      apply str_truthy_Some in Hn as (n' & -> & ?).
      apply str_truthy_Some in He as (e' & -> & ?).
      apply str_truthy_Some in Ha as (a' & -> & ?).
      apply str_truthy_Some in Hr as (r' & -> & ?).
      by intros [= <- <- <- <- _].
Qed.

(** X25. [main] starts with the command line. When argparse ends the
    process ([SystemExit]: status 2 on a command line it refuses,
    status 0 after [--help]), [main] ends with that status and nothing
    else is done; an exception of argparse leaves [main]. When the
    command line is parsed, [main] ends with status 0 or 1. The status
    is then 0 exactly when the fields were obtained, [create_agent]
    returned an agent, [process_submission] returned for these four
    fields a dictionary whose [success] is true, and the dictionary has
    the keys [document_url] and [email_message_id] that the success
    message prints. No exception leaves [main] once the fields are
    obtained. *)
Theorem main_exit_status argv c :
  match parse_args argv c with
  | (Return (Cli.SystemExit code), c0) =>
      Cli.main create_agent process_submission parse_args argv c =
      (Return code, c0)
  | (Raise ex, c0) =>
      Cli.main create_agent process_submission parse_args argv c =
      (Raise ex, c0)
  | (Return (Cli.Parsed args), c0) =>
      let outcome :=
        Cli.main create_agent process_submission parse_args argv c in
      (Cli.exit_status (fst outcome) = 0 \/
       Cli.exit_status (fst outcome) = 1) /\
      (Cli.exit_status (fst outcome) = 0 <->
       exists n e a r c1 agent w1 result w2 ok,
         Cli.get_fields args c0 = (Return (Some (n, e, a, r)), c1) /\
         create_agent (Cli.agent_world c1) = (Return agent, w1) /\
         process_submission agent n e a r w1 = (Return result, w2) /\
         result !! "success" = Some ok /\ truthy ok = true /\
         is_Some (result !! "document_url") /\
         is_Some (result !! "email_message_id")) /\
      (forall ex c',
         outcome = (Raise ex, c') ->
         Cli.get_fields args c0 = (Raise ex, c'))
  end.
Proof.
  unfold Cli.main. rewrite bind_eq.
  destruct (parse_args argv c) as [[[args|code]|ex] c0]; [|done|done].
  cbv zeta. rewrite bind_eq.
  destruct (Cli.get_fields args c0) as [[[[[[n e] a] r]|]|ex] c1] eqn:Hfields.
  2:{ cbn. unfold ret. split_and!; [by right| |by intros ? ? [=]].
      split; [done|].
      by intros (? & ? & ? & ? & ? & ? & ? & ? & ? & ? & [=] & _). }
  2:{ cbn. split_and!; [by right| |by intros ? ? [= <- <-]].
      split; [done|].
      by intros (? & ? & ? & ? & ? & ? & ? & ? & ? & ? & [=] & _). }
  unfold Cli.say, try_except, bind, modify, Cli.in_agent, lift, getitem, ret.
  cbn [Cli.agent_world Cli.stdin Cli.stdout].
  destruct (create_agent (Cli.agent_world c1)) as [[agent|ex] w1] eqn:Hagent;
    cbn [Cli.agent_world Cli.stdin Cli.stdout].
  2:{ cbn. split_and!; [by right| |by intros ? ? [=]]. split; [done|].
      intros (? & ? & ? & ? & ? & ? & ? & ? & ? & ? & [= <- <- <- <- <-] & ? & _).
      congruence. }
  destruct (process_submission agent n e a r w1) as [[result|ex] w2] eqn:Hrun;
    cbn [Cli.agent_world Cli.stdin Cli.stdout].
  2:{ cbn. split_and!; [by right| |by intros ? ? [=]]. split; [done|].
      intros (? & ? & ? & ? & ? & ? & ? & ? & ? & ? & [= <- <- <- <- <-] & ? & ? & _).
      congruence. }
  destruct (result !! "success") as [ok|] eqn:Hok;
    cbn [Cli.agent_world Cli.stdin Cli.stdout].
  2:{ cbn. split_and!; [by right| |by intros ? ? [=]]. split; [done|].
      intros (? & ? & ? & ? & ? & ? & ? & ? & ? & ? & [= <- <- <- <- <-] & ? & ? & ? & _).
      congruence. }
  destruct (truthy ok) eqn:Htruthy;
    cbn [Cli.agent_world Cli.stdin Cli.stdout].
  2:{ destruct (result !! "message"); cbn;
        (split_and!; [by right| |by intros ? ? [=]]; split; [done|]);
        intros (? & ? & ? & ? & ? & ? & ? & ? & ? & ? & [= <- <- <- <- <-] & ? & ? & ? & ? & _);
        congruence. }
  destruct (result !! "document_url") as [url|] eqn:Hurl;
    cbn [Cli.agent_world Cli.stdin Cli.stdout].
  2:{ cbn. split_and!; [by right| |by intros ? ? [=]]. split; [done|].
      intros (? & ? & ? & ? & ? & ? & ? & ? & ? & ? & [= <- <- <- <- <-] & ? & ? & ? & ? & [? ?] & _).
      congruence. }
  destruct (result !! "email_message_id") as [mid|] eqn:Hmid;
    cbn [Cli.agent_world Cli.stdin Cli.stdout].
  2:{ cbn. split_and!; [by right| |by intros ? ? [=]]. split; [done|].
      intros (? & ? & ? & ? & ? & ? & ? & ? & ? & ? & [= <- <- <- <- <-] & ? & ? & ? & ? & _ & [? ?]).
      congruence. }
  cbn. split_and!; [by left| |by intros ? ? [=]]. split; [|done]. intros _.
  exists n, e, a, r, c1, agent, w1, result, w2, ok.
  split_and!; eauto.
Qed.

End CommandLine.

(** [main] with all four flags and a stub that reports success. *)
Example main_with_stub :
  Cli.main (ret tt) (cli_stub success_report) stub_parse_args
    ["--name"; "Jane Smith"; "--email"; "jane@x.com";
     "--address"; "1 Oak Ave"; "--recipient"; "admin@co.com"]
    (Cli.MkConsole [] [] tt) =
  (Return 0,
   Cli.MkConsole []
     ["
Processing submission for: Jane Smith";
      Cli.rule;
      "Submission processed successfully!";
      "
Document created: https://docs.google.com/document/d/doc-1";
      "Email sent with message ID: msg-1"] tt).
Proof. vm_compute. reflexivity. Qed.

(** [main] on a command line that the parser refuses, and on
    [--help]: the agent is not created and nothing is printed. *)
Example main_with_bad_command_line :
  Cli.main (ret tt) (cli_stub success_report) stub_parse_args
    ["--nmae"; "Jane Smith"] (Cli.MkConsole [] [] tt) =
  (Return 2, Cli.MkConsole [] [] tt) /\
  Cli.main (ret tt) (cli_stub success_report) stub_parse_args
    ["--help"] (Cli.MkConsole [] [] tt) =
  (Return 0, Cli.MkConsole [] [] tt).
Proof. vm_compute. done. Qed.

(** ** The form of the web front end *)

(** X26. When the form is submitted it calls [process_submission]
    only with the four values trimmed, none of them empty and both
    addresses accepted by [validate_email]; the name and the address
    that it passes on are accepted, unchanged, by the required-field
    validator of [UserSubmission]. Otherwise it shows a list of errors
    that is not empty. *)
Theorem form_forwards_clean_fields (re_match : string -> string -> bool)
    (name email recipient_email address : string) :
  match Form.on_submit re_match name email recipient_email address with
  | Form.ProcessSubmission n e a r =>
      n = strip name /\ e = strip email /\ a = strip address /\
      r = strip recipient_email /\
      n <> "" /\ e <> "" /\ a <> "" /\ r <> "" /\
      Form.validate_email re_match e = true /\
      Form.validate_email re_match r = true /\
      UserSubmission.validate_required_fields n = Return n /\
      UserSubmission.validate_required_fields a = Return a
  | Form.ShowErrors errs =>
      errs <> [] /\
      (strip name = "" \/ strip email = "" \/ strip address = "" \/
       strip recipient_email = "" \/
       Form.validate_email re_match (strip email) = false \/
       Form.validate_email re_match (strip recipient_email) = false)
  end.
Proof.
  assert (forall v, Form.is_missing v = bool_decide (strip v = "")) as Hmissing.
  { intros v. unfold Form.is_missing.
    case_bool_decide as Hv; [by subst v|done]. }
  assert (forall v, strip v <> "" ->
            UserSubmission.validate_required_fields (strip v) =
            Return (strip v)) as Hvalid.
  { intros v Hv. unfold UserSubmission.validate_required_fields.
    by rewrite strip_idem, !bool_decide_false. }
  unfold Form.on_submit, Form.errors. rewrite !Hmissing.
  destruct (decide (strip name = "")) as [Hn|Hn];
    [rewrite (bool_decide_true (strip name = "")) by done;
     cbn [app]; split; [done|by left]|].
  rewrite (bool_decide_false (strip name = "")) by done. cbn [app].
  destruct (decide (strip email = "")) as [He|He];
    [rewrite (bool_decide_true (strip email = "")) by done;
     cbn [app]; split; [done|right; by left]|].
  rewrite (bool_decide_false (strip email = "")) by done.
  destruct (Form.validate_email re_match (strip email)) eqn:Hev;
    cbn [negb app]; [|split; [done|by do 4 right; left]].
  destruct (decide (strip recipient_email = "")) as [Hr|Hr];
    [rewrite (bool_decide_true (strip recipient_email = "")) by done;
     cbn [app]; split; [done|by do 3 right; left]|].
  rewrite (bool_decide_false (strip recipient_email = "")) by done.
  destruct (Form.validate_email re_match (strip recipient_email)) eqn:Hrv;
    cbn [negb app]; [|split; [done|by do 5 right]].
  destruct (decide (strip address = "")) as [Ha|Ha];
    [rewrite (bool_decide_true (strip address = "")) by done;
     cbn [app]; split; [done|by do 2 right; left]|].
  rewrite (bool_decide_false (strip address = "")) by done. cbn [app].
  split_and!; auto.
Qed.
